(** * Site Mirror: a shallow embedding of [site_scraper.py]

    The crawler of [src/site_scraper.py] is modelled function by function.
    Python [str] values are Rocq strings whose characters are read as the
    code points 0..255; Python sets of URLs are [gset string]; exceptions
    are an explicit [result] type; the shared mutable state of [SiteMirror]
    (seen-set, saved-set, page counter, work queue) is threaded explicitly,
    and the lock-protected critical sections are the atomic steps of a
    transition relation.

    The standard-library functions the crawler calls ([str] methods,
    [urllib.parse], [pathlib.PurePosixPath], [hashlib.sha1]) are modelled
    after CPython 3.11; HTTP, the HTML parser and the robots parser are
    collaborators and enter as data or as function arguments. *)

From Stdlib Require Import ZArith Lia List Ascii String Bool Arith.
From Stdlib Require Import Permutation.
From stdpp Require Import base gmap strings list.

Open Scope string_scope.

(* ===================================================================== *)
(** ** Exceptions *)
(* ===================================================================== *)

(** The exceptions the crawler can meet: [ValueError] from URL parsing and
    from [pathlib], [RequestException] from the HTTP client, [OSError] from
    the file system, and [OtherException] for anything else a collaborator
    raises. *)
Inductive exn : Type :=
  | ValueError
  | RequestException
  | OSError
  | OtherException.

Inductive result (A : Type) : Type :=
  | Ok (a : A)
  | Raise (e : exn).
Arguments Ok {A} a.
Arguments Raise {A} e.

Definition rbind {A B : Type} (m : result A) (k : A -> result B) : result B :=
  match m with
  | Ok a => k a
  | Raise e => Raise e
  end.

Definition rmap {A B : Type} (f : A -> B) (m : result A) : result B :=
  rbind m (fun a => Ok (f a)).

Notation "'let*' x := m 'in' k" := (rbind m (fun x => k))
  (at level 10, x name, m at level 100, k at level 200).

(* ===================================================================== *)
(** ** Python [str] methods *)
(* ===================================================================== *)

Module Py.

(** [c in s] for a one-character [c]. *)
Fixpoint mem (c : ascii) (s : string) : bool :=
  match s with
  | EmptyString => false
  | String d t => Ascii.eqb c d || mem c t
  end.

(** [bool(s)]: a string is truthy when it is not empty. *)
Definition truthy (s : string) : bool :=
  match s with
  | EmptyString => false
  | String _ _ => true
  end.

Fixpoint all (p : ascii -> bool) (s : string) : bool :=
  match s with
  | EmptyString => true
  | String c t => p c && all p t
  end.

Fixpoint lstrip_by (p : ascii -> bool) (s : string) : string :=
  match s with
  | EmptyString => EmptyString
  | String c t => if p c then lstrip_by p t else s
  end.

Fixpoint rstrip_by (p : ascii -> bool) (s : string) : string :=
  match s with
  | EmptyString => EmptyString
  | String c t =>
      match rstrip_by p t with
      | EmptyString => if p c then EmptyString else String c EmptyString
      | r => String c r
      end
  end.

(** [str.isspace] on the code points below 256: the ASCII white space
    0x09-0x0D and 0x1C-0x20, NEL (0x85) and the no-break space (0xA0). *)
Definition isspace (c : ascii) : bool :=
  let n := nat_of_ascii c in
  (((9 <=? n) && (n <=? 13)) || ((28 <=? n) && (n <=? 32))
   || (n =? 133) || (n =? 160))%nat.

(** [s.strip()] *)
Definition strip (s : string) : string :=
  rstrip_by isspace (lstrip_by isspace s).

(** [s.lstrip(chars)] *)
Definition lstrip (chars : string) (s : string) : string :=
  lstrip_by (fun c => mem c chars) s.

Definition rstrip (chars : string) (s : string) : string :=
  rstrip_by (fun c => mem c chars) s.

(** [s.replace(c, "")] for a one-character [c]. *)
Fixpoint remove (c : ascii) (s : string) : string :=
  match s with
  | EmptyString => EmptyString
  | String d t => if Ascii.eqb d c then remove c t else String d (remove c t)
  end.

(** [s.partition(c)]: [Some (before, after)] at the first [c], [None]
    when [c] does not occur (Python then returns [(s, '', '')]). *)
Fixpoint partition (c : ascii) (s : string) : option (string * string) :=
  match s with
  | EmptyString => None
  | String d t =>
      if Ascii.eqb d c then Some (EmptyString, t)
      else match partition c t with
           | Some (a, b) => Some (String d a, b)
           | None => None
           end
  end.

(** [s.rpartition(c)]: the same at the last [c]. *)
Fixpoint rpartition (c : ascii) (s : string) : option (string * string) :=
  match s with
  | EmptyString => None
  | String d t =>
      match rpartition c t with
      | Some (a, b) => Some (String d a, b)
      | None => if Ascii.eqb d c then Some (EmptyString, t) else None
      end
  end.

(** [s.split(c)] *)
Fixpoint split (c : ascii) (s : string) : list string :=
  match s with
  | EmptyString => [EmptyString]
  | String d t =>
      if Ascii.eqb d c then EmptyString :: split c t
      else match split c t with
           | h :: r => String d h :: r
           | [] => [String d EmptyString]
           end
  end.

(** [sep.join(l)] *)
Fixpoint join (sep : string) (l : list string) : string :=
  match l with
  | [] => EmptyString
  | [x] => x
  | x :: r => x +:+ sep +:+ join sep r
  end.

(** [str.lower] on one code point below 256: A-Z, and the Latin-1 capitals
    0xC0-0xDE without the multiplication sign 0xD7. *)
Definition lower_char (c : ascii) : ascii :=
  let n := nat_of_ascii c in
  if (((65 <=? n) && (n <=? 90))
      || ((192 <=? n) && (n <=? 222) && negb (n =? 215)))%nat
  then ascii_of_nat (n + 32) else c.

Fixpoint lower (s : string) : string :=
  match s with
  | EmptyString => EmptyString
  | String c t => String (lower_char c) (lower t)
  end.

(** [s.startswith(p)] *)
Fixpoint startswith (p s : string) : bool :=
  match p, s with
  | EmptyString, _ => true
  | String a p', String b s' => Ascii.eqb a b && startswith p' s'
  | String _ _, EmptyString => false
  end.

Fixpoint drop (n : nat) (s : string) : string :=
  match n, s with
  | O, _ => s
  | S n', String _ t => drop n' t
  | S _, EmptyString => EmptyString
  end.

(** [s.endswith(p)] *)
Definition endswith (p s : string) : bool :=
  (String.length p <=? String.length s)%nat
  && String.eqb (drop (String.length s - String.length p) s) p.

(** [s[:n]] *)
Fixpoint take (n : nat) (s : string) : string :=
  match n, s with
  | O, _ => EmptyString
  | S n', String c t => String c (take n' t)
  | S _, EmptyString => EmptyString
  end.

(** [x in l] for a list or tuple of strings. *)
Definition in_list (x : string) (l : list string) : bool :=
  existsb (String.eqb x) l.

End Py.

(* ===================================================================== *)
(** ** [urllib.parse] *)
(* ===================================================================== *)

(** The functions below follow [Lib/urllib/parse.py] of CPython 3.11 for
    [str] arguments.  Two checks of [urlsplit] are left out:
    [_checknetloc], which only rejects characters whose NFKC form contains
    one of [/?#@:] and there is none below code point 256, and the
    validation of a bracketed host as an IPv6 or IPvFuture literal, which
    only the later 3.11 releases perform; the test that brackets are
    balanced is kept. *)

Module urllib.

Definition uses_relative : list string :=
  [""; "ftp"; "http"; "gopher"; "nntp"; "imap"; "wais"; "file"; "https";
   "shttp"; "mms"; "prospero"; "rtsp"; "rtspu"; "sftp"; "svn"; "svn+ssh";
   "ws"; "wss"].

Definition uses_netloc : list string :=
  [""; "ftp"; "http"; "gopher"; "nntp"; "telnet"; "imap"; "wais"; "file";
   "mms"; "https"; "shttp"; "snews"; "prospero"; "rtsp"; "rtspu"; "rsync";
   "svn"; "svn+ssh"; "sftp"; "nfs"; "git"; "git+ssh"; "ws"; "wss"].

Definition uses_params : list string :=
  [""; "ftp"; "hdl"; "prospero"; "http"; "imap"; "https"; "shttp"; "rtsp";
   "rtspu"; "sip"; "sips"; "mms"; "sftp"; "tel"].

Definition scheme_chars : string :=
  "abcdefghijklmnopqrstuvwxyzABCDEFGHIJKLMNOPQRSTUVWXYZ0123456789+-.".

Definition is_scheme_char (c : ascii) : bool := Py.mem c scheme_chars.

(** Membership in [_WHATWG_C0_CONTROL_OR_SPACE], the code points 0..32. *)
Definition is_c0_or_space (c : ascii) : bool := (nat_of_ascii c <=? 32)%nat.

(** [c.isascii() and c.isalpha()] *)
Definition is_ascii_alpha (c : ascii) : bool :=
  let n := nat_of_ascii c in
  (((65 <=? n) && (n <=? 90)) || ((97 <=? n) && (n <=? 122)))%nat.

(** The loop over [_UNSAFE_URL_BYTES_TO_REMOVE]: tab, CR, LF. *)
Definition remove_unsafe (s : string) : string :=
  Py.remove "010" (Py.remove "013" (Py.remove "009" s)).

Record SplitResult : Type := mkSplit {
  s_scheme : string;
  s_netloc : string;
  s_path : string;
  s_query : string;
  s_fragment : string
}.

Record ParseResult : Type := mkParse {
  scheme : string;
  netloc : string;
  path : string;
  params : string;
  query : string;
  fragment : string
}.

(** [_splitnetloc(url, 2)], given [url[2:]]: the text up to the first of
    [/], [?], [#] is the netloc, the rest goes on to be parsed. *)
Fixpoint _splitnetloc (s : string) : string * string :=
  match s with
  | EmptyString => (EmptyString, EmptyString)
  | String c t =>
      if Py.mem c "/?#" then (EmptyString, s)
      else let '(n, r) := _splitnetloc t in (String c n, r)
  end.

(** The scheme test of [urlsplit]: [i = url.find(':')], [i > 0], the first
    character an ASCII letter and every character of [url[:i]] a scheme
    character; then the scheme is [url[:i].lower()] and the URL goes on
    after the colon. *)
Definition split_scheme (dflt url : string) : string * string :=
  match Py.partition ":" url with
  | Some (String c0 s' as s, rest) =>
      if is_ascii_alpha c0 && Py.all is_scheme_char s
      then (Py.lower s, rest) else (dflt, url)
  | _ => (dflt, url)
  end.

(** The bracket test on the netloc; [true] when [urlsplit] raises
    [ValueError("Invalid IPv6 URL")]. *)
Definition bad_brackets (netloc : string) : bool :=
  (Py.mem "[" netloc && negb (Py.mem "]" netloc))
  || (Py.mem "]" netloc && negb (Py.mem "[" netloc)).

(** [url.split(c, 1)] when [c] occurs, as a pair; otherwise [url] and the
    empty string. *)
Definition split1 (c : ascii) (url : string) : string * string :=
  match Py.partition c url with
  | Some (a, b) => (a, b)
  | None => (url, EmptyString)
  end.

Definition urlsplit (scheme url : string) : result SplitResult :=
  let url := Py.lstrip_by is_c0_or_space url in
  let scheme :=
    Py.rstrip_by is_c0_or_space (Py.lstrip_by is_c0_or_space scheme) in
  let url := remove_unsafe url in
  let scheme := remove_unsafe scheme in
  let '(scheme, url) := split_scheme scheme url in
  let '(netloc, url) :=
    if Py.startswith "//" url then _splitnetloc (Py.drop 2 url)
    else (EmptyString, url) in
  if bad_brackets netloc then Raise ValueError
  else
    let '(url, fragment) := split1 "#" url in
    let '(url, query) := split1 "?" url in
    Ok (mkSplit scheme netloc url query fragment).

(** [_splitparams]; it is only called on a [url] that contains [;]. *)
Definition _splitparams (url : string) : string * string :=
  match Py.rpartition "/" url with
  | Some (a, b) =>
      match Py.partition ";" b with
      | Some (b1, p) => (a +:+ "/" +:+ b1, p)
      | None => (url, EmptyString)
      end
  | None => split1 ";" url
  end.

Definition urlparse (scheme url : string) : result ParseResult :=
  let* r := urlsplit scheme url in
  let '(url, params) :=
    if Py.in_list (s_scheme r) uses_params && Py.mem ";" (s_path r)
    then _splitparams (s_path r) else (s_path r, EmptyString) in
  Ok (mkParse (s_scheme r) (s_netloc r) url params (s_query r)
        (s_fragment r)).

Definition urlunsplit (scheme netloc url query fragment : string) : string :=
  let url :=
    if Py.truthy netloc
       || (Py.truthy scheme && Py.in_list scheme uses_netloc
           && negb (Py.startswith "//" url))
    then
      let url :=
        if Py.truthy url && negb (Py.startswith "/" url)
        then "/" +:+ url else url in
      "//" +:+ netloc +:+ url
    else url in
  let url := if Py.truthy scheme then scheme +:+ ":" +:+ url else url in
  let url := if Py.truthy query then url +:+ "?" +:+ query else url in
  let url := if Py.truthy fragment then url +:+ "#" +:+ fragment else url in
  url.

Definition urlunparse (p : ParseResult) : string :=
  let url :=
    if Py.truthy (params p) then path p +:+ ";" +:+ params p else path p in
  urlunsplit (scheme p) (netloc p) url (query p) (fragment p).

Definition set_fragment (p : ParseResult) (f : string) : ParseResult :=
  mkParse (scheme p) (netloc p) (path p) (params p) (query p) f.

(** [urldefrag(url)]: the pair (URL without fragment, fragment). *)
Definition urldefrag (url : string) : result (string * string) :=
  if Py.mem "#" url then
    let* p := urlparse "" url in
    Ok (urlunparse (set_fragment p ""), fragment p)
  else Ok (url, EmptyString).

(** The loop of [urljoin] that resolves [.] and [..] segments; the
    accumulator is the reversed [resolved_path]. *)
Fixpoint resolve_segments (segments : list string) (acc : list string)
  : list string :=
  match segments with
  | [] => rev acc
  | seg :: rest =>
      if String.eqb seg ".." then resolve_segments rest (tl acc)
      else if String.eqb seg "." then resolve_segments rest acc
      else resolve_segments rest (seg :: acc)
  end.

(** [segments[1:-1] = filter(None, segments[1:-1])] *)
Definition filter_middle (segments : list string) : list string :=
  match segments with
  | [] => []
  | first :: rest =>
      match rev rest with
      | [] => [first]
      | lst :: mid_rev =>
          (first :: List.filter Py.truthy (rev mid_rev) ++ [lst])%list
      end
  end.

Definition urljoin (base url : string) : result string :=
  if negb (Py.truthy base) then Ok url
  else if negb (Py.truthy url) then Ok base
  else
    let* b := urlparse "" base in
    let* u := urlparse (scheme b) url in
    if negb (String.eqb (scheme u) (scheme b))
       || negb (Py.in_list (scheme u) uses_relative)
    then Ok url
    else if Py.in_list (scheme u) uses_netloc && Py.truthy (netloc u)
    then Ok (urlunparse u)
    else
      let netloc' :=
        if Py.in_list (scheme u) uses_netloc then netloc b else netloc u in
      if negb (Py.truthy (path u)) && negb (Py.truthy (params u))
      then
        let query' := if Py.truthy (query u) then query u else query b in
        Ok (urlunparse (mkParse (scheme u) netloc' (path b) (params b)
                          query' (fragment u)))
      else
        let base_parts := Py.split "/" (path b) in
        let base_parts :=
          if String.eqb (List.last base_parts EmptyString) EmptyString
          then base_parts else removelast base_parts in
        let segments :=
          if Py.startswith "/" (path u) then Py.split "/" (path u)
          else filter_middle (base_parts ++ Py.split "/" (path u))%list in
        let resolved := resolve_segments segments [] in
        let resolved :=
          if Py.in_list (List.last segments EmptyString) ["."; ".."]
          then (resolved ++ [EmptyString])%list else resolved in
        let joined := Py.join "/" resolved in
        let path' := if Py.truthy joined then joined else "/" in
        Ok (urlunparse (mkParse (scheme u) netloc' path' (params u)
                          (query u) (fragment u))).

(** The [hostname] property of a parse result: [None] for Python's
    [None]. *)
Definition hostname_of_netloc (netloc : string) : option string :=
  let hostinfo :=
    match Py.rpartition "@" netloc with
    | Some (_, h) => h
    | None => netloc
    end in
  let host :=
    match Py.partition "[" hostinfo with
    | Some (_, bracketed) => fst (split1 "]" bracketed)
    | None => fst (split1 ":" hostinfo)
    end in
  if Py.truthy host then
    match Py.partition "%" host with
    | Some (h, zone) => Some (Py.lower h +:+ "%" +:+ zone)
    | None => Some (Py.lower host)
    end
  else None.

Definition hostname (p : ParseResult) : option string :=
  hostname_of_netloc (netloc p).

End urllib.

(* ===================================================================== *)
(** ** URL utilities of [SiteMirror] *)
(* ===================================================================== *)

(** [SiteMirror._normalize_url]: strip white space, then remove the
    fragment. *)
Definition _normalize_url (u : string) : result string :=
  let u := Py.strip u in
  let* r := urllib.urldefrag u in
  Ok (fst r).

(** [SiteMirror._is_http] *)
Definition _is_http (u : string) : result bool :=
  let* p := urllib.urlparse "" u in
  Ok (Py.in_list (urllib.scheme p) ["http"; "https"]).

(** [SiteMirror._hash8] needs SHA-1. *)
Module hashlib.

Open Scope Z_scope.

Definition mask32 : Z := 0xFFFFFFFF.
Definition add32 (a b : Z) : Z := Z.land (a + b) mask32.
Definition rotl32 (n x : Z) : Z :=
  Z.land (Z.lor (Z.shiftl x n) (Z.shiftr x (32 - n))) mask32.
Definition not32 (x : Z) : Z := Z.lxor x mask32.

(** [s.encode("utf-8", "ignore")] for code points below 256: one byte
    below 128, two bytes from 128 on; nothing is ever ignored. *)
Fixpoint utf8 (s : string) : list Z :=
  match s with
  | EmptyString => []
  | String c t =>
      let n := Z.of_nat (nat_of_ascii c) in
      if n <? 128 then n :: utf8 t
      else (192 + Z.shiftr n 6) :: (128 + Z.land n 63) :: utf8 t
  end.

(** The big-endian bytes of [x], [n] of them. *)
Fixpoint be_bytes (n : nat) (x : Z) : list Z :=
  match n with
  | O => []
  | S n' => Z.land (Z.shiftr x (8 * Z.of_nat n')) 255 :: be_bytes n' x
  end.

(** Message padding: a 1 bit, zeros up to 56 modulo 64, the bit length
    on 64 bits. *)
Definition pad (msg : list Z) : list Z :=
  let len := Z.of_nat (List.length msg) in
  let zeros := Z.to_nat ((55 - len) mod 64) in
  (msg ++ [128] ++ List.repeat 0 zeros ++ be_bytes 8 (8 * len))%list.

Fixpoint words (fuel : nat) (bytes : list Z) : list Z :=
  match fuel, bytes with
  | S f, b0 :: b1 :: b2 :: b3 :: rest =>
      (Z.shiftl b0 24 + Z.shiftl b1 16 + Z.shiftl b2 8 + b3)
      :: words f rest
  | _, _ => []
  end.

(** The message schedule, newest word first: sixteen words of the block,
    then word [t] is the rotated xor of words [t-3], [t-8], [t-14],
    [t-16]. *)
Fixpoint schedule (n : nat) (w_rev : list Z) : list Z :=
  match n with
  | O => w_rev
  | S n' =>
      let x := Z.lxor (Z.lxor (nth 2 w_rev 0) (nth 7 w_rev 0))
                 (Z.lxor (nth 13 w_rev 0) (nth 15 w_rev 0)) in
      schedule n' (rotl32 1 x :: w_rev)
  end.

Definition state : Type := (Z * Z * Z * Z * Z)%type.

Definition round (t : Z) (st : state) (w : Z) : state :=
  let '(a, b, c, d, e) := st in
  let '(f, k) :=
    if t <? 20 then
      (Z.lor (Z.land b c) (Z.land (not32 b) d), 0x5A827999)
    else if t <? 40 then (Z.lxor (Z.lxor b c) d, 0x6ED9EBA1)
    else if t <? 60 then
      (Z.lor (Z.lor (Z.land b c) (Z.land b d)) (Z.land c d), 0x8F1BBCDC)
    else (Z.lxor (Z.lxor b c) d, 0xCA62C1D6) in
  let temp := add32 (add32 (add32 (add32 (rotl32 5 a) f) e) k) w in
  (temp, a, rotl32 30 b, c, d).

Fixpoint rounds (t : Z) (ws : list Z) (st : state) : state :=
  match ws with
  | [] => st
  | w :: rest => rounds (t + 1) rest (round t st w)
  end.

Definition compress (h : state) (block : list Z) : state :=
  let ws := rev (schedule 64 (rev block)) in
  let '(a, b, c, d, e) := rounds 0 ws h in
  let '(h0, h1, h2, h3, h4) := h in
  (add32 h0 a, add32 h1 b, add32 h2 c, add32 h3 d, add32 h4 e).

Fixpoint blocks (fuel : nat) (ws : list Z) (h : state) : state :=
  match fuel, ws with
  | S f, _ :: _ => blocks f (List.skipn 16 ws) (compress h (List.firstn 16 ws))
  | _, _ => h
  end.

Definition sha1 (msg : list Z) : state :=
  let ws := words (List.length (pad msg)) (pad msg) in
  blocks (List.length ws)
    ws (0x67452301, 0xEFCDAB89, 0x98BADCFE, 0x10325476, 0xC3D2E1F0).

Definition hex_digit (d : Z) : ascii :=
  if d <? 10 then ascii_of_nat (Z.to_nat (48 + d))
  else ascii_of_nat (Z.to_nat (87 + d)).

(** [n] lower-case hexadecimal digits of [x], most significant first. *)
Fixpoint hex (n : nat) (x : Z) : string :=
  match n with
  | O => EmptyString
  | S n' =>
      String (hex_digit (Z.land (Z.shiftr x (4 * Z.of_nat n')) 15))
        (hex n' x)
  end.

Definition hexdigest (h : state) : string :=
  let '(h0, h1, h2, h3, h4) := h in
  hex 8 h0 +:+ hex 8 h1 +:+ hex 8 h2 +:+ hex 8 h3 +:+ hex 8 h4.

End hashlib.

(** [SiteMirror._hash8]: the first eight hexadecimal digits of the SHA-1
    of the UTF-8 bytes of [s]. *)
Definition _hash8 (s : string) : string :=
  Py.take 8 (hashlib.hexdigest (hashlib.sha1 (hashlib.utf8 s))).

(* ===================================================================== *)
(** ** [pathlib.PurePosixPath] *)
(* ===================================================================== *)

Module pathlib.

(** A path is its root ([""], ["/"] or ["//"]) and its components, which
    are non-empty, differ from ["."] and contain no slash. *)
Record Path : Type := mkPath {
  root : string;
  parts : list string
}.

(** The components [parse_parts] keeps of one string. *)
Definition parse_parts (s : string) : list string :=
  List.filter (fun x => Py.truthy x && negb (String.eqb x "."))
    (Py.split "/" s).

(** [splitroot]: exactly two leading slashes are kept as a root of their
    own. *)
Definition splitroot (s : string) : string :=
  if Py.startswith "/" s then
    if (String.length s - String.length (Py.lstrip "/" s) =? 2)%nat
    then "//" else "/"
  else EmptyString.

(** [Path(s)] *)
Definition of_string (s : string) : Path :=
  mkPath (splitroot s) (parse_parts s).

(** [p / s]: a rooted [s] replaces [p], any other is appended. *)
Definition joinpath (p : Path) (s : string) : Path :=
  if Py.truthy (splitroot s) then of_string s
  else mkPath (root p) (parts p ++ parse_parts s)%list.

Definition name (p : Path) : string := List.last (parts p) EmptyString.

(** The test [0 < i < len(name) - 1] on [i = name.rfind('.')], with the
    two sides of the last dot. *)
Definition last_dot (nm : string) : option (string * string) :=
  match Py.rpartition "." nm with
  | Some (a, b) => if Py.truthy a && Py.truthy b then Some (a, b) else None
  | None => None
  end.

Definition suffix (p : Path) : string :=
  match last_dot (name p) with
  | Some (_, b) => "." +:+ b
  | None => EmptyString
  end.

Definition stem (p : Path) : string :=
  match last_dot (name p) with
  | Some (a, _) => a
  | None => name p
  end.

Definition suffixes (p : Path) : list string :=
  if Py.endswith "." (name p) then []
  else List.map (fun s => "." +:+ s)
         (List.tl (Py.split "." (Py.lstrip "." (name p)))).

Definition parent (p : Path) : Path :=
  mkPath (root p) (List.removelast (parts p)).

(** [p.with_suffix(sfx)] for a well-formed [sfx] such as [".html"]. *)
Definition with_suffix (p : Path) (sfx : string) : result Path :=
  if negb (Py.truthy (name p)) then Raise ValueError
  else
    let nm :=
      match last_dot (name p) with
      | Some (a, _) => a +:+ sfx
      | None => name p +:+ sfx
      end in
    Ok (mkPath (root p) (List.removelast (parts p) ++ [nm])%list).


End pathlib.

Notation "p // s" := (pathlib.joinpath p s) (at level 40, left associativity).

(* ===================================================================== *)
(** ** Collaborators: robots parser, HTTP responses, parsed HTML *)
(* ===================================================================== *)

(** A loaded [urllib.robotparser.RobotFileParser], by its one method used:
    [can_fetch(useragent, url)], which may raise. *)
Record RobotFileParser : Type := mkRobots {
  can_fetch : string -> string -> result bool
}.

(** What the crawler reads of a [requests.Response]. *)
Record Response : Type := mkResponse {
  status_code : Z;
  content_type_header : option string;  (* headers.get("Content-Type") *)
  text : result string;                 (* the decoded body *)
  content : string                      (* the raw body *)
}.

(** A tag of the parsed document, as BeautifulSoup presents it:
    [attrs] holds the single-valued attributes, [rel] the tokens of the
    multi-valued [rel] attribute (empty when the attribute is absent). *)
Record Element : Type := mkElement {
  tag : string;
  attrs : list (string * string);
  rel : list string
}.

(** [el.get(attr)] *)
Fixpoint get_attr (l : list (string * string)) (k : string) : option string :=
  match l with
  | [] => None
  | (k', v) :: r => if String.eqb k' k then Some v else get_attr r k
  end.

Definition el_get (el : Element) (k : string) : option string :=
  get_attr (attrs el) k.

(** [soup.find_all(t)] on the tags of the document in document order. *)
Definition find_all (soup : list Element) (t : string) : list Element :=
  List.filter (fun el => String.eqb (tag el) t) soup.

(* ===================================================================== *)
(** ** Configuration and types *)
(* ===================================================================== *)

Definition ASSET_ATTRS : list (string * string) :=
  [("img", "src"); ("img", "srcset"); ("script", "src"); ("link", "href");
   ("source", "src"); ("video", "src"); ("audio", "src"); ("track", "src");
   ("iframe", "src"); ("embed", "src"); ("object", "data")].

Definition LINK_RELS_AS_ASSETS : list string :=
  ["stylesheet"; "icon"; "shortcut icon"; "apple-touch-icon"; "preload";
   "prefetch"].

Definition HTML_CT : list string := ["text/html"; "application/xhtml+xml"].
Definition CSS_CT : list string := ["text/css"].

(** [s.startswith(t)] for a tuple [t], which is also
    [any(s.startswith(ct) for ct in t)]. *)
Definition startswith_any (t : list string) (s : string) : bool :=
  existsb (fun ct => Py.startswith ct s) t.

Definition endswith_any (t : list string) (s : string) : bool :=
  existsb (fun e => Py.endswith e s) t.

Record CrawlTask : Type := mkTask { url : string }.

(** The [SiteMirror] object: configuration, then the shared mutable state.
    [delay] and [timeout] only affect timing and are left out; the work
    queue [q] is the FIFO content of [queue.Queue]. *)
Record SiteMirror : Type := mkMirror {
  start_url : string;
  base : urllib.ParseResult;
  out_dir : pathlib.Path;
  include_subdomains : bool;
  max_pages : Z;
  workers : Z;
  ignore_robots : bool;
  user_agent : string;
  rp : option RobotFileParser;
  seen_urls : gset string;
  saved_urls : gset string;
  page_count : Z;
  q : list CrawlTask
}.

(** [SiteMirror._same_domain]; the result is the truth value of what the
    Python returns. *)
Definition _same_domain (self : SiteMirror) (u : string) : result bool :=
  let* p := urllib.urlparse "" u in
  if String.eqb (urllib.netloc p) (urllib.netloc (base self)) then Ok true
  else if include_subdomains self then
    Ok match urllib.hostname p, urllib.hostname (base self) with
       | Some h, Some bh => Py.endswith ("." +:+ bh) h
       | _, _ => false
       end
  else Ok false.

Definition set_rp (self : SiteMirror) (r : option RobotFileParser)
  : SiteMirror :=
  mkMirror (start_url self) (base self) (out_dir self)
    (include_subdomains self) (max_pages self) (workers self)
    (ignore_robots self) (user_agent self) r (seen_urls self)
    (saved_urls self) (page_count self) (q self).

(** [SiteMirror._init_robots]; [robots_read url] stands for
    [rp.set_url(url); rp.read()] and yields the loaded parser or raises. *)
Definition _init_robots (robots_read : string -> result RobotFileParser)
    (self : SiteMirror) : result SiteMirror :=
  let* robots_url :=
    urllib.urljoin
      (urllib.scheme (base self) +:+ "://" +:+ urllib.netloc (base self))
      "/robots.txt" in
  match robots_read robots_url with
  | Ok r => Ok (set_rp self (Some r))
  | Raise _ => Ok (set_rp self None)
  end.

(** [SiteMirror._allowed_by_robots] *)
Definition _allowed_by_robots (self : SiteMirror) (u : string) : bool :=
  match ignore_robots self, rp self with
  | true, _ => true
  | false, None => true
  | false, Some r =>
      match can_fetch r (user_agent self) u with
      | Ok b => b
      | Raise _ => true
      end
  end.

(** [SiteMirror.__init__] *)
Definition SiteMirror_init (robots_read : string -> result RobotFileParser)
    (start_url : string) (out_dir : pathlib.Path)
    (include_subdomains : bool) (max_pages : Z) (workers : Z)
    (ignore_robots : bool) (user_agent : string) : result SiteMirror :=
  let* su := _normalize_url start_url in
  let* b := urllib.urlparse "" su in
  if negb (Py.in_list (urllib.scheme b) ["http"; "https"])
  then Raise ValueError
  else
    let self :=
      mkMirror su b out_dir include_subdomains max_pages (Z.max 1 workers)
        ignore_robots user_agent None ∅ ∅ 0 [] in
    if negb ignore_robots then _init_robots robots_read self else Ok self.

(* ===================================================================== *)
(** ** File path mapping *)
(* ===================================================================== *)

(** [content_type and content_type.startswith(HTML_CT)] *)
Definition is_html_ct (content_type : option string) : bool :=
  match content_type with
  | Some ct => Py.truthy ct && startswith_any HTML_CT ct
  | None => false
  end.

(** The file name rewritten for a query string. *)
Definition query_name (local : pathlib.Path) (query : string) : string :=
  let stem :=
    if Py.truthy (pathlib.stem local) then pathlib.stem local else "file" in
  let suffix := Py.join "" (pathlib.suffixes local) in
  stem +:+ "__q=" +:+ _hash8 query +:+ suffix.

(** The first step of [url_to_local_path]: the path under [out_dir], with
    an index file name for a directory URL. *)
Definition local_of (self : SiteMirror) (p : urllib.ParseResult)
    (content_type : option string) : pathlib.Path :=
  let path := urllib.path p in
  if negb (Py.truthy path) || Py.endswith "/" path then
    let filename :=
      if is_html_ct content_type then "index.html" else "index" in
    out_dir self // urllib.netloc p // Py.lstrip "/" path // filename
  else out_dir self // urllib.netloc p // Py.lstrip "/" path.

(** The last step: [.html] is added to a name without extension when the
    content type is HTML. *)
Definition add_html_suffix (local : pathlib.Path)
    (content_type : option string) : result pathlib.Path :=
  if negb (Py.truthy (pathlib.suffix local)) && is_html_ct content_type
  then pathlib.with_suffix local ".html"
  else Ok local.

(** [SiteMirror.url_to_local_path] *)
Definition url_to_local_path (self : SiteMirror) (url : string)
    (content_type : option string) : result pathlib.Path :=
  let* p := urllib.urlparse "" url in
  let local := local_of self p content_type in
  let local :=
    if Py.truthy (urllib.query p)
    then pathlib.parent local // query_name local (urllib.query p)
    else local in
  add_html_suffix local content_type.

(* ===================================================================== *)
(** ** Parsing helpers *)
(* ===================================================================== *)

(** A loop whose body may raise. *)
Fixpoint foldM {A S : Type} (f : S -> A -> result S) (l : list A) (s : S)
  : result S :=
  match l with
  | [] => Ok s
  | x :: r => let* s' := f s x in foldM f r s'
  end.

(** The body of the loop over [soup.find_all("a", href=True)]. *)
Definition page_step (self : SiteMirror) (base_url : string)
    (pages : gset string) (a : Element) : result (gset string) :=
  match el_get a "href" with
  | None => Ok pages
  | Some href =>
      if negb (Py.truthy href) then Ok pages
      else
        let* u := urllib.urljoin base_url href in
        let* u := _normalize_url u in
        let* h := _is_http u in
        if negb h then Ok pages
        else
          let* d := _same_domain self u in
          Ok (if d then {[u]} ∪ pages else pages)
  end.

(** The candidates of a [srcset] value: the first blank-separated token
    of every comma-separated part, when it is not empty. *)
Definition srcset_candidates (val : string) : list string :=
  List.filter Py.truthy
    (List.map (fun part => List.hd EmptyString (Py.split " " (Py.strip part)))
       (Py.split "," val)).

Definition ASSET_EXTS : list string :=
  [".css"; ".ico"; ".png"; ".svg"; ".webmanifest"].

(** The test that drops a [<link>] whose relation is not an asset
    relation and whose reference has no asset extension. *)
Definition link_skipped (el : Element) (candidate : string) : bool :=
  let r := Py.lower (Py.join " " (rel el)) in
  Py.truthy r && negb (Py.in_list r LINK_RELS_AS_ASSETS)
  && negb (endswith_any ASSET_EXTS (Py.lower candidate)).

(** The body of the loop over the candidates of one element. *)
Definition candidate_step (self : SiteMirror) (base_url : string)
    (tg : string) (el : Element) (assets : gset string)
    (candidate : string) : result (gset string) :=
  let* u := urllib.urljoin base_url candidate in
  let* u := _normalize_url u in
  let* h := _is_http u in
  if negb h then Ok assets
  else if String.eqb tg "link" && link_skipped el candidate then Ok assets
  else
    let* d := _same_domain self u in
    Ok (if d then {[u]} ∪ assets else assets).

(** The body of the loop over [soup.find_all(tag)]. *)
Definition element_step (self : SiteMirror) (base_url : string)
    (tg attr : string) (assets : gset string) (el : Element)
  : result (gset string) :=
  match el_get el attr with
  | None => Ok assets
  | Some val =>
      if negb (Py.truthy val) then Ok assets
      else
        let candidates :=
          if String.eqb attr "srcset" then srcset_candidates val
          else [val] in
        foldM (candidate_step self base_url tg el) candidates assets
  end.

(** The extraction proper, on the parsed document. *)
Definition extract_from_soup (self : SiteMirror) (base_url : string)
    (soup : list Element) : result (gset string * gset string) :=
  let* pages := foldM (page_step self base_url) (find_all soup "a") ∅ in
  let* assets :=
    foldM (fun assets '(tg, attr) =>
             foldM (element_step self base_url tg attr) (find_all soup tg)
               assets)
      ASSET_ATTRS ∅ in
  Ok (pages, assets).

(** [SiteMirror.extract_links_and_assets]; [html_parser] is
    [BeautifulSoup(html, "html.parser")] followed by the listing of its
    tags. *)
Definition extract_links_and_assets (html_parser : string -> list Element)
    (self : SiteMirror) (base_url : string) (html : string)
  : result (gset string * gset string) :=
  extract_from_soup self base_url (html_parser html).

(** [SiteMirror.extract_css_urls]; [css_refs css_text] lists what
    [CSS_URL_RE] captures as group 2, match after match. *)
Definition extract_css_urls (css_refs : string -> list string)
    (self : SiteMirror) (base_url : string) (css_text : string)
  : result (gset string) :=
  foldM (fun urls m =>
           let* u := urllib.urljoin base_url (Py.strip m) in
           let* u := _normalize_url u in
           let* h := _is_http u in
           if negb h then Ok urls
           else
             let* d := _same_domain self u in
             Ok (if d then {[u]} ∪ urls else urls))
    (css_refs css_text) ∅.

(* ===================================================================== *)
(** ** Shared state: the lock-protected sections and the queue *)
(* ===================================================================== *)

Definition set_seen (self : SiteMirror) (s : gset string) : SiteMirror :=
  mkMirror (start_url self) (base self) (out_dir self)
    (include_subdomains self) (max_pages self) (workers self)
    (ignore_robots self) (user_agent self) (rp self) s
    (saved_urls self) (page_count self) (q self).

Definition set_saved (self : SiteMirror) (s : gset string) : SiteMirror :=
  mkMirror (start_url self) (base self) (out_dir self)
    (include_subdomains self) (max_pages self) (workers self)
    (ignore_robots self) (user_agent self) (rp self) (seen_urls self)
    s (page_count self) (q self).

Definition set_page_count (self : SiteMirror) (n : Z) : SiteMirror :=
  mkMirror (start_url self) (base self) (out_dir self)
    (include_subdomains self) (max_pages self) (workers self)
    (ignore_robots self) (user_agent self) (rp self) (seen_urls self)
    (saved_urls self) n (q self).

Definition set_q (self : SiteMirror) (l : list CrawlTask) : SiteMirror :=
  mkMirror (start_url self) (base self) (out_dir self)
    (include_subdomains self) (max_pages self) (workers self)
    (ignore_robots self) (user_agent self) (rp self) (seen_urls self)
    (saved_urls self) (page_count self) l.

(** The section of [enqueue] under the lock, for an already normalized
    URL: [None] when the URL was seen (the method returns), otherwise the
    object with the URL added to [seen_urls]. *)
Definition seen_check_insert (self : SiteMirror) (u : string)
  : option SiteMirror :=
  if bool_decide (u ∈ seen_urls self) then None
  else Some (set_seen self ({[u]} ∪ seen_urls self)).

(** [self.q.put(task)] *)
Definition q_put (self : SiteMirror) (t : CrawlTask) : SiteMirror :=
  set_q self (q self ++ [t])%list.

(** [self.q.get(timeout=1.0)]: the oldest task, or [None] for
    [queue.Empty]. *)
Definition q_get (self : SiteMirror) : option (CrawlTask * SiteMirror) :=
  match q self with
  | [] => None
  | t :: rest => Some (t, set_q self rest)
  end.

(** [SiteMirror.enqueue] *)
Definition enqueue (self : SiteMirror) (u : string) : result SiteMirror :=
  let* u := _normalize_url u in
  match seen_check_insert self u with
  | None => Ok self
  | Some self' => Ok (q_put self' (mkTask u))
  end.

(** The section of [worker] under the lock that adds to [saved_urls]. *)
Definition saved_add (self : SiteMirror) (u : string) : SiteMirror :=
  set_saved self ({[u]} ∪ saved_urls self).

(** [self.max_pages and self.page_count >= self.max_pages] *)
Definition cap_reached (self : SiteMirror) : bool :=
  negb (max_pages self =? 0)%Z && (max_pages self <=? page_count self)%Z.

(** The section of [worker] under the lock that counts an HTML page. *)
Definition count_page (self : SiteMirror) : SiteMirror :=
  if cap_reached self then self
  else set_page_count self (page_count self + 1).

(** The body of the loop of [worker] over the discovered pages. *)
Definition enqueue_page (self : SiteMirror) (p : string) : result SiteMirror :=
  if cap_reached self && negb (bool_decide (p ∈ seen_urls self)) then Ok self
  else
    let* d := _same_domain self p in
    if d then enqueue self p else Ok self.

(** The body of the loop of [worker] over the discovered assets. *)
Definition enqueue_asset (self : SiteMirror) (a : string) : result SiteMirror :=
  let* d := _same_domain self a in
  if d then enqueue self a else Ok self.

(* ===================================================================== *)
(** ** Networking, saving and the crawl loop *)
(* ===================================================================== *)

(** The crawl as one sequential worker sees it: the [SiteMirror] object
    and the files written so far, oldest first. *)
Record Crawl : Type := mkCrawl {
  mirror : SiteMirror;
  disk : list (pathlib.Path * string)
}.

(** [(resp.headers.get("Content-Type") or "").split(";")[0].strip().lower()] *)
Definition content_type_of (resp : Response) : string :=
  let h := match content_type_header resp with
           | Some s => s
           | None => EmptyString
           end in
  Py.lower (Py.strip (List.hd EmptyString (Py.split ";" h))).

Section Crawler.

(** The collaborators: [session_get url] is
    [session.get(url, timeout=..., allow_redirects=True)];
    [mkdir_fails] and [write_fails] tell where the file system refuses. *)
Variable session_get : string -> result Response.
Variable html_parser : string -> list Element.
Variable css_refs : string -> list string.
Variable mkdir_fails : pathlib.Path -> bool.
Variable write_fails : pathlib.Path -> bool.

(** [SiteMirror.fetch]: a [RequestException] gives [None], any other
    exception goes through. *)
Definition fetch (u : string) : result (option Response) :=
  match session_get u with
  | Ok resp => Ok (Some resp)
  | Raise RequestException => Ok None
  | Raise e => Raise e
  end.

(** [SiteMirror.save_response] *)
Definition save_response (c : Crawl) (u : string) (resp : Response)
  : result (Crawl * option pathlib.Path) :=
  let content_type := content_type_of resp in
  let* local_path := url_to_local_path (mirror c) u (Some content_type) in
  if mkdir_fails (pathlib.parent local_path) then Raise OSError
  else if write_fails local_path then Ok (c, None)
  else
    Ok (mkCrawl (mirror c) (disk c ++ [(local_path, content resp)])%list,
        Some local_path).

(** [resp.text] inside its [try], the empty string on any exception. *)
Definition body_text (resp : Response) : string :=
  match text resp with
  | Ok t => t
  | Raise _ => EmptyString
  end.

(** What [worker] does with a saved response: the HTML and the CSS
    branch. *)
Definition discover (self : SiteMirror) (u : string) (resp : Response)
  : result SiteMirror :=
  let content_type := content_type_of resp in
  if startswith_any HTML_CT content_type then
    let self := count_page self in
    let html_text := body_text resp in
    if Py.truthy html_text then
      let* pa := extract_links_and_assets html_parser self u html_text in
      let* self := foldM enqueue_page (elements (fst pa)) self in
      foldM enqueue_asset (elements (snd pa)) self
    else Ok self
  else if startswith_any CSS_CT content_type then
    let css_text := body_text resp in
    if Py.truthy css_text then
      let* urls := extract_css_urls css_refs self u css_text in
      foldM enqueue (elements urls) self
    else Ok self
  else Ok self.

(** One turn of the loop of [worker], after [q.get] returned the task. *)
Definition process_task (c : Crawl) (u : string) : result Crawl :=
  if negb (_allowed_by_robots (mirror c) u) then Ok c
  else
    let* r := fetch u in
    match r with
    | None => Ok c
    | Some resp =>
        if negb (status_code resp =? 200)%Z then Ok c
        else
          let* s := save_response c u resp in
          match s with
          | (_, None) => Ok c
          | (c, Some _) =>
              let self := saved_add (mirror c) u in
              let* self := discover self u resp in
              Ok (mkCrawl self (disk c))
          end
    end.

(** [SiteMirror.worker], run alone: it returns when the queue is empty.
    [None] when [fuel] turns of the loop were not enough. *)
Fixpoint worker (fuel : nat) (c : Crawl) : option (result Crawl) :=
  match fuel with
  | O => None
  | S fuel' =>
      match q_get (mirror c) with
      | None => Some (Ok c)
      | Some (t, self) =>
          match process_task (mkCrawl self (disk c)) (url t) with
          | Ok c' => worker fuel' c'
          | Raise e => Some (Raise e)
          end
      end
  end.

(** [SiteMirror.run] with one worker. *)
Definition run (fuel : nat) (c : Crawl) : option (result Crawl) :=
  match enqueue (mirror c) (start_url (mirror c)) with
  | Ok self => worker fuel (mkCrawl self (disk c))
  | Raise e => Some (Raise e)
  end.

End Crawler.

(* ===================================================================== *)
(** ** Several workers: the atomic steps on the shared object *)
(* ===================================================================== *)

(** With several workers the shared object changes only through the
    sections under [self.lock] and through the thread-safe queue.  Each of
    them is one atomic step; a schedule is any sequence of steps.

    - [LockSeen u]: a thread inside [enqueue], holding the normalized URL
      [u], runs the locked test-and-insert on [seen_urls];
    - [Put u]: a thread that has just inserted [u] performs [q.put];
    - [Get]: a worker's [q.get] returns the oldest task;
    - [LockSaved u]: the locked [saved_urls.add(url)];
    - [LockCount]: the locked section on [page_count]. *)
Inductive action : Type :=
  | LockSeen (u : string)
  | Put (u : string)
  | Get
  | LockSaved (u : string)
  | LockCount.

(** The shared object, the URLs inserted whose [q.put] is still to come,
    and the URLs of the tasks handed to workers so far, oldest first. *)
Record Shared : Type := mkShared {
  obj : SiteMirror;
  pending : list string;
  taken : list string
}.

(** Remove one occurrence of [u]; [None] when there is none. *)
Fixpoint remove_one (u : string) (l : list string) : option (list string) :=
  match l with
  | [] => None
  | x :: r =>
      if String.eqb x u then Some r
      else match remove_one u r with
           | Some r' => Some (x :: r')
           | None => None
           end
  end.

(** One atomic step; [None] when the step cannot happen in this state. *)
Definition step (s : Shared) (a : action) : option Shared :=
  match a with
  | LockSeen u =>
      match seen_check_insert (obj s) u with
      | None => Some s
      | Some o => Some (mkShared o (u :: pending s) (taken s))
      end
  | Put u =>
      match remove_one u (pending s) with
      | None => None
      | Some p => Some (mkShared (q_put (obj s) (mkTask u)) p (taken s))
      end
  | Get =>
      match q_get (obj s) with
      | None => None
      | Some (t, o) => Some (mkShared o (pending s) (taken s ++ [url t])%list)
      end
  | LockSaved u => Some (mkShared (saved_add (obj s) u) (pending s) (taken s))
  | LockCount => Some (mkShared (count_page (obj s)) (pending s) (taken s))
  end.

Fixpoint steps (s : Shared) (l : list action) : option Shared :=
  match l with
  | [] => Some s
  | a :: r =>
      match step s a with
      | Some s' => steps s' r
      | None => None
      end
  end.

(** The start of a crawl: nothing pending, nothing taken. *)
Definition shared_init (self : SiteMirror) : Shared := mkShared self [] [].


(* ===================================================================== *)
(** ** A concrete site *)
(* ===================================================================== *)


(** A robots loader that always fails, as when the network is down. *)
Definition robots_unreachable (_ : string) : result RobotFileParser :=
  Raise OtherException.

(** [SiteMirror("https://ex.com/", Path("out"), include_subdomains,
    max_pages, workers=1, ignore_robots=True)] *)
Definition ex_com (include_subdomains : bool) (max_pages : Z)
  : result SiteMirror :=
  SiteMirror_init robots_unreachable "https://ex.com/"
    (pathlib.of_string "out") include_subdomains max_pages 1 true
    "SiteMirrorBot/1.0".

(** The object that constructor call builds. *)
Definition ex_com_mirror (include_subdomains : bool) (max_pages : Z)
  : SiteMirror :=
  mkMirror "https://ex.com/" (urllib.mkParse "https" "ex.com" "/" "" "" "")
    (pathlib.mkPath "" ["out"]) include_subdomains max_pages 1 true
    "SiteMirrorBot/1.0" None ∅ ∅ 0 [].

(* ===================================================================== *)
(** ** Predicates used in the statements *)
(* ===================================================================== *)

(** A path component as [parse_parts] produces them. *)
Definition wf_part (x : string) : bool :=
  Py.truthy x && negb (String.eqb x ".") && negb (Py.mem "/" x).

(** A path all of whose components are such; every [Path(s)] is. *)
Definition wf_path (p : pathlib.Path) : bool := forallb wf_part (pathlib.parts p).

Definition is_lower_hex (c : ascii) : bool := Py.mem c "0123456789abcdef".

(* ===================================================================== *)
(** ** Scenario A *)
(* ===================================================================== *)

(** The start page [https://ex.com/] links to [/about] and shows
    [/logo.png]; [/about] is an HTML page without links, or is missing. *)
Definition home_body : string :=
  "<a href='/about'>About</a><img src='/logo.png'>".

Definition about_body : string := "<p>About</p>".

Definition scenario_a_get (about_is_html : bool) (u : string)
  : result Response :=
  if String.eqb u "https://ex.com/" then
    Ok (mkResponse 200 (Some "text/html; charset=utf-8") (Ok home_body)
          home_body)
  else if String.eqb u "https://ex.com/about" then
    if about_is_html then
      Ok (mkResponse 200 (Some "text/html") (Ok about_body) about_body)
    else Ok (mkResponse 404 (Some "text/plain") (Ok "") "")
  else if String.eqb u "https://ex.com/logo.png" then
    Ok (mkResponse 200 (Some "image/png") (Ok "PNG") "PNG")
  else Raise RequestException.

(** What the HTML parser finds in the two pages. *)
Definition scenario_a_parser (html : string) : list Element :=
  if String.eqb html home_body then
    [mkElement "a" [("href", "/about")] [];
     mkElement "img" [("src", "/logo.png")] []]
  else [].

(** The crawl with one worker, no delay, robots ignored, no page cap. *)
Definition scenario_a (about_is_html : bool) : option (result Crawl) :=
  run (scenario_a_get about_is_html) scenario_a_parser (fun _ => [])
    (fun _ => false) (fun _ => false) 10
    (mkCrawl (ex_com_mirror false 0) []).



(** A page whose logo is also a link to the image. *)
Definition overlap_body : string :=
  "<a href='/logo.png'><img src='/logo.png'></a>".

Definition overlap_parser (html : string) : list Element :=
  if String.eqb html overlap_body then
    [mkElement "a" [("href", "/logo.png")] [];
     mkElement "img" [("src", "/logo.png")] []]
  else [].

(** The configuration of the object, which no step of the crawl writes. *)
Definition same_config (a b : SiteMirror) : Prop :=
  start_url a = start_url b /\ base a = base b /\ out_dir a = out_dir b
  /\ include_subdomains a = include_subdomains b
  /\ max_pages a = max_pages b /\ workers a = workers b
  /\ ignore_robots a = ignore_robots b /\ user_agent a = user_agent b
  /\ rp a = rp b.


(** One state is reached from another by some schedule of atomic steps. *)
Definition reaches (s s' : Shared) : Prop :=
  exists acts, steps s acts = Some s'.

(** The same site with robots respected, for a given loader. *)
Definition ex_com_robots (robots_read : string -> result RobotFileParser)
  : result SiteMirror :=
  SiteMirror_init robots_read "https://ex.com/" (pathlib.of_string "out")
    false 0 1 false "SiteMirrorBot/1.0".

(** A loaded policy that forbids [/private/], and one whose evaluation
    raises. *)
Definition private_policy : RobotFileParser :=
  mkRobots (fun _ u => Ok (negb (Py.startswith "https://ex.com/private/" u))).

Definition broken_policy : RobotFileParser :=
  mkRobots (fun _ _ => Raise OtherException).

(** A split result with another fragment. *)
Definition set_sfragment (r : urllib.SplitResult) (f : string)
  : urllib.SplitResult :=
  urllib.mkSplit (urllib.s_scheme r) (urllib.s_netloc r) (urllib.s_path r)
    (urllib.s_query r) f.

(** [avoids cs s]: no character of [cs] occurs in [s]. *)
Definition avoids (cs s : string) : bool :=
  Py.all (fun x => negb (Py.mem x cs)) s.

(** The three characters [urlsplit] removes. *)
Definition unsafe_chars : string :=
  String "009" (String "013" (String "010" "")).



(** Whether a name has an extension. *)
Definition has_ext (n : string) : bool :=
  match pathlib.last_dot n with
  | Some _ => true
  | None => false
  end.

(** What the extractor promises of a URL it returns: it is the normal
    form of a reference joined to the base URL, its scheme is [http] or
    [https], and it is in scope. *)
Definition extracted (self : SiteMirror) (base_url u : string) : Prop :=
  (exists ref j,
      urllib.urljoin base_url ref = Ok j /\ _normalize_url j = Ok u)
  /\ _is_http u = Ok true
  /\ _same_domain self u = Ok true.

(** The counter under a cap: at most the cap. *)
Definition capped (self : SiteMirror) : Prop :=
  (page_count self <= max_pages self)%Z.

(** ** Predicates of the further properties *)

(** The content type as a function of the header text
    ([save_response], [worker]: [split(";")[0].strip().lower()]). *)
Definition content_type_text (h : string) : string :=
  Py.lower (Py.strip (List.hd "" (Py.split ";" h))).

(** A response that differs from [resp] in its Content-Type header only. *)
Definition with_content_type (resp : Response) (h : string) : Response :=
  mkResponse (status_code resp) (Some h) (text resp) (content resp).

(** A text that [urlsplit] accepts as a scheme: it starts with an ASCII
    letter and consists of scheme characters. *)
Definition scheme_text (s : string) : bool :=
  match s with
  | String c _ => urllib.is_ascii_alpha c && Py.all urllib.is_scheme_char s
  | EmptyString => false
  end.

(** One candidate of a [srcset] value, as it is written: a URL, a blank
    and a descriptor such as [2x] or [480w] (which may be empty). *)
Definition srcset_entry (e : string * string) : string :=
  fst e +:+ " " +:+ snd e.

(** A URL that can stand in a [srcset] list: it is not empty and holds
    neither white space nor a comma. *)
Definition srcset_url (u : string) : bool :=
  Py.truthy u
  && Py.all (fun c => negb (Py.isspace c) && negb (Ascii.eqb c ",")) u.

Definition srcset_entry_ok (e : string * string) : bool :=
  srcset_url (fst e) && negb (Py.mem "," (snd e)).

(** A robots loader that finds a policy at one URL only. *)
Definition robots_at (url : string) (r : RobotFileParser)
  : string -> result RobotFileParser :=
  fun u => if String.eqb u url then Ok r else Raise OtherException.

(** The object built for a start URL deep inside [ex.com], robots
    respected, when the loader finds [r]. *)
Definition ex_com_deep (r : option RobotFileParser) : SiteMirror :=
  mkMirror "https://ex.com/a/b/page.html?x=1"
    (urllib.mkParse "https" "ex.com" "/a/b/page.html" "" "x=1" "")
    (pathlib.mkPath "" ["out"]) false 0 1 false "SiteMirrorBot/1.0" r
    ∅ ∅ 0 [].

(** Whether a URL path names a directory: it is empty or ends in [/]
    (the test of [url_to_local_path]). *)
Definition is_dir_path (path : string) : bool :=
  negb (Py.truthy path) || Py.endswith "/" path.

(** ** Predicates of the crawl invariant *)

(** What holds of a URL in [seen_urls]: normalizing it again changes
    nothing, and it is the normal form of a URL in scope. *)
Definition scheduled_ok (self : SiteMirror) (v : string) : Prop :=
  _normalize_url v = Ok v
  /\ exists u, _same_domain self u = Ok true /\ _normalize_url u = Ok v.

(** The bookkeeping of the object: what is seen is well scheduled, the
    queue holds seen URLs, each once, none of them saved yet, and what is
    saved was seen. *)
Definition sched_inv (self : SiteMirror) : Prop :=
  (forall v, v ∈ seen_urls self -> scheduled_ok self v)
  /\ (forall t, In t (q self) -> url t ∈ seen_urls self)
  /\ List.NoDup (List.map url (q self))
  /\ (forall t, In t (q self) -> url t ∉ saved_urls self)
  /\ saved_urls self ⊆ seen_urls self.

(** The object after some scheduling: the same configuration, the same
    saved URLs, and no seen URL forgotten. *)
Definition grows (a b : SiteMirror) : Prop :=
  same_config a b /\ saved_urls b = saved_urls a
  /\ seen_urls a ⊆ seen_urls b.

(** What holds of a saved URL: robots allowed it and the server answered
    it with status 200. *)
Definition fetched_ok (session_get : string -> result Response)
    (self : SiteMirror) (u : string) : Prop :=
  _allowed_by_robots self u = true
  /\ exists resp, session_get u = Ok resp /\ status_code resp = 200%Z.

(** What holds of a written file: it is the raw body of the response to
    a saved URL, at the path that URL and its content type map to. *)
Definition written_ok (session_get : string -> result Response)
    (self : SiteMirror) (f : pathlib.Path * string) : Prop :=
  exists u resp,
    u ∈ saved_urls self /\ session_get u = Ok resp
    /\ url_to_local_path self u (Some (content_type_of resp)) = Ok (fst f)
    /\ snd f = content resp.

Definition crawl_inv (session_get : string -> result Response) (c : Crawl)
  : Prop :=
  sched_inv (mirror c)
  /\ (forall u, u ∈ saved_urls (mirror c) ->
                fetched_ok session_get (mirror c) u)
  /\ List.Forall (written_ok session_get (mirror c)) (disk c)
  /\ List.length (disk c) = size (saved_urls (mirror c))
  /\ (0 <= page_count (mirror c)
      <= Z.of_nat (size (saved_urls (mirror c))))%Z.

(** The object later in a crawl: the same configuration, and nothing seen
    or saved forgotten. *)
Definition grows_seen (a b : SiteMirror) : Prop :=
  same_config a b /\ seen_urls a ⊆ seen_urls b
  /\ saved_urls a ⊆ saved_urls b.

(** The state in which the crawl of Scenario A ends when [/about] is an
    HTML page. *)
Definition scenario_a_end : Crawl :=
  match scenario_a true with
  | Some (Ok c) => c
  | _ => mkCrawl (ex_com_mirror false 0) []
  end.

(** The site of Scenario A with a cap of one page, after the start page
    was counted; the response to the start page; and the object after the
    worker's pass over that response. *)
Definition capped_start : SiteMirror :=
  set_seen (set_page_count (ex_com_mirror false 1) 1) {["https://ex.com/"]}.

Definition home_response : Response :=
  mkResponse 200 (Some "text/html; charset=utf-8") (Ok home_body) home_body.

Definition capped_end : SiteMirror :=
  match discover scenario_a_parser (fun _ => []) capped_start
          "https://ex.com/" home_response with
  | Ok s => s
  | Raise _ => capped_start
  end.

(* ===================================================================== *)
(** ** The regular expression [CSS_URL_RE] *)
(* ===================================================================== *)

(** The pattern is [url\(\s*(Q?)(?!data:)(R+)\1\s*\)] under
    [re.IGNORECASE], where [Q] is the class of the two quote characters
    and [R] the class of every character but the closing parenthesis and
    the two quotes.  It is matched the way the backtracking engine of [re]
    matches it, on strings of code points below 256.  The functions below
    return the text of group 2 and what follows the match. *)
Module CSS_URL_RE.

Definition is_quote (c : ascii) : bool :=
  Ascii.eqb c "'" || Ascii.eqb c "034".

(** The class [R]. *)
Definition ref_char (c : ascii) : bool :=
  negb (Ascii.eqb c ")" || is_quote c).

(** The length of the longest prefix of characters in a class: what a
    greedy repetition takes first. *)
Fixpoint span_len (p : ascii -> bool) (s : string) : nat :=
  match s with
  | String c t => if p c then S (span_len p t) else O
  | EmptyString => O
  end.

(** A literal in lower case against the text, under [IGNORECASE]. *)
Fixpoint startswith_ci (p s : string) : bool :=
  match p, s with
  | EmptyString, _ => true
  | String a p', String b s' =>
      Ascii.eqb a (Py.lower_char b) && startswith_ci p' s'
  | String _ _, EmptyString => false
  end.

(** [\1\s*\)] after group 2: the quote of group 1 again when there was
    one, then white space, then the closing parenthesis.  (Giving back
    white space cannot help: the character after a shorter run is white
    space, not a parenthesis.) *)
Definition match_close (g1 : option ascii) (s : string) : option string :=
  let after_quote :=
    match g1 with
    | None => Some s
    | Some qc =>
        match s with
        | String c t => if Ascii.eqb c qc then Some t else None
        | EmptyString => None
        end
    end in
  match after_quote with
  | None => None
  | Some t =>
      match Py.lstrip_by Py.isspace t with
      | String c r => if Ascii.eqb c ")" then Some r else None
      | EmptyString => None
      end
  end.

(** [(R+)] and the rest: group 2 takes [n] characters, then fewer, down
    to one, until the rest matches. *)
Fixpoint match_ref (g1 : option ascii) (body : string) (n : nat)
  : option (string * string) :=
  match n with
  | O => None
  | S m =>
      match match_close g1 (Py.drop n body) with
      | Some rest => Some (Py.take n body, rest)
      | None => match_ref g1 body m
      end
  end.

(** [(?!data:)] and group 2, for a given group 1. *)
Definition match_body (g1 : option ascii) (body : string)
  : option (string * string) :=
  if startswith_ci "data:" body then None
  else match_ref g1 body (span_len ref_char body).

(** [(Q?)] and the rest: a quote is taken when there is one, and given
    back when the rest does not match. *)
Definition match_quote (s : string) : option (string * string) :=
  match s with
  | String c t =>
      if is_quote c then
        match match_body (Some c) t with
        | Some r => Some r
        | None => match_body None s
        end
      else match_body None s
  | EmptyString => match_body None s
  end.

(** [\s*] and the rest: [k] white space characters are taken, then
    fewer, down to none, until the rest matches. *)
Fixpoint match_space (s : string) (k : nat) : option (string * string) :=
  match match_quote (Py.drop k s) with
  | Some r => Some r
  | None =>
      match k with
      | O => None
      | S k' => match_space s k'
      end
  end.

(** The pattern at the start of [s]: group 2 and the text after the
    match. *)
Definition match_at (s : string) : option (string * string) :=
  if startswith_ci "url(" s then
    let r := Py.drop 4 s in match_space r (span_len Py.isspace r)
  else None.

(** The scan of [finditer]: the leftmost match, then on from its end;
    [skip] counts the characters of the last match still to pass. *)
Fixpoint scan (s : string) (skip : nat) : list string :=
  match s with
  | EmptyString => []
  | String _ t =>
      match skip with
      | S k => scan t k
      | O =>
          match match_at s with
          | Some (g2, rest) =>
              g2 :: scan t (String.length s - String.length rest - 1)
          | None => scan t O
          end
      end
  end.

(** [[m.group(2) for m in CSS_URL_RE.finditer(css_text)]] *)
Definition finditer (css_text : string) : list string := scan css_text O.

End CSS_URL_RE.

(** A [url(...)] token of a style sheet as it is written: the keyword, the
    parenthesis, white space, then either a reference between two equal
    quotes followed by white space, or a bare reference. *)
Definition css_url (kw w : string) (quote : option ascii) (r w' : string)
  : string :=
  kw +:+ "(" +:+ w
  +:+ match quote with
      | Some qc => String qc (r +:+ String qc w')
      | None => r
      end
  +:+ ")".

(** The first character of a string is not white space. *)
Definition starts_black (s : string) : bool :=
  match s with
  | String c _ => negb (Py.isspace c)
  | EmptyString => false
  end.

(** The conditions on a token that the pattern matches as a whole: white
    space where white space is written, a reference that is not empty,
    holds no parenthesis or quote and does not open with [data:]; the
    quote is a quote, and a bare reference does not open with white
    space. *)
Definition css_url_ok (w : string) (quote : option ascii) (r w' : string)
  : bool :=
  Py.all Py.isspace w && Py.truthy r && Py.all CSS_URL_RE.ref_char r
  && negb (CSS_URL_RE.startswith_ci "data:" r)
  && match quote with
     | Some qc => CSS_URL_RE.is_quote qc && Py.all Py.isspace w'
     | None => starts_black r
     end.

(* ===================================================================== *)
(** * Properties *)
(* ===================================================================== *)

(** ** Strings *)

Arguments String.append !_ _ / : simpl nomatch.

Section StringFacts.

Implicit Types (s t a b : string) (c d : ascii) (p : ascii -> bool).

Lemma app_nil_r s : s +:+ "" = s.
Proof. induction s as [|x s IH]; simpl; [reflexivity | now rewrite IH]. Qed.

Lemma app_assoc s t a : (s +:+ t) +:+ a = s +:+ (t +:+ a).
Proof. induction s as [|x s IH]; simpl; [reflexivity | now rewrite IH]. Qed.

Lemma length_app s t :
  String.length (s +:+ t) = (String.length s + String.length t)%nat.
Proof. induction s as [|x s IH]; simpl; [reflexivity | now rewrite IH]. Qed.

Lemma mem_app c s t : Py.mem c (s +:+ t) = Py.mem c s || Py.mem c t.
Proof.
  induction s as [|x s IH]; simpl; [reflexivity |].
  rewrite IH. now rewrite orb_assoc.
Qed.

Lemma all_app p s t : Py.all p (s +:+ t) = Py.all p s && Py.all p t.
Proof.
  induction s as [|x s IH]; simpl; [reflexivity |].
  rewrite IH. now rewrite andb_assoc.
Qed.

Lemma all_mem_false p c s :
  p c = false -> Py.all p s = true -> Py.mem c s = false.
Proof.
  intros Hc. induction s as [|x s IH]; simpl; [reflexivity |].
  intros [Hx Hs]%andb_prop.
  destruct (Ascii.eqb_spec c x) as [->|_]; [congruence |].
  simpl. auto.
Qed.

(** A string that contains [c] splits at its first [c]. *)
Lemma partition_spec c s a b :
  Py.partition c s = Some (a, b) ->
  s = a +:+ String c b /\ Py.mem c a = false.
Proof.
  revert a b. induction s as [|x s IH]; simpl; intros a b H; [discriminate |].
  destruct (Ascii.eqb_spec x c) as [->|Hne].
  - injection H as <- <-. now split.
  - destruct (Py.partition c s) as [[a' b']|]; [|discriminate].
    injection H as <- <-. destruct (IH a' b' eq_refl) as [-> Hm].
    split; [reflexivity |]. simpl. rewrite Hm.
    destruct (Ascii.eqb_spec c x); [congruence | reflexivity].
Qed.

Lemma partition_none c s : Py.partition c s = None <-> Py.mem c s = false.
Proof.
  induction s as [|x s IH]; simpl; [easy |].
  rewrite (Ascii.eqb_sym c x).
  destruct (Ascii.eqb x c); simpl; [easy |].
  destruct (Py.partition c s) as [[a' b']|]; simpl.
  - split; [discriminate |]. intros H. apply IH in H. discriminate.
  - split; [intros _ | reflexivity]. now apply IH.
Qed.

Lemma partition_app c a b :
  Py.mem c a = false -> Py.partition c (a +:+ String c b) = Some (a, b).
Proof.
  induction a as [|x a IH]; simpl.
  - intros _. now rewrite Ascii.eqb_refl.
  - rewrite (Ascii.eqb_sym c x). intros [Hx Ha]%orb_false_elim.
    rewrite Hx, (IH Ha). reflexivity.
Qed.

Lemma partition_app_absent c a t :
  Py.mem c a = false ->
  Py.partition c (a +:+ t)
  = match Py.partition c t with
    | Some (u, v) => Some (a +:+ u, v)
    | None => None
    end.
Proof.
  induction a as [|x a IH]; simpl.
  - intros _. now destruct (Py.partition c t) as [[u v]|].
  - rewrite (Ascii.eqb_sym c x). intros [Hx Ha]%orb_false_elim.
    rewrite Hx, (IH Ha). now destruct (Py.partition c t) as [[u v]|].
Qed.

Lemma mem_split c s :
  Py.mem c s = true ->
  exists a b, s = a +:+ String c b /\ Py.mem c a = false.
Proof.
  intros H. destruct (Py.partition c s) as [[a b]|] eqn:E.
  - exists a, b. now apply partition_spec.
  - apply partition_none in E. congruence.
Qed.

Lemma lstrip_by_app p s c t :
  p c = false ->
  Py.lstrip_by p (s +:+ String c t) = Py.lstrip_by p s +:+ String c t.
Proof.
  intros Hc. induction s as [|x s IH]; simpl; [now rewrite Hc |].
  destruct (p x); [exact IH | reflexivity].
Qed.

Lemma rstrip_by_app p s c t :
  p c = false ->
  Py.rstrip_by p (s +:+ String c t) = s +:+ String c (Py.rstrip_by p t).
Proof.
  intros Hc.
  assert (Hne : forall r, Py.rstrip_by p (String c r)
                          = String c (Py.rstrip_by p r)).
  { intros r. simpl. destruct (Py.rstrip_by p r); [now rewrite Hc | reflexivity]. }
  induction s as [|x s IH]; [apply Hne |].
  cbn [String.append]. change (Py.rstrip_by p (String x ?r))
    with (match Py.rstrip_by p r with
          | EmptyString => if p x then EmptyString else String x EmptyString
          | r' => String x r'
          end).
  rewrite IH. destruct s; reflexivity.
Qed.

Lemma mem_lstrip_by p c s :
  Py.mem c s = false -> Py.mem c (Py.lstrip_by p s) = false.
Proof.
  induction s as [|x s IH]; simpl; [reflexivity |].
  intros [Hx Hs]%orb_false_elim. destruct (p x); [auto |].
  simpl. now rewrite Hx, Hs.
Qed.

Lemma mem_rstrip_by p c s :
  Py.mem c s = false -> Py.mem c (Py.rstrip_by p s) = false.
Proof.
  induction s as [|x s IH]; simpl; [reflexivity |].
  intros [Hx Hs]%orb_false_elim. specialize (IH Hs).
  destruct (Py.rstrip_by p s) eqn:E.
  - destruct (p x); simpl; [reflexivity | now rewrite Hx].
  - simpl in *. now rewrite Hx, IH.
Qed.

Lemma mem_strip c s : Py.mem c s = false -> Py.mem c (Py.strip s) = false.
Proof. intros H. now apply mem_rstrip_by, mem_lstrip_by. Qed.

Lemma remove_app c s t :
  Py.remove c (s +:+ t) = Py.remove c s +:+ Py.remove c t.
Proof.
  induction s as [|x s IH]; simpl; [reflexivity |].
  rewrite IH. now destruct (Ascii.eqb x c).
Qed.

Lemma mem_remove c d s :
  Py.mem c s = false -> Py.mem c (Py.remove d s) = false.
Proof.
  induction s as [|x s IH]; simpl; [reflexivity |].
  intros [Hx Hs]%orb_false_elim. destruct (Ascii.eqb x d); [auto |].
  simpl. now rewrite Hx, IH.
Qed.

Lemma rstrip_by_idem p s :
  Py.rstrip_by p (Py.rstrip_by p s) = Py.rstrip_by p s.
Proof.
  induction s as [|x s IH]; simpl; [reflexivity |].
  destruct (Py.rstrip_by p s) as [|y r] eqn:E.
  - destruct (p x) eqn:Hx; simpl; [reflexivity | now rewrite Hx].
  - change (Py.rstrip_by p (String x (String y r)))
      with (match Py.rstrip_by p (String y r) with
            | EmptyString => if p x then EmptyString else String x EmptyString
            | r' => String x r'
            end).
    now rewrite IH.
Qed.

(** Stripping on the right keeps a first character that is not stripped. *)
Lemma rstrip_by_head p x s :
  p x = false ->
  exists r, Py.rstrip_by p (String x s) = String x r.
Proof.
  intros Hx. simpl. destruct (Py.rstrip_by p s); [rewrite Hx |]; eauto.
Qed.

Lemma lstrip_by_head p s :
  Py.lstrip_by p s = "" \/
  exists x r, Py.lstrip_by p s = String x r /\ p x = false.
Proof.
  induction s as [|x s IH]; simpl; [now left |].
  destruct (p x) eqn:Hx; [exact IH | right; eauto].
Qed.

Lemma strip_idem s : Py.strip (Py.strip s) = Py.strip s.
Proof.
  unfold Py.strip.
  destruct (lstrip_by_head Py.isspace s) as [->|(x & r & -> & Hx)];
    [reflexivity |].
  destruct (rstrip_by_head Py.isspace x r Hx) as [r' Hr].
  rewrite Hr. cbn [Py.lstrip_by]. rewrite Hx, <- Hr.
  apply rstrip_by_idem.
Qed.

End StringFacts.

(** ** [urllib.parse]: what a fragment changes *)

Section FragmentFacts.

Import urllib.

Implicit Types (x f r d : string).

Lemma remove_unsafe_app x f :
  remove_unsafe (x +:+ String "#" f)
  = remove_unsafe x +:+ String "#" (remove_unsafe f).
Proof. unfold remove_unsafe. now rewrite !remove_app. Qed.

Lemma mem_remove_unsafe c x :
  Py.mem c x = false -> Py.mem c (remove_unsafe x) = false.
Proof. intros H. unfold remove_unsafe. now do 3 apply mem_remove. Qed.

(** What is left after the scheme is a suffix of the URL. *)
Lemma split_scheme_mem c d x :
  Py.mem c x = false -> Py.mem c (snd (split_scheme d x)) = false.
Proof.
  intros H. unfold split_scheme.
  destruct (Py.partition ":" x) as [[s r]|] eqn:E; [|exact H].
  destruct (partition_spec _ _ _ _ E) as [-> _].
  destruct s as [|c0 s']; [exact H |].
  destruct (_ && _); [|exact H].
  simpl. rewrite mem_app in H. apply orb_false_elim in H as [_ H].
  simpl in H. now apply orb_false_elim in H as [_ H].
Qed.

Lemma split_scheme_frag d x f :
  Py.mem "#" x = false ->
  split_scheme d (x +:+ String "#" f)
  = (fst (split_scheme d x), snd (split_scheme d x) +:+ String "#" f).
Proof.
  intros Hx. unfold split_scheme.
  destruct (Py.partition ":" x) as [[s r]|] eqn:E.
  - destruct (partition_spec _ _ _ _ E) as [-> Hs].
    rewrite app_assoc. cbn [String.append].
    rewrite (partition_app ":" s (r +:+ String "#" f) Hs).
    destruct s as [|c0 s']; [reflexivity |].
    destruct (_ && _); [reflexivity |].
    cbn [fst snd]. now rewrite app_assoc.
  - apply partition_none in E.
    rewrite (partition_app_absent ":" x _ E).
    cbn [Py.partition]. change (Ascii.eqb "#" ":") with false. cbv iota.
    destruct (Py.partition ":" f) as [[a b]|]; [|reflexivity].
    assert (Hall : Py.all is_scheme_char (x +:+ String "#" a) = false).
    { rewrite all_app. cbn [Py.all].
      change (is_scheme_char "#") with false. apply andb_false_r. }
    destruct (x +:+ String "#" a) as [|c0 s']; [reflexivity |].
    now rewrite Hall, andb_false_r.
Qed.

Lemma startswith2_frag r f :
  Py.mem "#" r = false ->
  Py.startswith "//" (r +:+ String "#" f) = Py.startswith "//" r.
Proof.
  destruct r as [|c [|c' r]]; simpl; intros H.
  - reflexivity.
  - now rewrite andb_false_r.
  - reflexivity.
Qed.

Lemma drop2_frag r f :
  Py.startswith "//" r = true ->
  Py.drop 2 (r +:+ String "#" f) = Py.drop 2 r +:+ String "#" f.
Proof. destruct r as [|c [|c' r]]; simpl; try discriminate; intros H; try reflexivity; now rewrite andb_false_r in H. Qed.

Lemma mem_drop c n r : Py.mem c r = false -> Py.mem c (Py.drop n r) = false.
Proof.
  revert r. induction n as [|n IH]; intros [|y r]; simpl; auto.
  now intros [_ H]%orb_false_elim; auto.
Qed.

Lemma splitnetloc_frag x f :
  Py.mem "#" x = false ->
  _splitnetloc (x +:+ String "#" f)
  = (fst (_splitnetloc x), snd (_splitnetloc x) +:+ String "#" f).
Proof.
  induction x as [|y x IH]; [reflexivity |].
  intros [Hy Hx]%orb_false_elim. cbn [String.append _splitnetloc].
  destruct (Py.mem y "/?#"); [reflexivity |].
  rewrite (IH Hx). now destruct (_splitnetloc x).
Qed.

Lemma splitnetloc_mem c x :
  Py.mem c x = false ->
  Py.mem c (fst (_splitnetloc x)) = false
  /\ Py.mem c (snd (_splitnetloc x)) = false.
Proof.
  induction x as [|y x IH]; [now split |].
  intros H. cbn [_splitnetloc].
  destruct (Py.mem y "/?#"); [now split |].
  apply orb_false_elim in H as [Hy Hx]. destruct (IH Hx) as [H1 H2].
  destruct (_splitnetloc x). simpl in *. now rewrite Hy, H1.
Qed.

(** A netloc never contains one of the three delimiters. *)
Lemma splitnetloc_delim c x :
  Py.mem c "/?#" = true -> Py.mem c (fst (_splitnetloc x)) = false.
Proof.
  intros Hc. induction x as [|y x IH]; [reflexivity |].
  cbn [_splitnetloc]. destruct (Py.mem y "/?#") eqn:Hy; [reflexivity |].
  destruct (_splitnetloc x). simpl in *. rewrite IH, orb_false_r.
  destruct (Ascii.eqb_spec c y); [congruence | reflexivity].
Qed.

Lemma split1_found c r f :
  Py.mem c r = false -> split1 c (r +:+ String c f) = (r, f).
Proof. intros H. unfold split1. now rewrite partition_app. Qed.

Lemma split1_absent c r : Py.mem c r = false -> split1 c r = (r, "").
Proof. intros H. unfold split1. now apply partition_none in H as ->. Qed.

Lemma split1_mem (c c' : ascii) r :
  Py.mem c r = false ->
  Py.mem c (fst (split1 c' r)) = false /\ Py.mem c (snd (split1 c' r)) = false.
Proof.
  intros H. unfold split1.
  destruct (Py.partition c' r) as [[a b]|] eqn:E; [|now split].
  destruct (partition_spec _ _ _ _ E) as [-> _].
  rewrite mem_app in H. apply orb_false_elim in H as [Ha Hb].
  simpl in Hb. apply orb_false_elim in Hb as [_ Hb]. now split.
Qed.

(** [urlsplit] of a URL with a fragment is [urlsplit] of the text before
    the [#], with the fragment filled in. *)
Lemma urlsplit_frag d x f :
  Py.mem "#" x = false ->
  urlsplit d (x +:+ String "#" f)
  = rmap (fun sr => set_sfragment sr (remove_unsafe f)) (urlsplit d x).
Proof.
  intros Hx. unfold urlsplit.
  rewrite (lstrip_by_app is_c0_or_space x "#" f eq_refl), remove_unsafe_app.
  set (x1 := remove_unsafe (Py.lstrip_by is_c0_or_space x)).
  assert (H1 : Py.mem "#" x1 = false)
    by now apply mem_remove_unsafe, mem_lstrip_by.
  set (d1 := remove_unsafe _).
  rewrite (split_scheme_frag d1 x1 _ H1).
  assert (H2 := split_scheme_mem "#" d1 x1 H1).
  destruct (split_scheme d1 x1) as [s r]. cbn [fst snd] in *.
  rewrite (startswith2_frag r _ H2).
  destruct (Py.startswith "//" r) eqn:Hs.
  - rewrite (drop2_frag r _ Hs).
    assert (H3 := mem_drop "#" 2 r H2).
    rewrite (splitnetloc_frag _ _ H3).
    destruct (splitnetloc_mem "#" _ H3) as [_ H4].
    destruct (_splitnetloc (Py.drop 2 r)) as [n rest]. cbn [fst snd] in *.
    destruct (bad_brackets n); [reflexivity |].
    rewrite (split1_found "#" rest _ H4), (split1_absent "#" rest H4).
    now destruct (split1 "?" rest).
  - destruct (bad_brackets ""); [reflexivity |].
    rewrite (split1_found "#" r _ H2), (split1_absent "#" r H2).
    now destruct (split1 "?" r).
Qed.

Lemma urlparse_frag d x f :
  Py.mem "#" x = false ->
  urlparse d (x +:+ String "#" f)
  = rmap (fun p => set_fragment p (remove_unsafe f)) (urlparse d x).
Proof.
  intros Hx. unfold urlparse. rewrite (urlsplit_frag d x f Hx).
  destruct (urlsplit d x) as [sr|e]; [|reflexivity].
  unfold rmap, rbind, set_sfragment.
  cbn [s_scheme s_netloc s_path s_query s_fragment].
  destruct (Py.in_list _ _ && _); [destruct (_splitparams _) |];
    reflexivity.
Qed.

(** [mem "#"] of a concatenation with a [#]. *)
Lemma mem_hash_app x f : Py.mem "#" (x +:+ String "#" f) = true.
Proof. rewrite mem_app. simpl. apply orb_true_r. Qed.

Lemma urldefrag_frag x f :
  Py.mem "#" x = false ->
  urldefrag (x +:+ String "#" f)
  = rmap (fun p => (urlunparse (set_fragment p ""), remove_unsafe f))
      (urlparse "" x).
Proof.
  intros Hx. unfold urldefrag. rewrite mem_hash_app, (urlparse_frag "" x f Hx).
  now destruct (urlparse "" x).
Qed.

Lemma urldefrag_nofrag x :
  Py.mem "#" x = false -> urldefrag x = Ok (x, "").
Proof. intros Hx. unfold urldefrag. now rewrite Hx. Qed.

End FragmentFacts.

(** [_normalize_url] on a URL without [#]: only the white space goes. *)
Lemma normalize_nofrag u :
  Py.mem "#" u = false -> _normalize_url u = Ok (Py.strip u).
Proof.
  intros H. unfold _normalize_url.
  now rewrite (urldefrag_nofrag _ (mem_strip "#" u H)).
Qed.

(** [_normalize_url] on a URL with [#]: the text before the first [#],
    stripped on the left, taken apart and put together again. *)
Lemma normalize_frag b f :
  Py.mem "#" b = false ->
  _normalize_url (b +:+ String "#" f)
  = rmap (fun p => urllib.urlunparse (urllib.set_fragment p ""))
      (urllib.urlparse "" (Py.lstrip_by Py.isspace b)).
Proof.
  intros H. unfold _normalize_url, Py.strip.
  rewrite (lstrip_by_app Py.isspace b "#" f eq_refl).
  rewrite (rstrip_by_app Py.isspace _ "#" f eq_refl).
  rewrite urldefrag_frag by now apply mem_lstrip_by.
  now destruct (urllib.urlparse _ _).
Qed.

(** ** No [#] survives the removal of the fragment *)

Section NoHash.

Import urllib.

Lemma rpartition_spec c s a b :
  Py.rpartition c s = Some (a, b) -> s = a +:+ String c b.
Proof.
  revert a b. induction s as [|x s IH]; simpl; intros a b H; [discriminate |].
  destruct (Py.rpartition c s) as [[a' b']|].
  - injection H as <- <-. now rewrite (IH a' b' eq_refl).
  - destruct (Ascii.eqb_spec x c) as [->|]; [|discriminate].
    now injection H as <- <-.
Qed.

Lemma scheme_char_lower c :
  is_scheme_char c = true -> Ascii.eqb "#" (Py.lower_char c) = false.
Proof.
  destruct c as [[] [] [] [] [] [] [] []]; vm_compute;
    first [reflexivity | discriminate].
Qed.

Lemma scheme_lower_no_hash s :
  Py.all is_scheme_char s = true -> Py.mem "#" (Py.lower s) = false.
Proof.
  induction s as [|x s IH]; [reflexivity |].
  cbn [Py.all Py.lower Py.mem]. intros [Hx Hs]%andb_prop.
  now rewrite (scheme_char_lower x Hx), (IH Hs).
Qed.

Lemma split_scheme_no_hash d x :
  Py.mem "#" d = false -> Py.mem "#" (fst (split_scheme d x)) = false.
Proof.
  intros Hd. unfold split_scheme.
  destruct (Py.partition ":" x) as [[[|c0 s'] r]|]; try exact Hd.
  destruct (is_ascii_alpha c0); [|exact Hd]. cbn [andb].
  destruct (Py.all is_scheme_char (String c0 s')) eqn:Ha; [|exact Hd].
  now apply scheme_lower_no_hash.
Qed.

Lemma split1_fst_no c s : Py.mem c (fst (split1 c s)) = false.
Proof.
  unfold split1. destruct (Py.partition c s) as [[a b]|] eqn:E.
  - now destruct (partition_spec _ _ _ _ E).
  - now apply partition_none.
Qed.

(** No component of a split URL but the fragment contains [#]. *)
Lemma urlsplit_no_hash x sr :
  urlsplit "" x = Ok sr ->
  Py.mem "#" (s_scheme sr) = false /\ Py.mem "#" (s_netloc sr) = false
  /\ Py.mem "#" (s_path sr) = false /\ Py.mem "#" (s_query sr) = false.
Proof.
  unfold urlsplit.
  set (d1 := remove_unsafe (Py.rstrip_by _ _)).
  set (x1 := remove_unsafe (Py.lstrip_by _ x)).
  assert (Hs := split_scheme_no_hash d1 x1 eq_refl).
  destruct (split_scheme d1 x1) as [s r]. cbn [fst] in Hs.
  set (nr := if Py.startswith "//" r then _ else _).
  assert (Hn : Py.mem "#" (fst nr) = false).
  { subst nr. destruct (Py.startswith "//" r); [|reflexivity].
    now apply splitnetloc_delim. }
  destruct nr as [n rest]. cbn [fst] in Hn.
  destruct (bad_brackets n); [discriminate |].
  assert (Hp := split1_fst_no "#" rest).
  destruct (split1 "#" rest) as [u f]. cbn [fst] in Hp.
  destruct (split1_mem "#" "?" u Hp) as [H1 H2].
  destruct (split1 "?" u) as [u' qy]. cbn [fst snd] in *.
  intros [= <-]. now cbn.
Qed.

Lemma splitparams_no_hash u :
  Py.mem "#" u = false ->
  Py.mem "#" (fst (_splitparams u)) = false
  /\ Py.mem "#" (snd (_splitparams u)) = false.
Proof.
  intros H. unfold _splitparams.
  destruct (Py.rpartition "/" u) as [[a b]|] eqn:E.
  - assert (Hab := rpartition_spec _ _ _ _ E). subst u.
    rewrite mem_app in H. apply orb_false_elim in H as [Ha Hb].
    cbn [Py.mem] in Hb. apply orb_false_elim in Hb as [_ Hb].
    destruct (Py.partition ";" b) as [[b1 p]|] eqn:E'.
    + destruct (partition_spec _ _ _ _ E') as [-> _].
      rewrite mem_app in Hb. apply orb_false_elim in Hb as [Hb1 Hp].
      cbn [Py.mem] in Hp. apply orb_false_elim in Hp as [_ Hp].
      cbn [fst snd]. rewrite !mem_app, Ha, Hb1. now split.
    + cbn [fst snd]. rewrite mem_app, Ha. cbn [Py.mem]. now rewrite Hb.
  - now apply split1_mem.
Qed.

Lemma urlparse_no_hash x p :
  urlparse "" x = Ok p ->
  Py.mem "#" (scheme p) = false /\ Py.mem "#" (netloc p) = false
  /\ Py.mem "#" (path p) = false /\ Py.mem "#" (params p) = false
  /\ Py.mem "#" (query p) = false.
Proof.
  unfold urlparse. destruct (urlsplit "" x) as [sr|e] eqn:E; [|discriminate].
  destruct (urlsplit_no_hash x sr E) as (H1 & H2 & H3 & H4).
  cbn [rbind]. destruct (splitparams_no_hash _ H3) as [H5 H6].
  destruct (Py.in_list _ _ && _).
  - destruct (_splitparams (s_path sr)). intros [= <-]. now cbn in *.
  - intros [= <-]. now cbn.
Qed.

Lemma urlunsplit_no_hash s n u qy :
  Py.mem "#" s = false -> Py.mem "#" n = false ->
  Py.mem "#" u = false -> Py.mem "#" qy = false ->
  Py.mem "#" (urlunsplit s n u qy "") = false.
Proof.
  intros Hs Hn Hu Hq. unfold urlunsplit. cbn [Py.truthy].
  repeat match goal with
         | |- context [if ?b then _ else _] => destruct b
         end;
    rewrite ?mem_app; cbn [Py.mem];
    rewrite ?mem_app; cbn [Py.mem];
    rewrite ?Hs, ?Hn, ?Hu, ?Hq; reflexivity.
Qed.

Lemma urlunparse_no_hash x p :
  urlparse "" x = Ok p ->
  Py.mem "#" (urlunparse (set_fragment p "")) = false.
Proof.
  intros H. destruct (urlparse_no_hash x p H) as (H1 & H2 & H3 & H4 & H5).
  unfold urlunparse. cbn [set_fragment scheme netloc path params query fragment].
  apply urlunsplit_no_hash; auto.
  destruct (Py.truthy (params p)); [|exact H3].
  rewrite mem_app, H3. cbn [Py.mem String.append]. now rewrite H4.
Qed.

End NoHash.

(** The result of [_normalize_url] never contains [#]. *)
Lemma normalize_no_hash u r :
  _normalize_url u = Ok r -> Py.mem "#" r = false.
Proof.
  destruct (Py.mem "#" u) eqn:Hu.
  - destruct (mem_split "#" u Hu) as (b & f & -> & Hb).
    rewrite (normalize_frag b f Hb).
    destruct (urllib.urlparse "" _) as [p|e] eqn:E; [|discriminate].
    intros [= <-]. now apply (urlunparse_no_hash _ p E).
  - rewrite (normalize_nofrag u Hu). intros [= <-]. now apply mem_strip.
Qed.

(** ** Normalization: fragments (C8) and repeated application (C10) *)

(** C8, as the code has it.  Two URLs that are the same text up to a
    fragment delimiter [#] have the same normal form (or both raise): the
    fragment never reaches the result.  A URL without [#] is only stripped
    of white space and returned as written; it is not taken apart and put
    together again as a URL with a fragment is. *)
Theorem normalize_fragment_insensitive (b f1 f2 : string) :
  Py.mem "#" b = false ->
  _normalize_url (b +:+ "#" +:+ f1) = _normalize_url (b +:+ "#" +:+ f2)
  /\ _normalize_url (b +:+ "#" +:+ f1)
     = rmap (fun p => urllib.urlunparse (urllib.set_fragment p ""))
         (urllib.urlparse "" (Py.lstrip_by Py.isspace b))
  /\ _normalize_url b = Ok (Py.strip b).
Proof.
  intros Hb. cbn [String.append].
  rewrite !(normalize_frag b _ Hb). repeat split.
  now apply normalize_nofrag.
Qed.

(** The instance of the specification: both fragments of [https://a/b]
    give [https://a/b]. *)
Lemma normalize_fragment_insensitive_witness :
  _normalize_url "https://a/b#frag1" = _normalize_url "https://a/b#frag2"
  /\ _normalize_url "https://a/b#frag1"
     = rmap (fun p => urllib.urlunparse (urllib.set_fragment p ""))
         (urllib.urlparse "" (Py.lstrip_by Py.isspace "https://a/b"))
  /\ _normalize_url "https://a/b" = Ok (Py.strip "https://a/b").
Proof.
  exact (normalize_fragment_insensitive "https://a/b" "frag1" "frag2" eq_refl).
Defined.

(** Path and query are kept as they are. *)
Example normalize_keeps_path_and_query :
  _normalize_url "  https://a/b/c.html?x=1&y=2#frag1 "
  = Ok "https://a/b/c.html?x=1&y=2"
  /\ _normalize_url "https://a/b#frag1" = Ok "https://a/b".
Proof. split; vm_compute; reflexivity. Qed.

(** C8 as stated fails when one of the two URLs has no fragment at all:
    [urldefrag] returns such a URL untouched, while the URL with a fragment
    comes back from [urlparse] with its scheme in lower case. *)
Lemma normalize_fragment_absent_counterexample :
  _normalize_url "HTTP://a/b" = Ok "HTTP://a/b"
  /\ _normalize_url "HTTP://a/b#frag1" = Ok "http://a/b"
  /\ _normalize_url "HTTP://a/b" <> _normalize_url "HTTP://a/b#frag1".
Proof.
  split; [vm_compute; reflexivity |].
  split; [vm_compute; reflexivity |].
  vm_compute. discriminate.
Qed.

(** C10, as the code has it.  A second normalization only strips the
    white space the first one left at the ends (it can be left in front of
    a removed fragment); on a URL without [#] the normal form is a fixed
    point. *)
Theorem normalize_twice (u r : string) :
  _normalize_url u = Ok r ->
  _normalize_url r = Ok (Py.strip r)
  /\ (Py.mem "#" u = false -> _normalize_url r = Ok r).
Proof.
  intros H. assert (Hr := normalize_no_hash u r H).
  split; [now apply normalize_nofrag |].
  intros Hu. rewrite (normalize_nofrag u Hu) in H. injection H as <-.
  rewrite (normalize_nofrag _ Hr). now rewrite strip_idem.
Qed.

Lemma normalize_twice_witness :
  _normalize_url "https://a/b?q=1" = Ok (Py.strip "https://a/b?q=1")
  /\ (Py.mem "#" "  https://a/b?q=1 " = false ->
      _normalize_url "https://a/b?q=1" = Ok "https://a/b?q=1").
Proof.
  exact (normalize_twice "  https://a/b?q=1 " "https://a/b?q=1" eq_refl).
Defined.

(** C10 as stated fails: white space in front of the fragment survives
    the first normalization and is stripped by the second. *)
Lemma normalize_not_idempotent_counterexample :
  _normalize_url "https://a/b #x" = Ok "https://a/b "
  /\ _normalize_url "https://a/b " = Ok "https://a/b"
  /\ rbind (_normalize_url "https://a/b #x") _normalize_url
     <> _normalize_url "https://a/b #x".
Proof.
  split; [vm_compute; reflexivity |].
  split; [vm_compute; reflexivity |].
  vm_compute. discriminate.
Qed.

(** ** Scope: exact netloc (C6) and subdomains (C7) *)

Lemma ex_com_builds (b : bool) (n : Z) : ex_com b n = Ok (ex_com_mirror b n).
Proof. reflexivity. Qed.

Section ScopeFacts.

Import urllib.

Lemma avoids_mem cs s c :
  avoids cs s = true -> Py.mem c cs = true -> Py.mem c s = false.
Proof.
  unfold avoids. intros Ha Hc.
  apply (all_mem_false (fun x => negb (Py.mem x cs)) c s); [|exact Ha].
  cbv beta. now rewrite Hc.
Qed.

Lemma avoids_intro cs s :
  (forall c, Py.mem c cs = true -> Py.mem c s = false) -> avoids cs s = true.
Proof.
  unfold avoids. induction s as [|x s IH]; [reflexivity |].
  intros H. cbn [Py.all]. rewrite IH.
  - destruct (Py.mem x cs) eqn:Hx; [|reflexivity].
    specialize (H x Hx). cbn [Py.mem] in H.
    now rewrite Ascii.eqb_refl in H.
  - intros c Hc. specialize (H c Hc). cbn [Py.mem] in H.
    now apply orb_false_elim in H.
Qed.

Lemma avoids_app cs s t : avoids cs (s +:+ t) = avoids cs s && avoids cs t.
Proof. apply all_app. Qed.

Lemma mem_remove_self c s : Py.mem c (Py.remove c s) = false.
Proof.
  induction s as [|x s IH]; [reflexivity |].
  cbn [Py.remove]. destruct (Ascii.eqb_spec x c) as [->|Hne]; [exact IH |].
  cbn [Py.mem]. rewrite IH.
  destruct (Ascii.eqb_spec c x); [congruence | reflexivity].
Qed.

Lemma remove_absent c s : Py.mem c s = false -> Py.remove c s = s.
Proof.
  induction s as [|x s IH]; [reflexivity |].
  cbn [Py.mem Py.remove]. rewrite (Ascii.eqb_sym c x).
  intros [-> Hs]%orb_false_elim. now rewrite (IH Hs).
Qed.

Lemma remove_unsafe_avoids s : avoids unsafe_chars (remove_unsafe s) = true.
Proof.
  apply avoids_intro. intros c Hc. unfold remove_unsafe.
  cbn [Py.mem unsafe_chars] in Hc.
  destruct (Ascii.eqb_spec c "009") as [E|_];
    [rewrite E; now do 2 apply mem_remove; apply mem_remove_self |].
  destruct (Ascii.eqb_spec c "013") as [E|_];
    [rewrite E; now apply mem_remove; apply mem_remove_self |].
  destruct (Ascii.eqb_spec c "010") as [E|_];
    [rewrite E; now apply mem_remove_self | discriminate].
Qed.

Lemma remove_unsafe_id s :
  avoids unsafe_chars s = true -> remove_unsafe s = s.
Proof.
  intros H. unfold remove_unsafe.
  rewrite (remove_absent "009" s) by now apply (avoids_mem unsafe_chars).
  rewrite (remove_absent "013" s) by now apply (avoids_mem unsafe_chars).
  now rewrite (remove_absent "010" s) by now apply (avoids_mem unsafe_chars).
Qed.

(** The netloc of a parsed URL contains no delimiter, none of the removed
    characters, and balanced brackets. *)
Lemma urlsplit_netloc x sr :
  urlsplit "" x = Ok sr ->
  avoids "/?#" (s_netloc sr) = true
  /\ avoids unsafe_chars (s_netloc sr) = true
  /\ bad_brackets (s_netloc sr) = false.
Proof.
  unfold urlsplit.
  set (d1 := remove_unsafe (Py.rstrip_by _ _)).
  set (x1 := remove_unsafe (Py.lstrip_by _ x)).
  assert (H1 : avoids unsafe_chars x1 = true) by apply remove_unsafe_avoids.
  assert (H2 : avoids unsafe_chars (snd (split_scheme d1 x1)) = true).
  { apply avoids_intro. intros c Hc. apply split_scheme_mem.
    now apply (avoids_mem unsafe_chars). }
  destruct (split_scheme d1 x1) as [s r]. cbn [snd] in H2.
  set (nr := if Py.startswith "//" r then _ else _).
  assert (Hn : avoids "/?#" (fst nr) = true
               /\ avoids unsafe_chars (fst nr) = true).
  { subst nr. destruct (Py.startswith "//" r); [|now split].
    split; apply avoids_intro; intros c Hc.
    - now apply splitnetloc_delim.
    - apply splitnetloc_mem, mem_drop. now apply (avoids_mem unsafe_chars). }
  destruct nr as [n rest]. cbn [fst] in Hn.
  destruct (bad_brackets n) eqn:Hb; [discriminate |].
  destruct (split1 "#" rest) as [u f]. destruct (split1 "?" u) as [u' qy].
  intros [= <-]. cbn. tauto.
Qed.

Lemma urlparse_netloc x p :
  urlparse "" x = Ok p ->
  avoids "/?#" (netloc p) = true
  /\ avoids unsafe_chars (netloc p) = true
  /\ bad_brackets (netloc p) = false.
Proof.
  unfold urlparse. destruct (urlsplit "" x) as [sr|e] eqn:E; [|discriminate].
  cbn [rbind]. assert (H := urlsplit_netloc x sr E).
  destruct (Py.in_list _ _ && _); [destruct (_splitparams _) |];
    intros [= <-]; exact H.
Qed.

End ScopeFacts.

Section HostFacts.

Import urllib.

Lemma all_mem_true (p : ascii -> bool) c s :
  Py.all p s = true -> Py.mem c s = true -> p c = true.
Proof.
  induction s as [|x s IH]; [discriminate |].
  cbn [Py.all Py.mem]. intros [Hx Hs]%andb_prop.
  destruct (Ascii.eqb_spec c x) as [->|_]; [now intros _ | now apply IH].
Qed.



Lemma lower_char_idem x : Py.lower_char (Py.lower_char x) = Py.lower_char x.
Proof. destruct x as [[] [] [] [] [] [] [] []]; vm_compute; reflexivity. Qed.

Lemma lower_idem s : Py.lower (Py.lower s) = Py.lower s.
Proof.
  induction s as [|x s IH]; [reflexivity |].
  cbn [Py.lower]. now rewrite lower_char_idem, IH.
Qed.




Lemma rpartition_absent c s : Py.mem c s = false -> Py.rpartition c s = None.
Proof.
  induction s as [|x s IH]; [reflexivity |].
  cbn [Py.rpartition Py.mem]. rewrite (Ascii.eqb_sym c x).
  intros [-> Hs]%orb_false_elim. now rewrite (IH Hs).
Qed.




End HostFacts.

Section SubdomainFacts.

Import urllib.

Lemma splitnetloc_whole s :
  avoids "/?#" s = true -> _splitnetloc s = (s, "").
Proof.
  unfold avoids. induction s as [|x s IH]; [reflexivity |].
  cbn [Py.all _splitnetloc]. intros [Hx Hs]%andb_prop.
  apply negb_true_iff in Hx. now rewrite Hx, (IH Hs).
Qed.

(** The URL [http://<n>] parses into the netloc [n], as written, and
    nothing else, when [n] is free of URL structure. *)
Lemma urlparse_netloc_only n :
  avoids "/?#" n = true -> avoids unsafe_chars n = true ->
  bad_brackets n = false ->
  urlparse "" ("http://" +:+ n) = Ok (mkParse "http" n "" "" "" "").
Proof.
  intros Hd Hu Hb. unfold urlparse, urlsplit.
  change (Py.lstrip_by is_c0_or_space ("http://" +:+ n))
    with ("http://" +:+ n).
  rewrite (remove_unsafe_id ("http://" +:+ n))
    by (rewrite avoids_app, Hu; reflexivity).
  change (remove_unsafe _) with "".
  change (split_scheme "" ("http://" +:+ n)) with ("http", "//" +:+ n).
  cbv iota beta.
  change (Py.startswith "//" ("//" +:+ n)) with true. cbv iota.
  change (Py.drop 2 ("//" +:+ n)) with n.
  now rewrite (splitnetloc_whole n Hd), Hb.
Qed.





End SubdomainFacts.







(** ** Path mapping (C3, C4) *)

Section HashFacts.

Import hashlib.

Lemma hex_length n x : String.length (hex n x) = n.
Proof. induction n as [|n IH]; [reflexivity |]. cbn [hex String.length]. now rewrite IH. Qed.

Lemma hex_digit_lower d : (0 <= d < 16)%Z -> is_lower_hex (hex_digit d) = true.
Proof.
  intros H.
  assert (E : (d = 0 \/ d = 1 \/ d = 2 \/ d = 3 \/ d = 4 \/ d = 5 \/ d = 6
               \/ d = 7 \/ d = 8 \/ d = 9 \/ d = 10 \/ d = 11 \/ d = 12
               \/ d = 13 \/ d = 14 \/ d = 15)%Z) by lia.
  repeat (destruct E as [->|E]; [reflexivity |]). now subst d.
Qed.

Lemma hex_lower n x : Py.all is_lower_hex (hex n x) = true.
Proof.
  induction n as [|n IH]; [reflexivity |].
  cbn [hex Py.all]. rewrite IH, andb_true_r. apply hex_digit_lower.
  change 15%Z with (Z.ones 4). rewrite Z.land_ones by lia.
  apply Z.mod_pos_bound. lia.
Qed.

Lemma take_app s t : Py.take (String.length s) (s +:+ t) = s.
Proof.
  induction s as [|x s IH]; [now destruct t |].
  cbn [String.length String.append Py.take]. now rewrite IH.
Qed.

Lemma hash8_hex s : exists x, _hash8 s = hex 8 x.
Proof.
  unfold _hash8, hexdigest.
  destruct (sha1 (utf8 s)) as [[[[h0 h1] h2] h3] h4]. exists h0.
  rewrite <- (hex_length 8 h0) at 1. apply take_app.
Qed.

End HashFacts.

(** [_hash8] always yields eight lower-case hexadecimal digits. *)
Lemma hash8_form s :
  String.length (_hash8 s) = 8%nat /\ Py.all is_lower_hex (_hash8 s) = true.
Proof.
  destruct (hash8_hex s) as [x ->]. split;
    [apply hex_length | apply hex_lower].
Qed.

Lemma hash8_no_slash s : Py.mem "/" (_hash8 s) = false.
Proof.
  apply (all_mem_false is_lower_hex); [reflexivity | apply hash8_form].
Qed.

Section PathFacts.

Import pathlib.

Lemma split_pieces c s :
  List.Forall (fun x => Py.mem c x = false
                        /\ forall d, Py.mem d s = false -> Py.mem d x = false)
    (Py.split c s).
Proof.
  induction s as [|y s IH]; cbn [Py.split].
  - constructor; [now split | constructor].
  - destruct (Ascii.eqb_spec y c) as [->|Hne].
    + constructor; [now split |].
      eapply List.Forall_impl; [|exact IH]. cbv beta.
      intros x [H1 H2]. split; [exact H1 |].
      intros d Hd. apply H2. cbn [Py.mem] in Hd.
      now apply orb_false_elim in Hd.
    + destruct (Py.split c s) as [|h r].
      * constructor; [|constructor]. split.
        -- cbn [Py.mem]. destruct (Ascii.eqb_spec c y); [congruence | reflexivity].
        -- intros d Hd. cbn [Py.mem] in *. apply orb_false_elim in Hd as [-> _].
           reflexivity.
      * inversion IH as [|? ? [H1 H2] Hr]; subst. constructor.
        -- split.
           ++ cbn [Py.mem]. rewrite H1.
              destruct (Ascii.eqb_spec c y); [congruence | reflexivity].
           ++ intros d Hd. cbn [Py.mem] in *.
              apply orb_false_elim in Hd as [-> Hd]. now apply H2.
        -- eapply List.Forall_impl; [|exact Hr]. cbv beta.
           intros x [H3 H4]. split; [exact H3 |].
           intros d Hd. apply H4. cbn [Py.mem] in Hd.
           now apply orb_false_elim in Hd.
Qed.

Lemma split_absent c s : Py.mem c s = false -> Py.split c s = [s].
Proof.
  induction s as [|y s IH]; [reflexivity |].
  cbn [Py.mem Py.split]. rewrite (Ascii.eqb_sym c y).
  intros [-> Hs]%orb_false_elim. now rewrite (IH Hs).
Qed.

Lemma parse_parts_wf s : forallb wf_part (parse_parts s) = true.
Proof.
  apply forallb_forall. intros x Hx. unfold parse_parts in Hx.
  apply List.filter_In in Hx as [Hin Hf].
  assert (H := split_pieces "/" s). rewrite List.Forall_forall in H.
  destruct (H x Hin) as [Hm _]. unfold wf_part. now rewrite Hf, Hm.
Qed.

Lemma joinpath_wf p s : wf_path p = true -> wf_path (p // s) = true.
Proof.
  intros Hp. unfold joinpath, wf_path.
  destruct (Py.truthy (splitroot s)); cbn [parts of_string].
  - apply parse_parts_wf.
  - rewrite forallb_app. fold (wf_path p). now rewrite Hp, parse_parts_wf.
Qed.

(** Joining a plain file name appends it. *)
Lemma joinpath_name p n :
  wf_part n = true -> p // n = mkPath (root p) (parts p ++ [n])%list.
Proof.
  unfold wf_part. intros [[Ht Hd]%andb_prop Hs]%andb_prop.
  apply negb_true_iff in Hd, Hs.
  unfold joinpath, splitroot, parse_parts.
  destruct n as [|c n]; [discriminate |].
  assert (Hc : Ascii.eqb "/" c = false).
  { cbn [Py.mem] in Hs. now apply orb_false_elim in Hs. }
  cbn [Py.startswith]. rewrite Hc. cbn [andb Py.truthy].
  rewrite (split_absent "/" _ Hs). cbn [List.filter Py.truthy andb].
  now rewrite Hd.
Qed.

Lemma last_snoc (l : list string) x d : List.last (l ++ [x])%list d = x.
Proof. induction l as [|y [|z l] IH]; auto. Qed.

Lemma removelast_snoc (l : list string) x : List.removelast (l ++ [x])%list = l.
Proof.
  induction l as [|y l IH]; [reflexivity |].
  cbn [app List.removelast]. destruct (l ++ [x])%list eqn:E.
  - now destruct l.
  - now rewrite IH.
Qed.

Lemma name_wf p : wf_path p = true -> name p = "" \/ wf_part (name p) = true.
Proof.
  unfold wf_path, name. induction (parts p) as [|x [|y l] IH]; cbn [forallb].
  - now left.
  - rewrite andb_true_r. now right.
  - intros [_ H]%andb_prop. now apply IH.
Qed.

Lemma name_no_slash p : wf_path p = true -> Py.mem "/" (name p) = false.
Proof.
  intros H. destruct (name_wf p H) as [->|Hn]; [reflexivity |].
  unfold wf_part in Hn. apply andb_prop in Hn as [_ Hn].
  now apply negb_true_iff.
Qed.

Lemma last_dot_spec n a b :
  last_dot n = Some (a, b) ->
  n = a +:+ String "." b /\ Py.truthy a = true /\ Py.truthy b = true.
Proof.
  unfold last_dot. destruct (Py.rpartition "." n) as [[a' b']|] eqn:E;
    [|discriminate].
  destruct (Py.truthy a') eqn:Ha, (Py.truthy b') eqn:Hb; try discriminate.
  intros [= <- <-]. split; [|now split]. now apply rpartition_spec.
Qed.

Lemma stem_no_slash p : wf_path p = true -> Py.mem "/" (stem p) = false.
Proof.
  intros H. assert (Hn := name_no_slash p H). unfold stem.
  destruct (last_dot (name p)) as [[a b]|] eqn:E; [|exact Hn].
  destruct (last_dot_spec _ _ _ E) as [Heq _].
  rewrite Heq, mem_app in Hn. now apply orb_false_elim in Hn.
Qed.

Lemma join_empty_mem c l :
  List.Forall (fun x => Py.mem c x = false) l -> Py.mem c (Py.join "" l) = false.
Proof.
  induction l as [|x [|y l] IH]; intros H; [reflexivity | |].
  - now inversion H.
  - inversion H as [|? ? Hx Hl]; subst.
    change (Py.join "" (x :: y :: l)) with (x +:+ "" +:+ Py.join "" (y :: l)).
    rewrite !mem_app, Hx, (IH Hl). reflexivity.
Qed.

Lemma suffixes_no_slash p :
  wf_path p = true -> Py.mem "/" (Py.join "" (suffixes p)) = false.
Proof.
  intros H. assert (Hn := name_no_slash p H). unfold suffixes.
  destruct (Py.endswith "." (name p)); [reflexivity |].
  apply join_empty_mem, List.Forall_map.
  assert (Hs := split_pieces "." (Py.lstrip "." (name p))).
  assert (Hl : Py.mem "/" (Py.lstrip "." (name p)) = false)
    by now apply mem_lstrip_by.
  destruct (Py.split "." _) as [|h r]; [constructor |]. cbn [List.tl].
  inversion Hs as [|? ? _ Hr]; subst.
  eapply List.Forall_impl; [|exact Hr]. cbv beta.
  intros x [_ Hx]. cbn [String.append Py.mem]. now rewrite (Hx _ Hl).
Qed.

(** The name rewritten for a query is a plain file name. *)
Lemma query_name_wf local qy :
  wf_path local = true -> wf_part (query_name local qy) = true.
Proof.
  intros H. unfold wf_part, query_name.
  set (st := if Py.truthy (stem local) then stem local else "file").
  assert (Hst : Py.mem "/" st = false).
  { subst st. destruct (Py.truthy (stem local)); [|reflexivity].
    now apply stem_no_slash. }
  assert (Hlen : (12 <= String.length
                    (st +:+ "__q=" +:+ _hash8 qy +:+ Py.join "" (suffixes local)))%nat).
  { rewrite !length_app. destruct (hash8_form qy) as [-> _].
    cbn [String.length]. lia. }
  rewrite !mem_app, Hst, hash8_no_slash, (suffixes_no_slash local H).
  destruct (st +:+ _) as [|c [|c' s]] eqn:E; cbn [String.length] in Hlen;
    try lia.
  change (String c (String c' s) =? ".")%string
    with (Ascii.eqb c "." && false).
  now rewrite andb_false_r.
Qed.

End PathFacts.

Section QueryNameFacts.

Import pathlib.

Lemma truthy_app s t : Py.truthy (s +:+ t) = Py.truthy s || Py.truthy t.
Proof. now destruct s. Qed.

Lemma rpartition_app c s t :
  Py.rpartition c (s +:+ t)
  = match Py.rpartition c t with
    | Some (a, b) => Some (s +:+ a, b)
    | None =>
        match Py.rpartition c s with
        | Some (a, b) => Some (a, b +:+ t)
        | None => None
        end
    end.
Proof.
  induction s as [|y s IH].
  - cbn [String.append Py.rpartition].
    now destruct (Py.rpartition c t) as [[a b]|].
  - cbn [String.append Py.rpartition]. rewrite IH.
    destruct (Py.rpartition c t) as [[a b]|]; [reflexivity |].
    destruct (Py.rpartition c s) as [[a b]|]; [reflexivity |].
    now destruct (Ascii.eqb y c).
Qed.

(** A non-empty piece without dots in the middle of a name does not decide
    whether the name has an extension. *)
Lemma has_ext_middle a h x :
  Py.truthy h = true -> Py.mem "." h = false ->
  has_ext (a +:+ h +:+ x)
  = match Py.rpartition "." x with
    | Some (_, b) => Py.truthy b
    | None =>
        match Py.rpartition "." a with
        | Some (a', _) => Py.truthy a'
        | None => false
        end
    end.
Proof.
  intros Ht Hm. unfold has_ext, last_dot.
  rewrite (rpartition_app "." a), (rpartition_app "." h).
  rewrite (rpartition_absent "." h Hm).
  destruct (Py.rpartition "." x) as [[a1 b1]|].
  - rewrite !truthy_app, Ht, orb_true_r. cbn [orb andb].
    now destruct (Py.truthy b1).
  - destruct (Py.rpartition "." a) as [[a1 b1]|]; [|reflexivity].
    rewrite !truthy_app, Ht, orb_true_r, andb_true_r.
    now destruct (Py.truthy a1).
Qed.

Lemma add_html_suffix_snoc r pp n ct :
  Py.truthy n = true ->
  add_html_suffix (mkPath r (pp ++ [n])%list) ct
  = Ok (mkPath r
          (pp ++ [n +:+ (if negb (has_ext n) && is_html_ct ct
                         then ".html" else "")])%list).
Proof.
  intros Hn. unfold add_html_suffix, suffix, with_suffix, has_ext, name.
  cbn [parts root]. rewrite last_snoc, removelast_snoc, Hn.
  destruct (last_dot n) as [[a b]|]; cbn [negb andb Py.truthy String.append].
  - now rewrite app_nil_r.
  - destruct (is_html_ct ct); cbn [negb]; [reflexivity |].
    now rewrite app_nil_r.
Qed.

Lemma app_inv_head_str a s t : a +:+ s = a +:+ t -> s = t.
Proof.
  induction a as [|y a IH]; [auto |].
  cbn [String.append]. intros [= H]. auto.
Qed.

Lemma app_inv_length s t y y' :
  String.length s = String.length t -> s +:+ y = t +:+ y' -> s = t.
Proof.
  revert t. induction s as [|c s IH]; intros [|d t]; try discriminate;
    [reflexivity |].
  cbn [String.length String.append]. intros [= Hl] [= -> H].
  now rewrite (IH t Hl H).
Qed.

End QueryNameFacts.

(** C3, as the code has it.  [url_to_local_path] reads nothing of the
    object but [out_dir].  Two URLs with the same netloc and path and
    non-empty query strings are mapped into the same directory, to file
    names [<stem>__q=<hash><suffix><ext>] with the same stem (["file"] for
    an empty one), the same suffix and the same [ext] ([.html] or nothing);
    the hash is eight lower-case hexadecimal digits, and the two paths
    differ whenever the two hashes differ. *)
Theorem url_to_local_path_query (self : SiteMirror) (u1 u2 : string)
    (p1 p2 : urllib.ParseResult) (ct : option string) :
  wf_path (out_dir self) = true ->
  urllib.urlparse "" u1 = Ok p1 -> urllib.urlparse "" u2 = Ok p2 ->
  urllib.netloc p1 = urllib.netloc p2 -> urllib.path p1 = urllib.path p2 ->
  Py.truthy (urllib.query p1) = true -> Py.truthy (urllib.query p2) = true ->
  let local := local_of self p1 ct in
  let stem :=
    if Py.truthy (pathlib.stem local) then pathlib.stem local else "file" in
  let suffix := Py.join "" (pathlib.suffixes local) in
  let file q := stem +:+ "__q=" +:+ _hash8 q +:+ suffix in
  let dir := List.removelast (pathlib.parts local) in
  (exists ext,
      (ext = "" \/ ext = ".html")
      /\ url_to_local_path self u1 ct
         = Ok (pathlib.mkPath (pathlib.root local)
                 (dir ++ [file (urllib.query p1) +:+ ext])%list)
      /\ url_to_local_path self u2 ct
         = Ok (pathlib.mkPath (pathlib.root local)
                 (dir ++ [file (urllib.query p2) +:+ ext])%list))
  /\ (String.length (_hash8 (urllib.query p1)) = 8%nat
      /\ Py.all is_lower_hex (_hash8 (urllib.query p1)) = true)
  /\ (String.length (_hash8 (urllib.query p2)) = 8%nat
      /\ Py.all is_lower_hex (_hash8 (urllib.query p2)) = true)
  /\ (_hash8 (urllib.query p1) <> _hash8 (urllib.query p2) ->
      url_to_local_path self u1 ct <> url_to_local_path self u2 ct)
  /\ (forall self',
        out_dir self' = out_dir self ->
        url_to_local_path self' u1 ct = url_to_local_path self u1 ct).
Proof.
  intros Hwf Hp1 Hp2 Hn Hpa Hq1 Hq2 local stem suffix file dir.
  assert (Hl2 : local_of self p2 ct = local)
    by (unfold local, local_of; now rewrite Hn, Hpa).
  assert (Hwl : wf_path local = true).
  { unfold local, local_of.
    destruct (_ || _); repeat apply joinpath_wf; exact Hwf. }
  assert (Hform : forall u p,
             urllib.urlparse "" u = Ok p -> local_of self p ct = local ->
             Py.truthy (urllib.query p) = true ->
             url_to_local_path self u ct
             = Ok (pathlib.mkPath (pathlib.root local)
                     (dir ++ [file (urllib.query p)
                              +:+ (if negb (has_ext (file (urllib.query p)))
                                      && is_html_ct ct
                                   then ".html" else "")])%list)).
  { intros u p Hp Hl Hq. unfold url_to_local_path.
    rewrite Hp. cbn [rbind]. rewrite Hl, Hq.
    assert (Hw := query_name_wf local (urllib.query p) Hwl).
    rewrite (joinpath_name _ _ Hw).
    cbn [pathlib.parent pathlib.root pathlib.parts].
    apply add_html_suffix_snoc.
    unfold wf_part in Hw. now apply andb_prop in Hw as [[Hw _]%andb_prop _]. }
  assert (Hext : has_ext (file (urllib.query p1))
                 = has_ext (file (urllib.query p2))).
  { unfold file.
    rewrite <- !(app_assoc stem "__q=").
    destruct (hash8_form (urllib.query p1)) as [L1 A1].
    destruct (hash8_form (urllib.query p2)) as [L2 A2].
    rewrite !has_ext_middle; trivial;
      try (apply (all_mem_false is_lower_hex); [reflexivity | assumption]).
    - now destruct (_hash8 (urllib.query p2)).
    - now destruct (_hash8 (urllib.query p1)). }
  assert (Hst : forall self',
             out_dir self' = out_dir self ->
             url_to_local_path self' u1 ct = url_to_local_path self u1 ct).
  { intros self' Ho. unfold url_to_local_path, local_of. now rewrite Ho. }
  revert Hst.
  rewrite (Hform u1 p1 Hp1 eq_refl Hq1), (Hform u2 p2 Hp2 Hl2 Hq2), <- Hext.
  set (ext := if _ && _ then ".html" else ""). intros Hst.
  split; [|split; [|split; [|split]]].
  - exists ext. split; [|now split].
    subst ext. destruct (_ && _); auto.
  - apply hash8_form.
  - apply hash8_form.
  - intros Hne [= H]. apply Hne.
    apply List.app_inv_head in H. injection H as H.
    unfold file in H. rewrite !app_assoc in H.
    apply app_inv_head_str in H. cbn [String.append] in H.
    injection H as H.
    apply (app_inv_length _ _ _ _) in H; [exact H |].
    destruct (hash8_form (urllib.query p1)) as [-> _].
    now destruct (hash8_form (urllib.query p2)) as [-> _].
  - exact Hst.
Qed.

(** Scenario B: [/style.css?v=1] and [/style.css?v=2] are saved as two
    files under [out/ex.com]. *)
Lemma url_to_local_path_query_witness :
  url_to_local_path (ex_com_mirror false 0) "https://ex.com/style.css?v=1"
    (Some "text/css")
  = Ok (pathlib.mkPath "" ["out"; "ex.com"; "style__q=1d365e2d.css"])
  /\ url_to_local_path (ex_com_mirror false 0) "https://ex.com/style.css?v=2"
       (Some "text/css")
     = Ok (pathlib.mkPath "" ["out"; "ex.com"; "style__q=f67bbdbf.css"])
  /\ url_to_local_path (ex_com_mirror false 0) "https://ex.com/style.css?v=1"
       (Some "text/css")
     <> url_to_local_path (ex_com_mirror false 0)
          "https://ex.com/style.css?v=2" (Some "text/css").
Proof.
  destruct (url_to_local_path_query (ex_com_mirror false 0)
              "https://ex.com/style.css?v=1" "https://ex.com/style.css?v=2"
              (urllib.mkParse "https" "ex.com" "/style.css" "" "v=1" "")
              (urllib.mkParse "https" "ex.com" "/style.css" "" "v=2" "")
              (Some "text/css")
              eq_refl eq_refl eq_refl eq_refl eq_refl eq_refl eq_refl)
    as (_ & _ & _ & Hne & _).
  split; [vm_compute; reflexivity |].
  split; [vm_compute; reflexivity |].
  apply Hne. vm_compute. discriminate.
Defined.

(** C3 as stated fails: the hash keeps 32 bits of the SHA-1, and the
    query strings [v=7141] and [v=137874] share them; the two URLs are
    mapped to one file. *)
Lemma url_to_local_path_collision_counterexample :
  url_to_local_path (ex_com_mirror false 0) "https://ex.com/style.css?v=7141"
    (Some "text/css")
  = Ok (pathlib.mkPath "" ["out"; "ex.com"; "style__q=712f4a68.css"])
  /\ url_to_local_path (ex_com_mirror false 0)
       "https://ex.com/style.css?v=137874" (Some "text/css")
     = Ok (pathlib.mkPath "" ["out"; "ex.com"; "style__q=712f4a68.css"])
  /\ urllib.query (urllib.mkParse "https" "ex.com" "/style.css" "" "v=7141" "")
     <> urllib.query
          (urllib.mkParse "https" "ex.com" "/style.css" "" "v=137874" "").
Proof.
  split; [vm_compute; reflexivity |].
  split; [vm_compute; reflexivity |].
  vm_compute. discriminate.
Qed.



(** ** Extraction (C5) *)

Section ExtractFacts.

Lemma foldM_inv {A S : Type} (I : S -> Prop) (f : S -> A -> result S) l :
  (forall s x s', I s -> f s x = Ok s' -> I s') ->
  forall s0 s, I s0 -> foldM f l s0 = Ok s -> I s.
Proof.
  intros Hf. induction l as [|x l IH]; intros s0 s H0; cbn [foldM].
  - now intros [= <-].
  - destruct (f s0 x) as [s1|e] eqn:E; [|discriminate]. cbn [rbind].
    apply IH. now apply (Hf s0 x).
Qed.

Lemma foldM_ext {A S : Type} (f g : S -> A -> result S) l s :
  (forall s x, f s x = g s x) -> foldM f l s = foldM g l s.
Proof.
  intros H. revert s. induction l as [|x l IH]; intros s; [reflexivity |].
  cbn [foldM]. rewrite H. destruct (g s x); [apply IH | reflexivity].
Qed.

(** One discovered reference, as all three loops treat it. *)
Lemma add_extracted self base_url (s s' : gset string) ref :
  (forall u, u ∈ s -> extracted self base_url u) ->
  (let* u := urllib.urljoin base_url ref in
   let* u := _normalize_url u in
   let* h := _is_http u in
   if negb h then Ok s
   else let* d := _same_domain self u in
        Ok (if d then {[u]} ∪ s else s)) = Ok s' ->
  forall u, u ∈ s' -> extracted self base_url u.
Proof.
  intros Hs.
  destruct (urllib.urljoin base_url ref) as [j|] eqn:Ej; [|discriminate].
  cbn [rbind]. destruct (_normalize_url j) as [v|] eqn:Ev; [|discriminate].
  cbn [rbind]. destruct (_is_http v) as [[]|] eqn:Eh; try discriminate;
    cbn [rbind negb].
  - destruct (_same_domain self v) as [[]|] eqn:Ed; try discriminate;
      cbn [rbind]; intros [= <-]; [|exact Hs].
    intros u [->%elem_of_singleton|Hu]%elem_of_union; [|now apply Hs].
    split; [eauto | now split].
  - now intros [= <-].
Qed.

Lemma page_step_sound self base_url s a s' :
  (forall u, u ∈ s -> extracted self base_url u) ->
  page_step self base_url s a = Ok s' ->
  forall u, u ∈ s' -> extracted self base_url u.
Proof.
  intros Hs. unfold page_step.
  destruct (el_get a "href") as [href|]; [|now intros [= <-]].
  destruct (negb (Py.truthy href)); [now intros [= <-] |].
  now apply add_extracted.
Qed.

Lemma candidate_step_sound self base_url tg el s c s' :
  (forall u, u ∈ s -> extracted self base_url u) ->
  candidate_step self base_url tg el s c = Ok s' ->
  forall u, u ∈ s' -> extracted self base_url u.
Proof.
  intros Hs. unfold candidate_step. intros H.
  destruct (String.eqb tg "link" && link_skipped el c) eqn:Hk.
  - (* a skipped link adds nothing *)
    destruct (urllib.urljoin base_url c) as [j|]; [|discriminate].
    cbn [rbind] in H. destruct (_normalize_url j) as [v|]; [|discriminate].
    cbn [rbind] in H. destruct (_is_http v) as [[]|]; try discriminate;
      cbn [rbind negb] in H; injection H as <-; exact Hs.
  - now apply (add_extracted self base_url s s' c).
Qed.

Lemma element_step_sound self base_url tg attr s el s' :
  (forall u, u ∈ s -> extracted self base_url u) ->
  element_step self base_url tg attr s el = Ok s' ->
  forall u, u ∈ s' -> extracted self base_url u.
Proof.
  intros Hs. unfold element_step.
  destruct (el_get el attr) as [val|]; [|now intros [= <-]].
  destruct (negb (Py.truthy val)); [now intros [= <-] |].
  apply (foldM_inv (fun s => forall u, u ∈ s -> extracted self base_url u));
    [|exact Hs].
  intros s1 c s2. apply candidate_step_sound.
Qed.

Lemma extract_from_soup_sound self base_url soup pages assets :
  extract_from_soup self base_url soup = Ok (pages, assets) ->
  forall u, u ∈ pages ∪ assets -> extracted self base_url u.
Proof.
  unfold extract_from_soup.
  destruct (foldM (page_step self base_url) _ ∅) as [ps|] eqn:Ep;
    [|discriminate].
  cbn [rbind]. destruct (foldM _ ASSET_ATTRS ∅) as [as_|] eqn:Ea;
    [|discriminate].
  cbn [rbind]. intros [= <- <-] u [Hu|Hu]%elem_of_union.
  - revert u Hu.
    eapply (foldM_inv (fun s => forall u, u ∈ s -> extracted self base_url u));
      [apply page_step_sound | | exact Ep].
    intros u Hu. now apply not_elem_of_empty in Hu.
  - revert u Hu.
    eapply (foldM_inv (fun s => forall u, u ∈ s -> extracted self base_url u));
      [| | exact Ea].
    + intros s [tg attr] s' Hs.
      apply (foldM_inv
               (fun s => forall u, u ∈ s -> extracted self base_url u));
        [|exact Hs].
      intros s1 el s2. apply element_step_sound.
    + intros u Hu. now apply not_elem_of_empty in Hu.
Qed.

(** Extraction reads two fields of the object, [base] and
    [include_subdomains], and nothing of its mutable state. *)
Lemma same_domain_scope self self' u :
  base self' = base self ->
  include_subdomains self' = include_subdomains self ->
  _same_domain self' u = _same_domain self u.
Proof. intros Hb Hi. unfold _same_domain. now rewrite Hb, Hi. Qed.

Lemma extract_from_soup_scope self self' base_url soup :
  base self' = base self ->
  include_subdomains self' = include_subdomains self ->
  extract_from_soup self' base_url soup = extract_from_soup self base_url soup.
Proof.
  intros Hb Hi. unfold extract_from_soup.
  assert (Hd := fun u => same_domain_scope self self' u Hb Hi).
  rewrite (foldM_ext (page_step self' base_url) (page_step self base_url)).
  2:{ intros s a. unfold page_step. destruct (el_get a "href"); [|reflexivity].
      destruct (negb _); [reflexivity |].
      destruct (urllib.urljoin _ _); [|reflexivity]. cbn [rbind].
      destruct (_normalize_url _); [|reflexivity]. cbn [rbind].
      now rewrite Hd. }
  rewrite (foldM_ext
             (fun assets '(tg, attr) =>
                foldM (element_step self' base_url tg attr) (find_all soup tg)
                  assets)
             (fun assets '(tg, attr) =>
                foldM (element_step self base_url tg attr) (find_all soup tg)
                  assets)); [reflexivity |].
  intros s [tg attr]. apply foldM_ext. intros s1 el.
  unfold element_step. destruct (el_get el attr); [|reflexivity].
  destruct (negb _); [reflexivity |].
  apply foldM_ext. intros s2 c. unfold candidate_step.
  destruct (urllib.urljoin _ _); [|reflexivity]. cbn [rbind].
  destruct (_normalize_url _); [|reflexivity]. cbn [rbind].
  now rewrite Hd.
Qed.

End ExtractFacts.

(** C5, as the code has it.  Whatever the extractor returns, in either
    set, is the normal form of a reference joined to the base URL, has an
    HTTP(S) scheme and is in scope; and the extractor reads only the scope
    descriptor of the object: run on an object in any other crawl state it
    returns the same two sets.  The two sets may overlap. *)
Theorem extract_links_and_assets_sound
    (html_parser : string -> list Element) (self : SiteMirror)
    (base_url html : string) (pages assets : gset string) :
  extract_links_and_assets html_parser self base_url html
  = Ok (pages, assets) ->
  (forall u, u ∈ pages ∪ assets -> extracted self base_url u)
  /\ (forall self',
        base self' = base self ->
        include_subdomains self' = include_subdomains self ->
        extract_links_and_assets html_parser self' base_url html
        = Ok (pages, assets)).
Proof.
  unfold extract_links_and_assets. intros H. split.
  - exact (extract_from_soup_sound self base_url _ pages assets H).
  - intros self' Hb Hi.
    now rewrite (extract_from_soup_scope self self' _ _ Hb Hi).
Qed.

Lemma extract_links_and_assets_sound_witness :
  (forall u,
      u ∈ ({["https://ex.com/about"]} : gset string)
          ∪ {["https://ex.com/logo.png"]} ->
      extracted (ex_com_mirror false 0) "https://ex.com/" u)
  /\ (forall self',
        base self' = base (ex_com_mirror false 0) ->
        include_subdomains self' = include_subdomains (ex_com_mirror false 0) ->
        extract_links_and_assets scenario_a_parser self' "https://ex.com/"
          home_body
        = Ok ({["https://ex.com/about"]}, {["https://ex.com/logo.png"]})).
Proof.
  apply (extract_links_and_assets_sound scenario_a_parser
           (ex_com_mirror false 0) "https://ex.com/" home_body).
  vm_compute. reflexivity.
Defined.

(** C5 as stated fails: an image that is also the target of a link is
    both a candidate page and a candidate asset. *)
Lemma extract_overlap_counterexample :
  extract_links_and_assets overlap_parser (ex_com_mirror false 0)
    "https://ex.com/" overlap_body
  = Ok ({["https://ex.com/logo.png"]}, {["https://ex.com/logo.png"]})
  /\ "https://ex.com/logo.png"
     ∈ ({["https://ex.com/logo.png"]} : gset string)
       ∩ {["https://ex.com/logo.png"]}.
Proof.
  split; [vm_compute; reflexivity |].
  apply elem_of_intersection. split; now apply elem_of_singleton.
Qed.

(** ** The shared state under any schedule (C1, C9, C2) *)

Section SharedFacts.

Lemma same_config_refl a : same_config a a.
Proof. unfold same_config. tauto. Qed.

Lemma same_config_trans a b c :
  same_config a b -> same_config b c -> same_config a c.
Proof.
  unfold same_config. intros (?&?&?&?&?&?&?&?&?) (?&?&?&?&?&?&?&?&?).
  repeat split; congruence.
Qed.


(** The record updates leave the configuration alone. *)
Ltac config_kept :=
  first [ apply same_config_refl
        | unfold same_config; cbn; repeat split; reflexivity ].

Lemma step_config s a s' :
  step s a = Some s' -> same_config (obj s) (obj s').
Proof.
  destruct a as [u|u| |u|]; cbn [step].
  - unfold seen_check_insert. destruct (bool_decide _); intros [= <-];
      config_kept.
  - destruct (remove_one u (pending s)); [|discriminate].
    intros [= <-]. config_kept.
  - unfold q_get. destruct (q (obj s)); [discriminate |].
    intros [= <-]. config_kept.
  - intros [= <-]. config_kept.
  - intros [= <-]. unfold count_page. destruct (cap_reached _);
      config_kept.
Qed.

Lemma steps_config acts : forall s s',
  steps s acts = Some s' -> same_config (obj s) (obj s').
Proof.
  induction acts as [|a acts IH]; intros s s'; cbn [steps].
  - intros [= <-]. apply same_config_refl.
  - destruct (step s a) as [s1|] eqn:E; [|discriminate]. intros H.
    eapply same_config_trans; [exact (step_config _ _ _ E) | now apply IH].
Qed.






Lemma steps_app l1 : forall l2 s s1 s2,
  steps s l1 = Some s1 -> steps s1 l2 = Some s2 ->
  steps s (l1 ++ l2) = Some s2.
Proof.
  induction l1 as [|a l1 IH]; intros l2 s s1 s2; cbn [steps app].
  - now intros [= <-].
  - destruct (step s a) as [s'|]; [|discriminate]. apply IH.
Qed.

Lemma reaches_refl s : reaches s s.
Proof. now exists []. Qed.

Lemma reaches_trans s1 s2 s3 : reaches s1 s2 -> reaches s2 s3 -> reaches s1 s3.
Proof.
  intros [l1 H1] [l2 H2]. exists (l1 ++ l2)%list.
  now apply (steps_app l1 l2 s1 s2 s3).
Qed.

End SharedFacts.

(** ** The sequential worker is one schedule of the atomic steps *)

Section Refinement.

Variable session_get : string -> result Response.
Variable html_parser : string -> list Element.
Variable css_refs : string -> list string.
Variable mkdir_fails : pathlib.Path -> bool.
Variable write_fails : pathlib.Path -> bool.

(** [enqueue] is the locked section followed, for a new URL, by the
    [put]; its URL is in the seen-set afterwards, so a later call with a
    URL of the same normal form changes nothing. *)
Lemma enqueue_reaches self u self' :
  enqueue self u = Ok self' ->
  (forall p t, reaches (mkShared self p t) (mkShared self' p t))
  /\ (forall u', _normalize_url u' = _normalize_url u ->
                 enqueue self' u' = Ok self').
Proof.
  unfold enqueue. destruct (_normalize_url u) as [v|] eqn:En; [|discriminate].
  cbn [rbind]. unfold seen_check_insert.
  destruct (bool_decide (v ∈ seen_urls self)) eqn:Hv; intros [= <-].
  - split; [intros; apply reaches_refl |].
    intros u' ->. cbn [rbind]. now rewrite Hv.
  - split.
    + intros p t. exists [LockSeen v; Put v]. cbn [steps step obj].
      unfold seen_check_insert. rewrite Hv.
      cbn [steps step obj pending taken remove_one].
      now rewrite String.eqb_refl.
    + intros u' ->. cbn [rbind q_put set_q set_seen seen_urls].
      rewrite bool_decide_eq_true_2; [reflexivity |].
      apply elem_of_union. left. now apply elem_of_singleton.
Qed.

Lemma foldM_reaches {A : Type} (f : SiteMirror -> A -> result SiteMirror) l :
  (forall s x s', f s x = Ok s' ->
                  forall p t, reaches (mkShared s p t) (mkShared s' p t)) ->
  forall s s', foldM f l s = Ok s' ->
               forall p t, reaches (mkShared s p t) (mkShared s' p t).
Proof.
  intros Hf. induction l as [|x l IH]; intros s s'; cbn [foldM].
  - intros [= <-] p t. apply reaches_refl.
  - destruct (f s x) as [s1|] eqn:E; [|discriminate]. cbn [rbind].
    intros H p t. eapply reaches_trans; [now apply (Hf s x s1) | now apply IH].
Qed.

Lemma enqueue_page_reaches self u self' :
  enqueue_page self u = Ok self' ->
  forall p t, reaches (mkShared self p t) (mkShared self' p t).
Proof.
  unfold enqueue_page. destruct (_ && _).
  - intros [= <-] p t. apply reaches_refl.
  - destruct (_same_domain self u) as [[]|]; try discriminate; cbn [rbind].
    + intros H. now apply enqueue_reaches in H.
    + intros [= <-] p t. apply reaches_refl.
Qed.

Lemma enqueue_asset_reaches self u self' :
  enqueue_asset self u = Ok self' ->
  forall p t, reaches (mkShared self p t) (mkShared self' p t).
Proof.
  unfold enqueue_asset.
  destruct (_same_domain self u) as [[]|]; try discriminate; cbn [rbind].
  - intros H. now apply enqueue_reaches in H.
  - intros [= <-] p t. apply reaches_refl.
Qed.

Lemma count_page_reaches self p t :
  reaches (mkShared self p t) (mkShared (count_page self) p t).
Proof. now exists [LockCount]. Qed.

Lemma saved_add_reaches self u p t :
  reaches (mkShared self p t) (mkShared (saved_add self u) p t).
Proof. now exists [LockSaved u]. Qed.

Lemma discover_reaches self u resp self' :
  discover html_parser css_refs self u resp = Ok self' ->
  forall p t, reaches (mkShared self p t) (mkShared self' p t).
Proof.
  unfold discover. destruct (startswith_any HTML_CT _).
  - destruct (Py.truthy _).
    + destruct (extract_links_and_assets _ _ _ _) as [[pages assets]|];
        [|discriminate].
      cbn [rbind fst snd].
      destruct (foldM enqueue_page _ _) as [s1|] eqn:E1; [|discriminate].
      cbn [rbind]. intros E2 p t.
      eapply reaches_trans; [apply count_page_reaches |].
      eapply reaches_trans.
      * exact (foldM_reaches enqueue_page _ enqueue_page_reaches _ _ E1 p t).
      * exact (foldM_reaches enqueue_asset _ enqueue_asset_reaches _ _ E2 p t).
    + intros [= <-] p t. apply count_page_reaches.
  - destruct (startswith_any CSS_CT _).
    + destruct (Py.truthy _).
      * destruct (extract_css_urls _ _ _ _) as [urls|]; [|discriminate].
        cbn [rbind]. intros E p t.
        refine (foldM_reaches enqueue _ _ _ _ E p t).
        intros s x s' H. now apply enqueue_reaches in H.
      * intros [= <-] p t. apply reaches_refl.
    + intros [= <-] p t. apply reaches_refl.
Qed.

Lemma process_task_reaches c u c' :
  process_task session_get html_parser css_refs mkdir_fails write_fails c u
  = Ok c' ->
  forall p t, reaches (mkShared (mirror c) p t) (mkShared (mirror c') p t).
Proof.
  unfold process_task. destruct (negb _).
  { intros [= <-] p t. apply reaches_refl. }
  destruct (fetch session_get u) as [[resp|]|]; try discriminate;
    cbn [rbind].
  2:{ intros [= <-] p t. apply reaches_refl. }
  destruct (negb _).
  { intros [= <-] p t. apply reaches_refl. }
  unfold save_response.
  destruct (url_to_local_path _ _ _) as [lp|]; [|discriminate].
  cbn [rbind]. destruct (mkdir_fails _); [discriminate |].
  destruct (write_fails lp); cbn [rbind].
  { intros [= <-] p t. apply reaches_refl. }
  cbn [mirror disk].
  destruct (discover _ _ _ _ _) as [s1|] eqn:E; [|discriminate].
  cbn [rbind]. intros [= <-] p t. cbn [mirror].
  eapply reaches_trans; [apply saved_add_reaches |].
  exact (discover_reaches _ _ _ _ E p t).
Qed.

(** A worker that returns has emptied the queue, by a schedule that took
    the tasks one by one. *)
Lemma worker_reaches fuel : forall c c',
  worker session_get html_parser css_refs mkdir_fails write_fails fuel c
  = Some (Ok c') ->
  q (mirror c') = []
  /\ forall t, exists t',
       reaches (mkShared (mirror c) [] t) (mkShared (mirror c') [] t').
Proof.
  induction fuel as [|fuel IH]; intros c c'; cbn [worker]; [discriminate |].
  unfold q_get. destruct (q (mirror c)) as [|tk rest] eqn:Eq.
  - intros [= <-]. split; [exact Eq |]. intros t. exists t.
    apply reaches_refl.
  - destruct (process_task _ _ _ _ _ _ _) as [c1|] eqn:E; [|discriminate].
    intros H. destruct (IH c1 c' H) as [Hq Hr]. split; [exact Hq |].
    intros t. destruct (Hr (t ++ [url tk])%list) as [t' Ht']. exists t'.
    eapply reaches_trans; [|exact Ht'].
    eapply reaches_trans.
    + exists [Get]. cbn [steps step]. unfold q_get. cbn [obj]. rewrite Eq.
      reflexivity.
    + cbn [pending taken].
      exact (process_task_reaches _ _ _ E [] (t ++ [url tk])%list).
Qed.


End Refinement.

(** ** The queue can always be drained *)




(** ** Dedup (C1) *)



(** ** Page cap (C9) *)

Section PageCount.

Variable session_get : string -> result Response.
Variable html_parser : string -> list Element.
Variable css_refs : string -> list string.
Variable mkdir_fails : pathlib.Path -> bool.
Variable write_fails : pathlib.Path -> bool.

Lemma count_page_capped self :
  (0 < max_pages self)%Z -> capped self -> capped (count_page self).
Proof.
  unfold capped, count_page, cap_reached. intros Hm Hc.
  destruct (Z.eqb_spec (max_pages self) 0) as [E|_]; [lia |].
  destruct (Z.leb_spec (max_pages self) (page_count self));
    cbn [negb andb]; [exact Hc |].
  cbn [set_page_count page_count max_pages]. lia.
Qed.

Lemma step_page_count s a s' :
  step s a = Some s' ->
  (a <> LockCount -> page_count (obj s') = page_count (obj s))
  /\ ((0 < max_pages (obj s))%Z -> capped (obj s) -> capped (obj s')).
Proof.
  destruct a as [u|u| |u|]; cbn [step].
  - unfold seen_check_insert. destruct (bool_decide _); intros [= <-];
      now split.
  - destruct (remove_one u (pending s)); [|discriminate].
    intros [= <-]. now split.
  - unfold q_get. destruct (q (obj s)); [discriminate |].
    intros [= <-]. now split.
  - intros [= <-]. now split.
  - intros [= <-]. split; [easy |]. apply count_page_capped.
Qed.

Lemma steps_capped acts : forall s s',
  steps s acts = Some s' ->
  (0 < max_pages (obj s))%Z -> capped (obj s) ->
  capped (obj s') /\ max_pages (obj s') = max_pages (obj s).
Proof.
  induction acts as [|a acts IH]; intros s s'; cbn [steps].
  - now intros [= <-].
  - destruct (step s a) as [s1|] eqn:E; [|discriminate]. intros H Hm Hc.
    destruct (step_config _ _ _ E) as (_ & _ & _ & _ & Hmax & _).
    destruct (step_page_count _ _ _ E) as [_ Hk].
    destruct (IH s1 s' H) as [H1 H2]; [now rewrite <- Hmax | now apply Hk |].
    split; [exact H1 | now rewrite H2, <- Hmax].
Qed.

(** Nothing that enqueues touches the counter. *)
Lemma enqueue_page_count self u self' :
  enqueue self u = Ok self' -> page_count self' = page_count self.
Proof.
  unfold enqueue. destruct (_normalize_url u); [|discriminate].
  cbn [rbind]. unfold seen_check_insert.
  now destruct (bool_decide _); intros [= <-].
Qed.

Lemma foldM_page_count {A : Type}
    (f : SiteMirror -> A -> result SiteMirror) l :
  (forall s x s', f s x = Ok s' -> page_count s' = page_count s) ->
  forall s s', foldM f l s = Ok s' -> page_count s' = page_count s.
Proof.
  intros Hf. induction l as [|x l IH]; intros s s'; cbn [foldM].
  - now intros [= <-].
  - destruct (f s x) as [s1|] eqn:E; [|discriminate]. cbn [rbind].
    intros H. now rewrite (IH s1 s' H), (Hf s x s1 E).
Qed.

Lemma enqueue_page_page_count self u self' :
  enqueue_page self u = Ok self' -> page_count self' = page_count self.
Proof.
  unfold enqueue_page. destruct (_ && _); [now intros [= <-] |].
  destruct (_same_domain self u) as [[]|]; try discriminate; cbn [rbind].
  - apply enqueue_page_count.
  - now intros [= <-].
Qed.

Lemma enqueue_asset_page_count self u self' :
  enqueue_asset self u = Ok self' -> page_count self' = page_count self.
Proof.
  unfold enqueue_asset.
  destruct (_same_domain self u) as [[]|]; try discriminate; cbn [rbind].
  - apply enqueue_page_count.
  - now intros [= <-].
Qed.

(** [discover] counts a page only in its HTML branch, and there only
    through the locked section. *)
Lemma discover_page_count self u resp self' :
  discover html_parser css_refs self u resp = Ok self' ->
  page_count self'
  = if startswith_any HTML_CT (content_type_of resp)
    then page_count (count_page self) else page_count self.
Proof.
  unfold discover. destruct (startswith_any HTML_CT _).
  - destruct (Py.truthy _); [|now intros [= <-]].
    destruct (extract_links_and_assets _ _ _ _) as [[pages assets]|];
      [|discriminate].
    cbn [rbind fst snd].
    destruct (foldM enqueue_page _ _) as [s1|] eqn:E1; [|discriminate].
    cbn [rbind]. intros E2.
    rewrite (foldM_page_count enqueue_asset _ enqueue_asset_page_count _ _ E2).
    exact (foldM_page_count enqueue_page _ enqueue_page_page_count _ _ E1).
  - destruct (startswith_any CSS_CT _); [|now intros [= <-]].
    destruct (Py.truthy _); [|now intros [= <-]].
    destruct (extract_css_urls _ _ _ _) as [urls|]; [|discriminate].
    cbn [rbind]. intros E.
    exact (foldM_page_count enqueue _ enqueue_page_count _ _ E).
Qed.

(** One task: the counter moves only for a saved HTML response with
    status 200, and then by the locked section. *)
Lemma process_task_page_count c u c' :
  process_task session_get html_parser css_refs mkdir_fails write_fails c u
  = Ok c' ->
  page_count (mirror c') = page_count (mirror c)
  \/ (exists resp,
         session_get u = Ok resp /\ status_code resp = 200%Z
         /\ startswith_any HTML_CT (content_type_of resp) = true
         /\ u ∈ saved_urls (mirror c')
         /\ page_count (mirror c') = page_count (count_page (mirror c))).
Proof.
  unfold process_task. destruct (negb _); [intros [= <-]; now left |].
  unfold fetch. destruct (session_get u) as [resp|e] eqn:Eg.
  2:{ destruct e; try discriminate. cbn [rbind]. intros [= <-]. now left. }
  cbn [rbind]. destruct (Z.eqb_spec (status_code resp) 200) as [Es|_];
    cbn [negb]; [|intros [= <-]; now left].
  unfold save_response.
  destruct (url_to_local_path _ _ _) as [lp|]; [|discriminate].
  cbn [rbind]. destruct (mkdir_fails _); [discriminate |].
  destruct (write_fails lp); cbn [rbind]; [intros [= <-]; now left |].
  cbn [mirror disk].
  destruct (discover _ _ _ _ _) as [s1|] eqn:E; [|discriminate].
  cbn [rbind]. intros [= <-]. cbn [mirror].
  assert (Hpc := discover_page_count _ _ _ _ E).
  destruct (startswith_any HTML_CT (content_type_of resp)) eqn:Eh.
  - right. exists resp. do 3 (split; [trivial |]). split.
    2:{ rewrite Hpc. unfold count_page, cap_reached, saved_add.
        cbn [set_saved max_pages page_count].
        now destruct (_ && _). }
    destruct (discover_reaches html_parser css_refs _ _ _ _ E [] [])
      as [acts Hs].
    assert (Hmono : forall acts s s',
               steps s acts = Some s' ->
               u ∈ saved_urls (obj s) -> u ∈ saved_urls (obj s')).
    { clear. induction acts as [|a acts IH]; intros s s'; cbn [steps].
      - now intros [= <-].
      - destruct (step s a) as [s1|] eqn:E; [|discriminate].
        intros H Hu. apply (IH s1 s' H).
        destruct a as [v|v| |v|]; cbn [step] in E.
        + unfold seen_check_insert in E.
          now destruct (bool_decide _); injection E as <-.
        + destruct (remove_one v (pending s)); [|discriminate].
          now injection E as <-.
        + unfold q_get in E. destruct (q (obj s)); [discriminate |].
          now injection E as <-.
        + injection E as <-. cbn. apply elem_of_union. now right.
        + injection E as <-. cbn [obj]. unfold count_page.
          now destruct (cap_reached _). }
    apply (Hmono acts _ _ Hs). cbn. apply elem_of_union. left.
    now apply elem_of_singleton.
  - left. exact Hpc.
Qed.

End PageCount.

(** C9.  Under a page cap ([max_pages > 0]) the counter never exceeds the
    cap, whatever the workers do and in whatever order; the cap itself is
    never written.  In the worker the counter moves only when an HTML
    response with status 200 was saved and the counter was below the cap,
    and then by one; a response that is not HTML leaves it alone. *)
Theorem page_count_capped (self : SiteMirror) :
  (0 < max_pages self)%Z -> (page_count self <= max_pages self)%Z ->
  (forall acts s,
      steps (shared_init self) acts = Some s ->
      (page_count (obj s) <= max_pages self)%Z
      /\ max_pages (obj s) = max_pages self)
  /\ (forall session_get html_parser css_refs mkdir_fails write_fails
             fuel d c',
         worker session_get html_parser css_refs mkdir_fails write_fails
           fuel (mkCrawl self d) = Some (Ok c') ->
         (page_count (mirror c') <= max_pages self)%Z)
  /\ (forall session_get html_parser css_refs mkdir_fails write_fails
             d u c',
         process_task session_get html_parser css_refs mkdir_fails
           write_fails (mkCrawl self d) u = Ok c' ->
         page_count (mirror c') = page_count self
         \/ (page_count (mirror c') = (page_count self + 1)%Z
             /\ (page_count self < max_pages self)%Z
             /\ exists resp,
                  session_get u = Ok resp /\ status_code resp = 200%Z
                  /\ startswith_any HTML_CT (content_type_of resp) = true
                  /\ u ∈ saved_urls (mirror c'))).
Proof.
  intros Hm Hc. split; [|split].
  - intros acts s Hs.
    destruct (steps_capped acts _ _ Hs Hm Hc) as [H1 H2].
    unfold capped in H1. cbn [shared_init obj] in H2. now rewrite <- H2.
  - intros sg hp cr mf wf fuel d c' Hw.
    destruct (worker_reaches sg hp cr mf wf fuel _ _ Hw) as [_ Hr].
    destruct (Hr []) as [t' [acts Hs]]. cbn [mirror] in Hs.
    destruct (steps_capped acts _ _ Hs Hm Hc) as [H1 H2].
    unfold capped in H1. cbn [obj] in H1, H2. now rewrite <- H2.
  - intros sg hp cr mf wf d u c' Hp.
    destruct (process_task_page_count sg hp cr mf wf _ _ _ Hp)
      as [H|(resp & Hg & Hs & Hh & Hsv & Hpc)]; [now left |].
    cbn [mirror] in Hpc. unfold count_page, cap_reached in Hpc.
    destruct (Z.eqb_spec (max_pages self) 0) as [E|_]; [lia |].
    destruct (Z.leb_spec (max_pages self) (page_count self));
      cbn [negb andb] in Hpc; [now left |].
    right. cbn [set_page_count page_count] in Hpc.
    split; [exact Hpc |]. split; [lia |]. now exists resp.
Qed.

(** A cap of one page: three workers reach the locked section one after
    the other, one page is counted. *)
Lemma page_count_capped_witness :
  steps (shared_init (ex_com_mirror false 1)) [LockCount; LockCount; LockCount]
  = Some (shared_init (set_page_count (ex_com_mirror false 1) 1))
  /\ (page_count (set_page_count (ex_com_mirror false 1) 1)
      <= max_pages (ex_com_mirror false 1))%Z.
Proof.
  assert (E : steps (shared_init (ex_com_mirror false 1))
                [LockCount; LockCount; LockCount]
              = Some (shared_init (set_page_count (ex_com_mirror false 1) 1)))
    by reflexivity.
  split; [exact E |].
  assert (H0 : (0 < max_pages (ex_com_mirror false 1))%Z) by reflexivity.
  assert (H1 : (page_count (ex_com_mirror false 1)
                <= max_pages (ex_com_mirror false 1))%Z) by discriminate.
  exact (proj1 (proj1 (page_count_capped (ex_com_mirror false 1) H0 H1)
                  _ _ E)).
Defined.

(** ** Robots (C2) *)

(** C2.  The robots check answers [true] whenever robots are ignored, or
    no policy is loaded, or the evaluation of the policy raises.  When
    loading the policy raises, [_init_robots] leaves no policy, and since
    no step of the crawl writes that field, the check answers [true] for
    every URL in every state the crawl reaches. *)
Theorem robots_fail_open :
  (forall self u,
      ignore_robots self = true \/ rp self = None
      \/ (exists r e, rp self = Some r
                      /\ can_fetch r (user_agent self) u = Raise e) ->
      _allowed_by_robots self u = true)
  /\ (forall robots_read self0 self1,
         (forall url, exists e, robots_read url = Raise e) ->
         _init_robots robots_read self0 = Ok self1 ->
         rp self1 = None
         /\ forall acts s u,
              steps (shared_init self1) acts = Some s ->
              _allowed_by_robots (obj s) u = true).
Proof.
  split.
  - intros self u H. unfold _allowed_by_robots.
    destruct (ignore_robots self); [reflexivity |].
    destruct H as [H|[H|(r & e & Hr & He)]]; [discriminate | now rewrite H |].
    now rewrite Hr, He.
  - intros robots_read self0 self1 Hfail. unfold _init_robots.
    destruct (urllib.urljoin _ _) as [ru|]; [|discriminate]. cbn [rbind].
    destruct (Hfail ru) as [e ->]. intros [= <-].
    split; [reflexivity |]. intros acts s u Hs.
    destruct (steps_config acts _ _ Hs) as (_&_&_&_&_&_&_&_&Hrp).
    cbn [shared_init obj set_rp rp] in Hrp.
    unfold _allowed_by_robots. rewrite <- Hrp.
    now destruct (ignore_robots (obj s)).
Qed.

(** The robots file cannot be fetched: [/private/x] is allowed, although
    the policy that would have been loaded forbids it; and a policy whose
    evaluation raises allows it too. *)
Lemma robots_fail_open_witness :
  rmap (fun m => _allowed_by_robots m "https://ex.com/private/x")
    (ex_com_robots robots_unreachable) = Ok true
  /\ rmap (fun m => _allowed_by_robots m "https://ex.com/private/x")
       (ex_com_robots (fun _ => Ok private_policy)) = Ok false
  /\ _allowed_by_robots
       (set_rp (ex_com_mirror false 0) (Some broken_policy))
       "https://ex.com/private/x" = true.
Proof.
  split; [|split; [reflexivity |]].
  - change (ex_com_robots robots_unreachable)
      with (Ok (set_rp (mkMirror "https://ex.com/"
                          (urllib.mkParse "https" "ex.com" "/" "" "" "")
                          (pathlib.mkPath "" ["out"]) false 0 1 false
                          "SiteMirrorBot/1.0" None ∅ ∅ 0 []) None)).
    cbn [rmap rbind]. apply (f_equal Ok).
    apply (proj1 robots_fail_open). right. now left.
  - apply (proj1 robots_fail_open). right. right.
    exists broken_policy, OtherException. now split.
Defined.

(* ===================================================================== *)
(** * Further properties of the crawler *)
(* ===================================================================== *)

(** ** The content type of a response *)

Section ContentTypeFacts.

Lemma lower_char_space c : Py.isspace (Py.lower_char c) = Py.isspace c.
Proof. destruct c as [[] [] [] [] [] [] [] []]; vm_compute; reflexivity. Qed.

Lemma lower_char_semicolon c :
  Ascii.eqb (Py.lower_char c) ";" = Ascii.eqb c ";".
Proof. destruct c as [[] [] [] [] [] [] [] []]; vm_compute; reflexivity. Qed.

Lemma lower_lstrip_space s :
  Py.lower (Py.lstrip_by Py.isspace s) = Py.lstrip_by Py.isspace (Py.lower s).
Proof.
  induction s as [|c s IH]; [reflexivity |].
  cbn [Py.lower Py.lstrip_by]. rewrite lower_char_space.
  destruct (Py.isspace c); [exact IH | reflexivity].
Qed.

Lemma lower_rstrip_space s :
  Py.lower (Py.rstrip_by Py.isspace s) = Py.rstrip_by Py.isspace (Py.lower s).
Proof.
  induction s as [|c s IH]; [reflexivity |].
  cbn [Py.lower Py.rstrip_by]. rewrite <- IH, lower_char_space.
  destruct (Py.rstrip_by Py.isspace s); [|reflexivity].
  cbn [Py.lower]. now destruct (Py.isspace c).
Qed.

Lemma lower_strip s : Py.lower (Py.strip s) = Py.strip (Py.lower s).
Proof. unfold Py.strip. now rewrite lower_rstrip_space, lower_lstrip_space. Qed.

Lemma split_nonempty c s : Py.split c s <> [].
Proof.
  induction s as [|x s IH]; cbn [Py.split]; [discriminate |].
  destruct (Ascii.eqb x c); [discriminate |].
  now destruct (Py.split c s).
Qed.

Lemma lower_split_head s :
  Py.lower (List.hd "" (Py.split ";" s))
  = List.hd "" (Py.split ";" (Py.lower s)).
Proof.
  induction s as [|x s IH]; [reflexivity |].
  cbn [Py.lower Py.split]. rewrite lower_char_semicolon.
  destruct (Ascii.eqb x ";"); [reflexivity |].
  assert (H1 := split_nonempty ";" s).
  assert (H2 := split_nonempty ";" (Py.lower s)).
  destruct (Py.split ";" s) as [|h r]; [easy |].
  destruct (Py.split ";" (Py.lower s)) as [|h' r']; [easy |].
  cbn [List.hd Py.lower] in *. now rewrite IH.
Qed.

Lemma split_head_app c a b :
  Py.mem c a = false ->
  List.hd "" (Py.split c (a +:+ String c b)) = a.
Proof.
  induction a as [|x a IH]; cbn [String.append Py.split Py.mem].
  - intros _. now rewrite Ascii.eqb_refl.
  - rewrite (Ascii.eqb_sym c x). intros [Hx Ha]%orb_false_elim.
    rewrite Hx. specialize (IH Ha).
    assert (H := split_nonempty c (a +:+ String c b)).
    destruct (Py.split c (a +:+ String c b)); [easy |].
    cbn [List.hd] in *. now rewrite IH.
Qed.

Lemma split_head_no_sep c s : Py.mem c (List.hd "" (Py.split c s)) = false.
Proof.
  assert (H := split_pieces c s). assert (Hn := split_nonempty c s).
  destruct (Py.split c s) as [|h r]; [easy |].
  now inversion H as [|? ? [Hh _] _].
Qed.

Lemma content_type_of_text resp :
  content_type_of resp
  = content_type_text
      match content_type_header resp with Some s => s | None => "" end.
Proof. reflexivity. Qed.

Lemma content_type_text_lower h :
  content_type_text h = Py.strip (List.hd "" (Py.split ";" (Py.lower h))).
Proof.
  unfold content_type_text. now rewrite lower_strip, lower_split_head.
Qed.

End ContentTypeFacts.

(** X1 -- [save_response] and [worker] reduce the Content-Type header of a
    response to the text before its first [;], trimmed and in lower case.
    The result holds no [;], is trimmed and in lower case, and it does not
    change when parameters (a charset, say) are appended to the header or
    when the header is written in another letter case. *)
Theorem content_type_of_canonical (resp : Response) (h ps h' : string) :
  (Py.mem ";" (content_type_of resp) = false
   /\ Py.lower (content_type_of resp) = content_type_of resp
   /\ Py.strip (content_type_of resp) = content_type_of resp)
  /\ (Py.mem ";" h = false ->
      content_type_of (with_content_type resp (h +:+ ";" +:+ ps))
      = content_type_of (with_content_type resp h))
  /\ (Py.lower h' = Py.lower h ->
      content_type_of (with_content_type resp h')
      = content_type_of (with_content_type resp h)).
Proof.
  split; [|split].
  - rewrite content_type_of_text.
    set (x := match content_type_header resp with Some s => s | None => "" end).
    split; [|split].
    + rewrite content_type_text_lower. apply mem_strip, split_head_no_sep.
    + unfold content_type_text. apply lower_idem.
    + rewrite content_type_text_lower. apply strip_idem.
  - intros Hh. rewrite !content_type_of_text.
    cbn [with_content_type content_type_header]. unfold content_type_text.
    cbn [String.append]. rewrite (split_head_app ";" h ps Hh).
    now rewrite (split_absent ";" h Hh).
  - intros Hl. rewrite !content_type_of_text.
    cbn [with_content_type content_type_header].
    now rewrite !content_type_text_lower, Hl.
Qed.

Lemma content_type_of_canonical_witness :
  content_type_of
    (with_content_type (mkResponse 200 None (Ok "") "")
       "Text/HTML; charset=utf-8")
  = content_type_of
      (with_content_type (mkResponse 200 None (Ok "") "") "text/html").
Proof.
  destruct (content_type_of_canonical (mkResponse 200 None (Ok "") "")
              "Text/HTML" " charset=utf-8" "text/html") as (_ & H1 & H2).
  etransitivity; [apply H1; reflexivity |].
  destruct (content_type_of_canonical (mkResponse 200 None (Ok "") "")
              "text/html" "" "Text/HTML") as (_ & _ & H3).
  apply H3. reflexivity.
Defined.

(** ** The scheme test *)

Section SchemeFacts.

Import urllib.

Lemma alpha_not_c0 c : is_ascii_alpha c = true -> is_c0_or_space c = false.
Proof. destruct c as [[] [] [] [] [] [] [] []]; vm_compute; congruence. Qed.

Lemma scheme_char_safe c :
  is_scheme_char c = true -> Py.mem c unsafe_chars = false.
Proof. destruct c as [[] [] [] [] [] [] [] []]; vm_compute; congruence. Qed.

Lemma scheme_text_chars s :
  scheme_text s = true ->
  Py.all is_scheme_char s = true
  /\ Py.mem ":" s = false /\ avoids unsafe_chars s = true.
Proof.
  intros H. assert (Ha : Py.all is_scheme_char s = true).
  { destruct s; [discriminate |]. now apply andb_prop in H. }
  split; [exact Ha |]. split.
  - now apply (all_mem_false is_scheme_char).
  - apply avoids_intro. intros c Hc.
    destruct (Py.mem c s) eqn:Hm; [|reflexivity].
    assert (Hs := all_mem_true is_scheme_char c s Ha Hm).
    apply scheme_char_safe in Hs. congruence.
Qed.

Lemma remove_unsafe_append a b :
  remove_unsafe (a +:+ b) = remove_unsafe a +:+ remove_unsafe b.
Proof. unfold remove_unsafe. now rewrite !remove_app. Qed.

(** A URL that opens with a scheme text and a colon has that scheme, in
    lower case. *)
Lemma urlsplit_scheme s rest sr :
  scheme_text s = true ->
  urlsplit "" (s +:+ ":" +:+ rest) = Ok sr -> s_scheme sr = Py.lower s.
Proof.
  intros Hs. destruct (scheme_text_chars s Hs) as (Hall & Hcol & Hsafe).
  unfold urlsplit.
  assert (E1 : Py.lstrip_by is_c0_or_space (s +:+ ":" +:+ rest)
               = s +:+ ":" +:+ rest).
  { destruct s as [|c s']; [discriminate |]. cbn [String.append Py.lstrip_by].
    apply andb_prop in Hs as [Hc _]. now rewrite (alpha_not_c0 c Hc). }
  rewrite E1, remove_unsafe_append, (remove_unsafe_id s Hsafe).
  rewrite remove_unsafe_append.
  change (remove_unsafe ":") with ":". cbn [String.append].
  set (d1 := remove_unsafe (Py.rstrip_by _ _)).
  unfold split_scheme. rewrite (partition_app ":" s _ Hcol).
  destruct s as [|c s']; [discriminate |]. unfold scheme_text in Hs.
  rewrite Hs.
  destruct (if Py.startswith "//" _ then _ else _) as [n r].
  destruct (bad_brackets n); [discriminate |].
  destruct (split1 "#" r) as [u f]. destruct (split1 "?" u) as [u' qy].
  now intros [= <-].
Qed.

(** A reference without a colon has no scheme. *)
Lemma urlsplit_no_scheme u sr :
  Py.mem ":" u = false -> urlsplit "" u = Ok sr -> s_scheme sr = "".
Proof.
  intros Hu. unfold urlsplit.
  set (x1 := remove_unsafe (Py.lstrip_by _ u)).
  assert (Hx : Py.mem ":" x1 = false)
    by now apply mem_remove_unsafe, mem_lstrip_by.
  unfold split_scheme. apply partition_none in Hx. rewrite Hx.
  change (remove_unsafe (Py.rstrip_by is_c0_or_space
            (Py.lstrip_by is_c0_or_space ""))) with "".
  destruct (if Py.startswith "//" _ then _ else _) as [n r].
  destruct (bad_brackets n); [discriminate |].
  destruct (split1 "#" r) as [u1 f]. destruct (split1 "?" u1) as [u' qy].
  now intros [= <-].
Qed.

Lemma urlparse_scheme x p :
  urlparse "" x = Ok p ->
  exists sr, urlsplit "" x = Ok sr /\ scheme p = s_scheme sr.
Proof.
  unfold urlparse. destruct (urlsplit "" x) as [sr|e]; [|discriminate].
  cbn [rbind]. intros H. exists sr. split; [reflexivity |].
  destruct (Py.in_list _ _ && _); [destruct (_splitparams _) |];
    now injection H as <-.
Qed.

Lemma urlparse_raises x e : urlparse "" x = Raise e -> e = ValueError.
Proof.
  unfold urlparse, urlsplit.
  destruct (split_scheme _ _) as [s r].
  destruct (if Py.startswith "//" _ then _ else _) as [n r'].
  destruct (bad_brackets n).
  - cbn [rbind]. congruence.
  - destruct (split1 "#" r') as [u f]. destruct (split1 "?" u) as [u' qy].
    cbn [rbind]. destruct (Py.in_list _ _ && _); [destruct (_splitparams _) |];
      discriminate.
Qed.

End SchemeFacts.

(** X2 -- [_is_http] looks at the text before the first colon only, in
    any letter case: for a URL that opens with a scheme text [s] and a
    colon the answer is whether [s], in lower case, is [http] or [https];
    a reference without a colon is never HTTP.  The only failure is the
    [ValueError] of [urlparse]. *)
Theorem is_http_by_scheme (s rest u : string) :
  (scheme_text s = true ->
   _is_http (s +:+ ":" +:+ rest)
   = Ok (Py.in_list (Py.lower s) ["http"; "https"])
   \/ _is_http (s +:+ ":" +:+ rest) = Raise ValueError)
  /\ (Py.mem ":" u = false ->
      _is_http u = Ok false \/ _is_http u = Raise ValueError).
Proof.
  split; intros H; unfold _is_http.
  - destruct (urllib.urlparse "" (s +:+ ":" +:+ rest)) as [p|e] eqn:E.
    + left. cbn [rbind].
      destruct (urlparse_scheme _ _ E) as (sr & Es & ->).
      now rewrite (urlsplit_scheme s rest sr H Es).
    + right. cbn [rbind]. now rewrite (urlparse_raises _ _ E).
  - destruct (urllib.urlparse "" u) as [p|e] eqn:E.
    + left. cbn [rbind].
      destruct (urlparse_scheme _ _ E) as (sr & Es & ->).
      now rewrite (urlsplit_no_scheme u sr H Es).
    + right. cbn [rbind]. now rewrite (urlparse_raises _ _ E).
Qed.

Lemma is_http_by_scheme_witness :
  (_is_http "HTTPS://Ex.com/a:b" = Ok true
   \/ _is_http "HTTPS://Ex.com/a:b" = Raise ValueError)
  /\ (_is_http "mailto:someone@ex.com" = Ok false
      \/ _is_http "mailto:someone@ex.com" = Raise ValueError)
  /\ (_is_http "/about" = Ok false \/ _is_http "/about" = Raise ValueError).
Proof.
  split; [|split].
  - apply (proj1 (is_http_by_scheme "HTTPS" "//Ex.com/a:b" "")). reflexivity.
  - apply (proj1 (is_http_by_scheme "mailto" "someone@ex.com" "")).
    reflexivity.
  - apply (proj2 (is_http_by_scheme "" "" "/about")). reflexivity.
Defined.

(** ** The candidates of a [srcset] attribute *)

Section SrcsetFacts.

Lemma all_impl (p q : ascii -> bool) s :
  (forall c, p c = true -> q c = true) ->
  Py.all p s = true -> Py.all q s = true.
Proof.
  intros Hpq. induction s as [|c s IH]; [reflexivity |].
  cbn [Py.all]. intros [Hc Hs]%andb_prop. now rewrite (Hpq c Hc), IH.
Qed.

Lemma split_app_sep c a b :
  Py.mem c a = false -> Py.split c (a +:+ String c b) = a :: Py.split c b.
Proof.
  induction a as [|x a IH]; cbn [String.append Py.split Py.mem].
  - intros _. now rewrite Ascii.eqb_refl.
  - rewrite (Ascii.eqb_sym c x). intros [Hx Ha]%orb_false_elim.
    now rewrite Hx, (IH Ha).
Qed.

Lemma rstrip_by_keep p u t :
  Py.truthy u = true -> Py.all (fun c => negb (p c)) u = true ->
  Py.rstrip_by p (u +:+ t) = u +:+ Py.rstrip_by p t.
Proof.
  induction u as [|c u IH]; [discriminate |].
  intros _ [Hc Hu]%andb_prop. apply negb_true_iff in Hc.
  cbn [String.append Py.rstrip_by]. destruct u as [|c' u'].
  - cbn [String.append]. destruct (Py.rstrip_by p t); [now rewrite Hc | easy].
  - rewrite (IH eq_refl Hu). reflexivity.
Qed.

Lemma srcset_url_chars u :
  srcset_url u = true ->
  Py.truthy u = true
  /\ Py.all (fun c => negb (Py.isspace c)) u = true
  /\ Py.mem " " u = false /\ Py.mem "," u = false.
Proof.
  unfold srcset_url. intros [Ht Ha]%andb_prop. split; [exact Ht |]. split.
  - revert Ha. apply all_impl. now intros c [H _]%andb_prop.
  - split;
      (apply (all_mem_false
                (fun c => negb (Py.isspace c) && negb (Ascii.eqb c ",")));
       [reflexivity | exact Ha]).
Qed.

(** The candidate the loop takes from one comma-separated part. *)
Lemma srcset_part u d :
  srcset_url u = true ->
  List.hd "" (Py.split " " (Py.strip (u +:+ " " +:+ d))) = u.
Proof.
  intros Hu. destruct (srcset_url_chars u Hu) as (Ht & Hs & Hb & _).
  unfold Py.strip.
  assert (El : Py.lstrip_by Py.isspace (u +:+ " " +:+ d) = u +:+ " " +:+ d).
  { destruct u as [|c u']; [discriminate |].
    cbn [String.append Py.lstrip_by]. cbn [Py.all] in Hs.
    apply andb_prop in Hs as [Hc _]. apply negb_true_iff in Hc.
    now rewrite Hc. }
  rewrite El, (rstrip_by_keep Py.isspace u _ Ht Hs).
  cbn [String.append Py.rstrip_by].
  destruct (Py.rstrip_by Py.isspace d) as [|y r].
  - change (Py.isspace " ") with true. cbv iota.
    rewrite app_nil_r, (split_absent " " u Hb). reflexivity.
  - now rewrite (split_app_sep " " u _ Hb).
Qed.

Lemma srcset_entry_no_comma e :
  srcset_entry_ok e = true -> Py.mem "," (srcset_entry e) = false.
Proof.
  unfold srcset_entry_ok, srcset_entry. intros [Hu Hd]%andb_prop.
  destruct (srcset_url_chars _ Hu) as (_ & _ & _ & Hc).
  apply negb_true_iff in Hd. rewrite !mem_app, Hc, Hd. reflexivity.
Qed.

(** The comma-separated parts of a list written with [", "]. *)
Lemma srcset_split e es :
  forallb srcset_entry_ok (e :: es) = true ->
  Py.split "," (Py.join ", " (List.map srcset_entry (e :: es)))
  = srcset_entry e
      :: List.map (fun x => String " " (srcset_entry x)) es.
Proof.
  revert e. induction es as [|e' es IH]; intros e H.
  - cbn [List.map Py.join forallb] in *. apply andb_prop in H as [He _].
    now rewrite (split_absent "," _ (srcset_entry_no_comma e He)).
  - cbn [forallb] in H. apply andb_prop in H as [He H].
    specialize (IH e' H).
    change (Py.join ", " (List.map srcset_entry (e :: e' :: es)))
      with (srcset_entry e
            +:+ String "," (String " "
                  (Py.join ", " (List.map srcset_entry (e' :: es))))).
    rewrite (split_app_sep "," _ _ (srcset_entry_no_comma e He)).
    cbn [Py.split]. change (Ascii.eqb " " ",") with false. cbv iota.
    rewrite IH. reflexivity.
Qed.

Lemma srcset_head e :
  srcset_entry_ok e = true ->
  List.hd "" (Py.split " " (Py.strip (srcset_entry e))) = fst e.
Proof. intros [Hu _]%andb_prop. now apply srcset_part. Qed.

Lemma srcset_rest es :
  forallb srcset_entry_ok es = true ->
  List.filter Py.truthy
    (List.map (fun part => List.hd "" (Py.split " " (Py.strip part)))
       (List.map (fun x => String " " (srcset_entry x)) es))
  = List.map fst es.
Proof.
  induction es as [|e es IH]; [reflexivity |].
  cbn [forallb List.map List.filter]. intros [He Hes]%andb_prop.
  change (Py.strip (String " " (srcset_entry e)))
    with (Py.strip (srcset_entry e)).
  rewrite (srcset_head e He). apply andb_prop in He as [Hu _].
  destruct (srcset_url_chars _ Hu) as (-> & _). now rewrite (IH Hes).
Qed.

End SrcsetFacts.

(** X3 -- The [srcset] branch of [extract_links_and_assets] takes from an
    attribute value the first blank-separated token of every
    comma-separated part.  No candidate is empty or holds a blank or a
    comma; and a list of URLs with descriptors, written with a comma and
    a blank between the entries, gives back exactly its URLs, in order. *)
Theorem srcset_candidates_round_trip
  (val c : string) (entries : list (string * string)) :
  (In c (srcset_candidates val) ->
   Py.truthy c = true /\ Py.mem " " c = false /\ Py.mem "," c = false)
  /\ (forallb srcset_entry_ok entries = true ->
      srcset_candidates (Py.join ", " (List.map srcset_entry entries))
      = List.map fst entries).
Proof.
  split.
  - unfold srcset_candidates. intros [Hin Ht]%filter_In.
    apply in_map_iff in Hin as (part & <- & Hp).
    split; [exact Ht |]. split; [apply split_head_no_sep |].
    assert (Hpart : Py.mem "," (Py.strip part) = false).
    { apply mem_strip.
      assert (H := split_pieces "," val).
      rewrite List.Forall_forall in H. now destruct (H part Hp). }
    assert (H := split_pieces " " (Py.strip part)).
    assert (Hn := split_nonempty " " (Py.strip part)).
    destruct (Py.split " " (Py.strip part)) as [|h r]; [easy |].
    inversion H as [|? ? [_ Hh] _]. cbn [List.hd]. now apply Hh.
  - intros H. destruct entries as [|e es]; [reflexivity |].
    unfold srcset_candidates. rewrite (srcset_split e es H).
    cbn [forallb] in H. apply andb_prop in H as [He Hes].
    cbn [List.map List.filter]. rewrite (srcset_head e He).
    apply andb_prop in He as [Hu _].
    destruct (srcset_url_chars _ Hu) as (-> & _).
    now rewrite (srcset_rest es Hes).
Qed.

Lemma srcset_candidates_round_trip_witness :
  srcset_candidates "a.png 1x, https://ex.com/b.png 2x, c.png "
  = ["a.png"; "https://ex.com/b.png"; "c.png"].
Proof.
  apply (proj2 (srcset_candidates_round_trip "" ""
                  [("a.png", "1x"); ("https://ex.com/b.png", "2x");
                   ("c.png", "")])).
  reflexivity.
Defined.

(** ** The constructor *)

Section InitFacts.

Import urllib.

(** The URL [<scheme>://<n>] parses into the scheme and the netloc [n], as
    written, and nothing else. *)
Lemma urlparse_origin s n :
  s = "http" \/ s = "https" ->
  avoids "/?#" n = true -> avoids unsafe_chars n = true ->
  bad_brackets n = false ->
  urlparse "" (s +:+ "://" +:+ n) = Ok (mkParse s n "" "" "" "").
Proof.
  intros [-> | ->] Hd Hu Hb; [now apply urlparse_netloc_only |].
  unfold urlparse, urlsplit.
  change (Py.lstrip_by is_c0_or_space ("https" +:+ "://" +:+ n))
    with ("https://" +:+ n).
  rewrite (remove_unsafe_id ("https://" +:+ n))
    by (rewrite avoids_app, Hu; reflexivity).
  change (remove_unsafe _) with "".
  change (split_scheme "" ("https://" +:+ n)) with ("https", "//" +:+ n).
  cbv iota beta.
  change (Py.startswith "//" ("//" +:+ n)) with true. cbv iota.
  change (Py.drop 2 ("//" +:+ n)) with n.
  now rewrite (splitnetloc_whole n Hd), Hb.
Qed.

(** Joining [/robots.txt] to an origin appends it. *)
Lemma urljoin_robots s n :
  s = "http" \/ s = "https" ->
  avoids "/?#" n = true -> avoids unsafe_chars n = true ->
  bad_brackets n = false ->
  urljoin (s +:+ "://" +:+ n) "/robots.txt"
  = Ok (s +:+ "://" +:+ n +:+ "/robots.txt").
Proof.
  intros Hs Hd Hu Hb. unfold urljoin.
  rewrite (urlparse_origin s n Hs Hd Hu Hb).
  destruct Hs as [-> | ->]; destruct n; reflexivity.
Qed.

Lemma in_list_http s :
  Py.in_list s ["http"; "https"] = true -> s = "http" \/ s = "https".
Proof.
  cbn [Py.in_list existsb]. intros H.
  apply orb_prop in H as [H | H]; [left; now apply String.eqb_eq |].
  apply orb_prop in H as [H | H]; [right; now apply String.eqb_eq | easy].
Qed.

Lemma init_robots_fields read self self' :
  _init_robots read self = Ok self' ->
  exists r, self' = set_rp self r.
Proof.
  unfold _init_robots. destruct (urljoin _ _) as [ru|e]; [|discriminate].
  cbn [rbind]. destruct (read ru); intros [= <-]; eauto.
Qed.

End InitFacts.

(** X4 -- What [__init__] establishes when it returns: the start URL is
    stored in normal form and [base] is its parse; the start URL is an
    HTTP(S) URL and in scope; the arguments are stored as given, with at
    least one worker; nothing is seen, saved, queued or counted yet; and
    no robots policy is held when robots are ignored.  (The creation of
    the output directory, which ends the constructor, does not touch the
    object.) *)
Theorem SiteMirror_init_state
  (robots_read : string -> result RobotFileParser)
  (start : string) (out : pathlib.Path) (inc : bool) (maxp w : Z)
  (ign : bool) (ua : string) (self : SiteMirror) :
  SiteMirror_init robots_read start out inc maxp w ign ua = Ok self ->
  _normalize_url start = Ok (start_url self)
  /\ urllib.urlparse "" (start_url self) = Ok (base self)
  /\ _is_http (start_url self) = Ok true
  /\ _same_domain self (start_url self) = Ok true
  /\ (out_dir self = out /\ include_subdomains self = inc
      /\ max_pages self = maxp /\ workers self = Z.max 1 w
      /\ (1 <= workers self)%Z
      /\ ignore_robots self = ign /\ user_agent self = ua)
  /\ (seen_urls self = ∅ /\ saved_urls self = ∅
      /\ page_count self = 0%Z /\ q self = [])
  /\ (ign = true -> rp self = None).
Proof.
  unfold SiteMirror_init.
  destruct (_normalize_url start) as [su|e]; [|discriminate]. cbn [rbind].
  destruct (urllib.urlparse "" su) as [b|e] eqn:Eb; [|discriminate].
  cbn [rbind].
  destruct (Py.in_list (urllib.scheme b) ["http"; "https"]) eqn:Hs;
    [|discriminate].
  cbn [negb]. set (self0 := mkMirror _ _ _ _ _ _ _ _ _ _ _ _ _).
  intros H.
  assert (Hr : exists r, self = set_rp self0 r
                         /\ (ign = true -> r = None)).
  { destruct ign; cbn [negb] in H.
    - injection H as <-. exists None. now split.
    - destruct (init_robots_fields _ _ _ H) as [r ->]. exists r.
      split; [reflexivity | discriminate]. }
  destruct Hr as (r & -> & Hr).
  cbn [set_rp self0 start_url base out_dir include_subdomains max_pages
       workers ignore_robots user_agent seen_urls saved_urls page_count q
       rp].
  split; [reflexivity |]. split; [exact Eb |].
  split; [unfold _is_http; rewrite Eb; cbn [rbind]; now rewrite Hs |].
  split.
  { unfold _same_domain. rewrite Eb. cbn [rbind base].
    now rewrite String.eqb_refl. }
  split; [repeat split; lia |]. split; [now repeat split | exact Hr].
Qed.

Lemma SiteMirror_init_state_witness :
  start_url (ex_com_mirror true 5) = "https://ex.com/"
  /\ _same_domain (ex_com_mirror true 5) "https://ex.com/" = Ok true
  /\ seen_urls (ex_com_mirror true 5) = ∅.
Proof.
  destruct (SiteMirror_init_state robots_unreachable " https://ex.com/#top"
              (pathlib.of_string "out") true 5 1 true "SiteMirrorBot/1.0"
              (ex_com_mirror true 5))
    as (H1 & _ & _ & H4 & _ & (H6 & _) & _).
  - reflexivity.
  - split; [reflexivity |]. split; [exact H4 | exact H6].
Defined.

(** X5 -- [_init_robots] asks for the robots file at the root of the
    start URL's origin: the scheme and the netloc of the start URL as they
    were parsed, followed by [/robots.txt], whatever the path and the
    query of the start URL.  The policy held afterwards is what the loader
    found there, or none when it failed. *)
Theorem init_robots_url
  (robots_read : string -> result RobotFileParser)
  (start : string) (out : pathlib.Path) (inc : bool) (maxp w : Z)
  (ua : string) (self : SiteMirror) :
  SiteMirror_init robots_read start out inc maxp w false ua = Ok self ->
  rp self
  = match robots_read (urllib.scheme (base self) +:+ "://"
                       +:+ urllib.netloc (base self) +:+ "/robots.txt") with
    | Ok r => Some r
    | Raise _ => None
    end.
Proof.
  unfold SiteMirror_init.
  destruct (_normalize_url start) as [su|e]; [|discriminate]. cbn [rbind].
  destruct (urllib.urlparse "" su) as [b|e] eqn:Eb; [|discriminate].
  cbn [rbind].
  destruct (Py.in_list (urllib.scheme b) ["http"; "https"]) eqn:Hs;
    [|discriminate].
  cbn [negb]. unfold _init_robots. cbn [base].
  destruct (urlparse_netloc su b Eb) as (Hd & Hu & Hb).
  rewrite (urljoin_robots _ _ (in_list_http _ Hs) Hd Hu Hb). cbn [rbind].
  destruct (robots_read _) eqn:Er; intros [= <-];
    cbn [set_rp base rp]; now rewrite Er.
Qed.

Lemma init_robots_url_witness :
  rp (ex_com_deep (Some private_policy))
  = match robots_at "https://ex.com/robots.txt" private_policy
            "https://ex.com/robots.txt" with
    | Ok r => Some r
    | Raise _ => None
    end.
Proof.
  apply (init_robots_url
           (robots_at "https://ex.com/robots.txt" private_policy)
           "https://ex.com/a/b/page.html?x=1#top" (pathlib.of_string "out")
           false 0 1 "SiteMirrorBot/1.0" (ex_com_deep (Some private_policy))).
  reflexivity.
Defined.

(** ** Start URLs that the constructor rejects *)

Section RejectFacts.

Import urllib.

Lemma splitparams_colon u :
  Py.mem ":" u = false ->
  Py.mem ":" (fst (_splitparams u)) = false
  /\ Py.mem ":" (snd (_splitparams u)) = false.
Proof.
  intros H. unfold _splitparams.
  destruct (Py.rpartition "/" u) as [[a b]|] eqn:E.
  - assert (Hab := rpartition_spec _ _ _ _ E). subst u.
    rewrite mem_app in H. apply orb_false_elim in H as [Ha Hb].
    cbn [Py.mem] in Hb. apply orb_false_elim in Hb as [_ Hb].
    destruct (Py.partition ";" b) as [[b1 p]|] eqn:E'.
    + destruct (partition_spec _ _ _ _ E') as [-> _].
      rewrite mem_app in Hb. apply orb_false_elim in Hb as [Hb1 Hp].
      cbn [Py.mem] in Hp. apply orb_false_elim in Hp as [_ Hp].
      cbn [fst snd]. rewrite !mem_app, Ha, Hb1. now split.
    + cbn [fst snd]. rewrite mem_app, Ha. cbn [Py.mem]. now rewrite Hb.
  - now apply split1_mem.
Qed.

(** A text without a colon parses into components without a colon, and
    into no scheme. *)
Lemma urlparse_colon x p :
  Py.mem ":" x = false -> urlparse "" x = Ok p ->
  scheme p = "" /\ Py.mem ":" (netloc p) = false
  /\ Py.mem ":" (path p) = false /\ Py.mem ":" (params p) = false
  /\ Py.mem ":" (query p) = false.
Proof.
  intros Hx Hp. destruct (urlparse_scheme x p Hp) as (sr & Es & Hsch).
  rewrite Hsch, (urlsplit_no_scheme x sr Hx Es). split; [reflexivity |].
  revert Hp. unfold urlparse. rewrite Es. cbn [rbind]. clear Hsch.
  revert Es. unfold urlsplit.
  set (x1 := remove_unsafe (Py.lstrip_by _ x)).
  assert (Hx1 : Py.mem ":" x1 = false)
    by now apply mem_remove_unsafe, mem_lstrip_by.
  assert (Hr := split_scheme_mem ":" (remove_unsafe
                  (Py.rstrip_by is_c0_or_space
                     (Py.lstrip_by is_c0_or_space ""))) x1 Hx1).
  destruct (split_scheme _ x1) as [s r]. cbn [snd] in Hr.
  set (nr := if Py.startswith "//" r then _ else _).
  assert (Hn : Py.mem ":" (fst nr) = false /\ Py.mem ":" (snd nr) = false).
  { subst nr. destruct (Py.startswith "//" r); [|now split].
    now apply splitnetloc_mem, mem_drop. }
  destruct nr as [n rest]. cbn [fst snd] in Hn. destruct Hn as [Hn Hrest].
  destruct (bad_brackets n); [discriminate |].
  destruct (split1_mem ":" "#" rest Hrest) as [Hu _].
  destruct (split1 "#" rest) as [u f]. cbn [fst] in Hu.
  destruct (split1_mem ":" "?" u Hu) as [Hu' Hq].
  destruct (split1 "?" u) as [u' qy]. cbn [fst snd] in Hu', Hq.
  intros [= <-]. cbn [s_scheme s_netloc s_path s_query s_fragment].
  destruct (splitparams_colon u' Hu') as [H5 H6].
  destruct (Py.in_list _ _ && _).
  - destruct (_splitparams u'). intros [= <-]. now cbn in *.
  - intros [= <-]. now cbn.
Qed.

Lemma urlunparse_colon p :
  scheme p = "" -> Py.mem ":" (netloc p) = false ->
  Py.mem ":" (path p) = false -> Py.mem ":" (params p) = false ->
  Py.mem ":" (query p) = false ->
  Py.mem ":" (urlunparse (set_fragment p "")) = false.
Proof.
  intros Hs Hn Hp Hpa Hq. unfold urlunparse, urlunsplit, set_fragment.
  cbn [scheme netloc path params query fragment]. rewrite Hs.
  cbn [Py.truthy andb orb].
  repeat match goal with
         | |- context [if ?b then _ else _] => destruct b
         end;
    rewrite ?mem_app; cbn [Py.mem];
    rewrite ?mem_app; cbn [Py.mem]; now rewrite ?Hn, ?Hp, ?Hpa, ?Hq.
Qed.

Lemma normalize_colon u su :
  Py.mem ":" u = false -> _normalize_url u = Ok su -> Py.mem ":" su = false.
Proof.
  intros Hu. destruct (Py.mem "#" u) eqn:Hh.
  - destruct (mem_split "#" u Hh) as (b & f & -> & Hb).
    rewrite (normalize_frag b f Hb).
    destruct (urlparse "" _) as [p|e] eqn:E; [|discriminate].
    intros [= <-]. rewrite mem_app in Hu. apply orb_false_elim in Hu as [Hu _].
    destruct (urlparse_colon _ p (mem_lstrip_by _ _ _ Hu) E)
      as (H1 & H2 & H3 & H4 & H5).
    now apply urlunparse_colon.
  - rewrite (normalize_nofrag u Hh). intros [= <-]. now apply mem_strip.
Qed.

Lemma normalize_raises u e : _normalize_url u = Raise e -> e = ValueError.
Proof.
  unfold _normalize_url, urldefrag. destruct (Py.mem "#" (Py.strip u)).
  - destruct (urlparse "" (Py.strip u)) eqn:E; [discriminate |].
    cbn [rbind]. intros [= <-]. now apply (urlparse_raises _ _ E).
  - discriminate.
Qed.

(** The constructor raises [ValueError] when every parse of the normal
    form of the start URL has another scheme. *)
Lemma init_rejects_if read start out inc maxp w ign ua :
  (forall su b, _normalize_url start = Ok su -> urlparse "" su = Ok b ->
                Py.in_list (scheme b) ["http"; "https"] = false) ->
  SiteMirror_init read start out inc maxp w ign ua = Raise ValueError.
Proof.
  intros H. unfold SiteMirror_init.
  destruct (_normalize_url start) as [su|e] eqn:E1.
  - cbn [rbind]. destruct (urlparse "" su) as [b|e] eqn:E2.
    + cbn [rbind]. now rewrite (H su b eq_refl E2).
    + cbn [rbind]. now rewrite (urlparse_raises _ _ E2).
  - cbn [rbind]. now rewrite (normalize_raises _ _ E1).
Qed.

End RejectFacts.

Section RejectSchemeFacts.

Import urllib.

Lemma alpha_not_space c : is_ascii_alpha c = true -> Py.isspace c = false.
Proof. destruct c as [[] [] [] [] [] [] [] []]; vm_compute; congruence. Qed.

Lemma scheme_char_not_space c :
  is_scheme_char c = true -> negb (Py.isspace c) = true.
Proof. destruct c as [[] [] [] [] [] [] [] []]; vm_compute; congruence. Qed.

Lemma scheme_char_lower_char c :
  is_scheme_char c = true -> is_scheme_char (Py.lower_char c) = true.
Proof. destruct c as [[] [] [] [] [] [] [] []]; vm_compute; congruence. Qed.

Lemma alpha_lower_char c :
  is_ascii_alpha c = true -> is_ascii_alpha (Py.lower_char c) = true.
Proof. destruct c as [[] [] [] [] [] [] [] []]; vm_compute; congruence. Qed.

Lemma scheme_chars_lower s :
  Py.all is_scheme_char s = true ->
  Py.all is_scheme_char (Py.lower s) = true.
Proof.
  induction s as [|c s IH]; [reflexivity |].
  cbn [Py.all Py.lower]. intros [Hc Hs]%andb_prop.
  now rewrite (scheme_char_lower_char c Hc), (IH Hs).
Qed.

Lemma scheme_text_lower s :
  scheme_text s = true -> scheme_text (Py.lower s) = true.
Proof.
  destruct s as [|c s']; [discriminate |]. unfold scheme_text.
  intros [Ha Hs]%andb_prop.
  change (Py.lower (String c s')) with (String (Py.lower_char c) (Py.lower s'))
    at 1.
  cbv iota. now rewrite (alpha_lower_char c Ha), (scheme_chars_lower _ Hs).
Qed.

Lemma lstrip_scheme s r :
  scheme_text s = true ->
  Py.lstrip_by Py.isspace (s +:+ ":" +:+ r) = s +:+ ":" +:+ r.
Proof.
  destruct s as [|c s']; [discriminate |]. intros [Ha _]%andb_prop.
  cbn [String.append Py.lstrip_by]. now rewrite (alpha_not_space c Ha).
Qed.

Lemma strip_scheme s r :
  scheme_text s = true ->
  Py.strip (s +:+ ":" +:+ r) = s +:+ ":" +:+ Py.rstrip_by Py.isspace r.
Proof.
  intros Hs. unfold Py.strip. rewrite (lstrip_scheme s r Hs).
  destruct (scheme_text_chars s Hs) as (Hall & _).
  change (s +:+ ":" +:+ r) with (s +:+ (":" +:+ r)).
  rewrite <- app_assoc, (rstrip_by_keep Py.isspace (s +:+ ":") r).
  - now rewrite app_assoc.
  - rewrite truthy_app. apply orb_true_r.
  - rewrite all_app. apply andb_true_intro. split; [|reflexivity].
    revert Hall. apply all_impl. exact scheme_char_not_space.
Qed.

Lemma urlunsplit_scheme s n u qy :
  Py.truthy s = true -> exists r, urlunsplit s n u qy "" = s +:+ ":" +:+ r.
Proof.
  intros Hs. unfold urlunsplit. rewrite Hs. cbn [Py.truthy].
  match goal with
  | |- context [if Py.truthy n || ?c then ?x else u] =>
      generalize (if Py.truthy n || c then x else u)
  end.
  intros url1. destruct (Py.truthy qy); eexists; [|reflexivity].
  rewrite app_assoc. reflexivity.
Qed.

(** The normal form of a URL that opens with a scheme text opens with the
    same scheme text, up to letter case. *)
Lemma normalize_scheme s rest su :
  scheme_text s = true -> _normalize_url (s +:+ ":" +:+ rest) = Ok su ->
  exists s' r, scheme_text s' = true /\ Py.lower s' = Py.lower s
               /\ su = s' +:+ ":" +:+ r.
Proof.
  intros Hs. destruct (scheme_text_chars s Hs) as (Hall & _).
  assert (Hh : Py.mem "#" s = false)
    by now apply (all_mem_false is_scheme_char).
  destruct (Py.mem "#" rest) eqn:Hr.
  - destruct (mem_split "#" rest Hr) as (r1 & f & -> & Hr1).
    change (s +:+ ":" +:+ r1 +:+ String "#" f)
      with (s +:+ (":" +:+ r1) +:+ String "#" f).
    rewrite <- app_assoc.
    rewrite normalize_frag
      by (rewrite mem_app, Hh; cbn [String.append Py.mem]; now rewrite Hr1).
    change (s +:+ (":" +:+ r1)) with (s +:+ ":" +:+ r1).
    rewrite (lstrip_scheme s r1 Hs).
    destruct (urlparse "" _) as [p|e] eqn:E; [|discriminate].
    intros [= <-]. destruct (urlparse_scheme _ _ E) as (sr & Es & Hp).
    rewrite (urlsplit_scheme s r1 sr Hs Es) in Hp.
    assert (Ht : Py.truthy (Py.lower s) = true)
      by (destruct s; [discriminate | reflexivity]).
    destruct (urlunsplit_scheme (Py.lower s) (netloc p)
                (if Py.truthy (params p)
                 then path p +:+ ";" +:+ params p else path p)
                (query p) Ht) as [r Hr'].
    exists (Py.lower s), r. split; [now apply scheme_text_lower |].
    split; [apply lower_idem |].
    unfold urlunparse, set_fragment.
    cbn [scheme netloc path params query fragment]. now rewrite Hp.
  - rewrite normalize_nofrag
      by (rewrite mem_app, Hh; cbn [String.append Py.mem]; now rewrite Hr).
    intros [= <-]. exists s, (Py.rstrip_by Py.isspace rest).
    split; [exact Hs |]. split; [reflexivity | now apply strip_scheme].
Qed.

End RejectSchemeFacts.

(** X6 -- [__init__] rejects with [ValueError] every start URL that has no
    colon (a bare [example.com/page] is not taken for an HTTP URL), and
    every start URL whose scheme, in lower case, is neither [http] nor
    [https]; robots are not read and no object is built. *)
Theorem SiteMirror_init_rejects
  (robots_read : string -> result RobotFileParser)
  (start s rest : string) (out : pathlib.Path) (inc : bool) (maxp w : Z)
  (ign : bool) (ua : string) :
  (Py.mem ":" start = false ->
   SiteMirror_init robots_read start out inc maxp w ign ua
   = Raise ValueError)
  /\ (scheme_text s = true ->
      Py.in_list (Py.lower s) ["http"; "https"] = false ->
      SiteMirror_init robots_read (s +:+ ":" +:+ rest) out inc maxp w ign ua
      = Raise ValueError).
Proof.
  split.
  - intros Hc. apply init_rejects_if. intros su b Hn Hb.
    destruct (urlparse_colon su b (normalize_colon _ _ Hc Hn) Hb) as [-> _].
    reflexivity.
  - intros Hs Hl. apply init_rejects_if. intros su b Hn Hb.
    destruct (normalize_scheme s rest su Hs Hn) as (s' & r & Hs' & El & ->).
    destruct (urlparse_scheme _ _ Hb) as (sr & Es & ->).
    now rewrite (urlsplit_scheme s' r sr Hs' Es), El.
Qed.

Lemma SiteMirror_init_rejects_witness :
  SiteMirror_init robots_unreachable "example.com/page"
    (pathlib.of_string "out") false 0 8 false "SiteMirrorBot/1.0"
  = Raise ValueError
  /\ SiteMirror_init robots_unreachable "FTP://ex.com/pub#readme"
       (pathlib.of_string "out") false 0 8 false "SiteMirrorBot/1.0"
     = Raise ValueError.
Proof.
  split.
  - apply (proj1 (SiteMirror_init_rejects robots_unreachable
                    "example.com/page" "" "" (pathlib.of_string "out")
                    false 0 8 false "SiteMirrorBot/1.0")).
    reflexivity.
  - apply (proj2 (SiteMirror_init_rejects robots_unreachable
                    "" "FTP" "//ex.com/pub#readme" (pathlib.of_string "out")
                    false 0 8 false "SiteMirrorBot/1.0"));
      reflexivity.
Defined.

(** ** Where a URL is stored *)

Section LocalPathFacts.

Import pathlib.

Lemma joinpath_rel p s :
  Py.startswith "/" s = false ->
  p // s = mkPath (root p) (parts p ++ parse_parts s)%list.
Proof. intros H. unfold joinpath, splitroot. now rewrite H. Qed.

Lemma netloc_rel n : avoids "/?#" n = true -> Py.startswith "/" n = false.
Proof.
  destruct n as [|c n]; [reflexivity |]. unfold avoids. cbn [Py.all].
  intros [Hc _]%andb_prop. apply negb_true_iff in Hc.
  cbn [Py.mem] in Hc. apply orb_false_elim in Hc as [Hc _].
  cbn [Py.startswith]. now rewrite (Ascii.eqb_sym "/" c), Hc.
Qed.

Lemma lstrip_slash_rel s : Py.startswith "/" (Py.lstrip "/" s) = false.
Proof.
  unfold Py.lstrip.
  destruct (lstrip_by_head (fun c => Py.mem c "/") s) as [-> | (x & r & -> & Hx)];
    [reflexivity |].
  cbn [Py.mem] in Hx. apply orb_false_elim in Hx as [Hx _].
  cbn [Py.startswith]. now rewrite (Ascii.eqb_sym "/" x), Hx.
Qed.

Lemma parse_parts_name n : wf_part n = true -> parse_parts n = [n].
Proof.
  intros H. assert (E := joinpath_name (mkPath "" []) n H).
  unfold wf_part in H. apply andb_prop in H as [_ Hs].
  apply negb_true_iff in Hs.
  rewrite joinpath_rel in E.
  - now injection E.
  - destruct n as [|c n]; [reflexivity |]. cbn [Py.mem] in Hs.
    apply orb_false_elim in Hs as [Hc _]. cbn [Py.startswith]. now rewrite Hc.
Qed.

(** The first step of the mapping, component by component. *)
Lemma local_of_parts self p ct :
  avoids "/?#" (urllib.netloc p) = true ->
  local_of self p ct
  = mkPath (root (out_dir self))
      (parts (out_dir self) ++ parse_parts (urllib.netloc p)
       ++ parse_parts (Py.lstrip "/" (urllib.path p))
       ++ (if is_dir_path (urllib.path p)
           then [if is_html_ct ct then "index.html" else "index"]
           else []))%list.
Proof.
  intros Hn. unfold local_of, is_dir_path.
  rewrite (joinpath_rel (out_dir self) _ (netloc_rel _ Hn)).
  rewrite (joinpath_rel _ _ (lstrip_slash_rel (urllib.path p))).
  cbn [root parts].
  destruct (negb (Py.truthy (urllib.path p)) || Py.endswith "/" (urllib.path p)).
  - rewrite joinpath_name by now destruct (is_html_ct ct).
    cbn [root parts]. now rewrite <- !List.app_assoc.
  - now rewrite List.app_nil_r, <- !List.app_assoc.
Qed.

Lemma query_name_snoc r pp n qy :
  query_name (mkPath r (pp ++ [n])%list) qy = query_name (mkPath "" [n]) qy.
Proof.
  unfold query_name, stem, suffixes, name. cbn [parts].
  now rewrite last_snoc.
Qed.

Lemma wf_part_html n : wf_part n = true -> wf_part (n +:+ ".html") = true.
Proof.
  unfold wf_part. intros [[Ht Hd]%andb_prop Hs]%andb_prop.
  apply negb_true_iff in Hs. rewrite mem_app, Hs.
  destruct n as [|c n]; [discriminate |].
  cbn [String.append Py.truthy String.eqb].
  destruct (Ascii.eqb c "."); [|reflexivity].
  now destruct n.
Qed.

End LocalPathFacts.

(** X7 -- For a URL without a query and a content type that is not HTML,
    [url_to_local_path] returns [out_dir] followed by the netloc and the
    components of the URL path, with [index] added for a directory URL.
    Empty components and [.] are dropped; every other component is kept
    as written, [..] included: the mapping does not resolve it. *)
Theorem url_to_local_path_plain (self : SiteMirror) (u : string)
    (p : urllib.ParseResult) (ct : option string) :
  urllib.urlparse "" u = Ok p ->
  Py.truthy (urllib.query p) = false -> is_html_ct ct = false ->
  url_to_local_path self u ct
  = Ok (pathlib.mkPath (pathlib.root (out_dir self))
          (pathlib.parts (out_dir self)
           ++ pathlib.parse_parts (urllib.netloc p)
           ++ pathlib.parse_parts (Py.lstrip "/" (urllib.path p))
           ++ (if is_dir_path (urllib.path p) then ["index"] else []))%list).
Proof.
  intros Hp Hq Hct. unfold url_to_local_path. rewrite Hp. cbn [rbind].
  rewrite Hq. unfold add_html_suffix. rewrite Hct, andb_false_r.
  destruct (urlparse_netloc u p Hp) as (Hn & _).
  now rewrite (local_of_parts self p ct Hn), Hct.
Qed.

Lemma url_to_local_path_plain_witness :
  url_to_local_path (ex_com_mirror false 0)
    "https://ex.com/a//./b/../../../c.css" (Some "text/css")
  = Ok (pathlib.mkPath "" ["out"; "ex.com"; "a"; "b"; ".."; ".."; ".."; "c.css"]).
Proof.
  apply (url_to_local_path_plain (ex_com_mirror false 0)
           "https://ex.com/a//./b/../../../c.css"
           (urllib.mkParse "https" "ex.com" "/a//./b/../../../c.css" "" "" "")
           (Some "text/css")); reflexivity.
Defined.

(** X8 -- For a directory URL (the path is empty or ends in [/]) the file
    is named [index], followed by [__q=] and the eight-digit hash of the
    query when there is a query, followed by [.html] when the content
    type is HTML; it lies in the directory the URL path names under
    [out_dir] and the netloc.  The mapping does not raise. *)
Theorem url_to_local_path_directory (self : SiteMirror) (u : string)
    (p : urllib.ParseResult) (ct : option string) :
  urllib.urlparse "" u = Ok p -> is_dir_path (urllib.path p) = true ->
  url_to_local_path self u ct
  = Ok (pathlib.mkPath (pathlib.root (out_dir self))
          (pathlib.parts (out_dir self)
           ++ pathlib.parse_parts (urllib.netloc p)
           ++ pathlib.parse_parts (Py.lstrip "/" (urllib.path p))
           ++ ["index"
               +:+ (if Py.truthy (urllib.query p)
                    then "__q=" +:+ _hash8 (urllib.query p) else "")
               +:+ (if is_html_ct ct then ".html" else "")])%list).
Proof.
  intros Hp Hd. unfold url_to_local_path. rewrite Hp. cbn [rbind].
  destruct (urlparse_netloc u p Hp) as (Hn & _).
  rewrite (local_of_parts self p ct Hn), Hd.
  rewrite !List.app_assoc.
  set (A := ((pathlib.parts (out_dir self)
              ++ pathlib.parse_parts (urllib.netloc p))
             ++ pathlib.parse_parts (Py.lstrip "/" (urllib.path p)))%list).
  set (h := _hash8 (urllib.query p)).
  assert (Hh : Py.mem "/" h = false) by apply hash8_no_slash.
  assert (Hd1 : Py.mem "." h = false).
  { apply (all_mem_false is_lower_hex); [reflexivity | apply hash8_form]. }
  assert (Ht : Py.truthy h = true).
  { destruct (hash8_form (urllib.query p)) as [L _]. fold h in L.
    now destruct h. }
  destruct (Py.truthy (urllib.query p)); destruct (is_html_ct ct) eqn:Hct.
  - rewrite query_name_snoc.
    change (query_name (pathlib.mkPath "" ["index.html"]) (urllib.query p))
      with ("index__q=" +:+ h +:+ ".html").
    rewrite joinpath_name
      by (unfold wf_part; cbn [String.append Py.truthy String.eqb Ascii.eqb
                                 Bool.eqb andb negb Py.mem orb];
          now rewrite mem_app, Hh).
    cbn [pathlib.parent pathlib.root pathlib.parts].
    rewrite removelast_snoc, add_html_suffix_snoc by reflexivity.
    rewrite (has_ext_middle "index__q=" h ".html" Ht Hd1).
    cbn [Py.rpartition Py.truthy negb andb Ascii.eqb Bool.eqb].
    now rewrite app_nil_r.
  - rewrite query_name_snoc.
    change (query_name (pathlib.mkPath "" ["index"]) (urllib.query p))
      with ("index__q=" +:+ h +:+ "").
    rewrite app_nil_r.
    rewrite joinpath_name
      by (unfold wf_part; cbn [String.append Py.truthy String.eqb Ascii.eqb
                                 Bool.eqb andb negb Py.mem orb];
          now rewrite Hh).
    cbn [pathlib.parent pathlib.root pathlib.parts].
    rewrite removelast_snoc, add_html_suffix_snoc by reflexivity.
    rewrite Hct, andb_false_r, !app_nil_r. reflexivity.
  - rewrite add_html_suffix_snoc by reflexivity. reflexivity.
  - rewrite add_html_suffix_snoc by reflexivity.
    now rewrite Hct, andb_false_r.
Qed.

Lemma url_to_local_path_directory_witness :
  url_to_local_path (ex_com_mirror false 0) "https://ex.com/docs/?page=2"
    (Some "text/html")
  = Ok (pathlib.mkPath "" ["out"; "ex.com"; "docs";
                           "index__q=b941a131.html"]).
Proof.
  etransitivity.
  - apply (url_to_local_path_directory (ex_com_mirror false 0)
             "https://ex.com/docs/?page=2"
             (urllib.mkParse "https" "ex.com" "/docs/" "" "page=2" "")
             (Some "text/html")); reflexivity.
  - vm_compute. reflexivity.
Defined.

(** X9 -- When the netloc of a URL is a plain directory name (not empty,
    not [.], no slash), [url_to_local_path] does not raise, for any
    content type and with or without a query.  The result extends
    [out_dir] by at least one component, every added component is a plain
    name, and the first one is the netloc whenever the URL path has a
    component of its own or names a directory. *)
Theorem url_to_local_path_under_out_dir (self : SiteMirror) (u : string)
    (p : urllib.ParseResult) (ct : option string) :
  urllib.urlparse "" u = Ok p -> wf_part (urllib.netloc p) = true ->
  exists rest,
    url_to_local_path self u ct
    = Ok (pathlib.mkPath (pathlib.root (out_dir self))
            (pathlib.parts (out_dir self) ++ rest)%list)
    /\ rest <> []
    /\ forallb wf_part rest = true
    /\ (is_dir_path (urllib.path p) = true
        \/ pathlib.parse_parts (Py.lstrip "/" (urllib.path p)) <> [] ->
        List.hd "" rest = urllib.netloc p).
Proof.
  intros Hp Hnl. unfold url_to_local_path. rewrite Hp. cbn [rbind].
  destruct (urlparse_netloc u p Hp) as (Hn & _).
  rewrite (local_of_parts self p ct Hn), (parse_parts_name _ Hnl).
  set (R := (pathlib.parse_parts (Py.lstrip "/" (urllib.path p))
             ++ (if is_dir_path (urllib.path p)
                 then [if is_html_ct ct then "index.html" else "index"]
                 else []))%list).
  change ([urllib.netloc p] ++ R)%list with (urllib.netloc p :: R).
  assert (HR : forallb wf_part R = true).
  { subst R. rewrite forallb_app, parse_parts_wf.
    destruct (is_dir_path _); [|reflexivity]. now destruct (is_html_ct ct). }
  set (A := List.removelast (urllib.netloc p :: R)).
  set (n := List.last (urllib.netloc p :: R) "").
  assert (EL : urllib.netloc p :: R = (A ++ [n])%list)
    by now apply app_removelast_last.
  assert (HL : forallb wf_part (A ++ [n])%list = true).
  { rewrite <- EL. cbn [forallb]. now rewrite Hnl, HR. }
  rewrite forallb_app in HL. apply andb_prop in HL as [HA Hn'].
  cbn [forallb] in Hn'. rewrite andb_true_r in Hn'.
  rewrite EL, List.app_assoc.
  set (local1 := if Py.truthy (urllib.query p) then _ else _).
  assert (H1 : exists m, wf_part m = true
                 /\ local1 = pathlib.mkPath (pathlib.root (out_dir self))
                               ((pathlib.parts (out_dir self) ++ A) ++ [m])%list).
  { subst local1. destruct (Py.truthy (urllib.query p)).
    - rewrite query_name_snoc.
      exists (query_name (pathlib.mkPath "" [n]) (urllib.query p)).
      assert (Hq : wf_part (query_name (pathlib.mkPath "" [n])
                              (urllib.query p)) = true).
      { apply query_name_wf. unfold wf_path. cbn [pathlib.parts forallb].
        now rewrite Hn'. }
      split; [exact Hq |]. rewrite (joinpath_name _ _ Hq).
      cbn [pathlib.parent pathlib.root pathlib.parts].
      now rewrite removelast_snoc.
    - exists n. now split. }
  destruct H1 as (m & Hm & ->).
  assert (Htm : Py.truthy m = true).
  { unfold wf_part in Hm. now apply andb_prop in Hm as [[Hm _]%andb_prop _]. }
  rewrite (add_html_suffix_snoc _ _ m ct Htm).
  set (e := if negb (has_ext m) && is_html_ct ct then ".html" else "").
  exists (A ++ [m +:+ e])%list.
  split; [now rewrite List.app_assoc |].
  split; [intros E; now apply app_eq_nil in E as [_ E] |].
  split.
  - rewrite forallb_app, HA. cbn [forallb]. rewrite andb_true_r.
    subst e. destruct (negb (has_ext m) && is_html_ct ct).
    + now apply wf_part_html.
    + now rewrite app_nil_r.
  - intros Hc. assert (HRn : R <> []).
    { subst R. destruct Hc as [-> | Hc].
      - intros E. now apply app_eq_nil in E as [_ E].
      - intros E. now apply app_eq_nil in E as [E _]. }
    subst A. destruct R as [|x R']; [easy |]. reflexivity.
Qed.

Lemma url_to_local_path_under_out_dir_witness :
  exists rest,
    url_to_local_path (ex_com_mirror false 0) "https://ex.com/a/b?x=1"
      (Some "text/html")
    = Ok (pathlib.mkPath (pathlib.root (out_dir (ex_com_mirror false 0)))
            (pathlib.parts (out_dir (ex_com_mirror false 0)) ++ rest)%list)
    /\ rest <> []
    /\ forallb wf_part rest = true
    /\ (is_dir_path "/a/b" = true
        \/ pathlib.parse_parts (Py.lstrip "/" "/a/b") <> [] ->
        List.hd "" rest = "ex.com").
Proof.
  apply (url_to_local_path_under_out_dir (ex_com_mirror false 0)
           "https://ex.com/a/b?x=1"
           (urllib.mkParse "https" "ex.com" "/a/b" "" "x=1" "")
           (Some "text/html")); reflexivity.
Defined.

(** ** What a crawl keeps true *)

Section ScheduleFacts.

Lemma foldM_inv_in {A S : Type} (I : S -> Prop) (f : S -> A -> result S) l :
  (forall s x s', In x l -> I s -> f s x = Ok s' -> I s') ->
  forall s0 s, I s0 -> foldM f l s0 = Ok s -> I s.
Proof.
  induction l as [|x l IH]; intros Hf s0 s H0; cbn [foldM].
  - now intros [= <-].
  - destruct (f s0 x) as [s1|e] eqn:E; [|discriminate]. cbn [rbind].
    apply IH.
    + intros s2 y s3 Hy. apply Hf. now right.
    + apply (Hf s0 x s1); [now left | exact H0 | exact E].
Qed.

Lemma grows_refl a : grows a a.
Proof. split; [apply same_config_refl | now split]. Qed.

Lemma grows_trans a b c : grows a b -> grows b c -> grows a c.
Proof.
  intros (H1 & H2 & H3) (H4 & H5 & H6).
  split; [eapply same_config_trans; eassumption |].
  split; [now rewrite H5 | etransitivity; eassumption].
Qed.

Lemma same_domain_config a b u :
  same_config a b -> _same_domain b u = _same_domain a u.
Proof.
  intros (_ & Hb & _ & Hi & _). apply same_domain_scope; congruence.
Qed.

Lemma allowed_config a b u :
  same_config a b -> _allowed_by_robots b u = _allowed_by_robots a u.
Proof.
  intros (_ & _ & _ & _ & _ & _ & Hi & Hu & Hr).
  unfold _allowed_by_robots. now rewrite Hi, Hu, Hr.
Qed.

Lemma local_path_config a b u ct :
  same_config a b -> url_to_local_path b u ct = url_to_local_path a u ct.
Proof.
  intros (_ & _ & Ho & _). unfold url_to_local_path, local_of.
  now rewrite Ho.
Qed.

Lemma scheduled_ok_config a b v :
  same_config a b -> scheduled_ok a v -> scheduled_ok b v.
Proof.
  intros Hc (H1 & u & H2 & H3). split; [exact H1 |]. exists u.
  now rewrite (same_domain_config a b u Hc).
Qed.

(** [enqueue] on a fragment-free URL in scope keeps the bookkeeping. *)
Lemma enqueue_sched self u self' :
  sched_inv self -> _same_domain self u = Ok true -> Py.mem "#" u = false ->
  enqueue self u = Ok self' -> sched_inv self' /\ grows self self'.
Proof.
  intros (I1 & I2 & I3 & I4 & I5) Hd Hu. unfold enqueue.
  rewrite (normalize_nofrag u Hu). cbn [rbind]. unfold seen_check_insert.
  destruct (bool_decide (Py.strip u ∈ seen_urls self)) eqn:Hv; intros [= <-].
  { split; [|apply grows_refl].
    exact (conj I1 (conj I2 (conj I3 (conj I4 I5)))). }
  apply bool_decide_eq_false in Hv.
  set (v := Py.strip u) in *.
  assert (Hc : same_config self
                 (q_put (set_seen self ({[v]} ∪ seen_urls self)) (mkTask v)))
    by (unfold same_config; cbn; tauto).
  split; [|split; [exact Hc | split; [reflexivity | cbn; set_solver]]].
  cbn [sched_inv q_put set_q set_seen seen_urls saved_urls q].
  unfold sched_inv. cbn [q_put set_q set_seen seen_urls saved_urls q].
  split; [|split; [|split; [|split]]].
  - intros w [Hw | Hw]%elem_of_union.
    + apply elem_of_singleton in Hw as ->.
      apply (scheduled_ok_config self _ v Hc). split.
      * unfold v. rewrite normalize_nofrag by now apply mem_strip.
        now rewrite strip_idem.
      * exists u. split; [exact Hd | now apply normalize_nofrag].
    + apply (scheduled_ok_config self _ w Hc). now apply I1.
  - intros t [Ht | [<- | []]]%in_app_iff; cbn [url]; [|set_solver].
    apply elem_of_union_r. now apply I2.
  - rewrite List.map_app. cbn [List.map url].
    apply NoDup_ListNoDup, NoDup_app. split; [now apply NoDup_ListNoDup |].
    split; [|apply NoDup_singleton].
    intros x Hx Hx'. apply list_elem_of_singleton in Hx' as ->.
    apply list_elem_of_In, in_map_iff in Hx as (t & <- & Ht).
    apply Hv. now apply I2.
  - intros t [Ht | [<- | []]]%in_app_iff; cbn [url]; [now apply I4 |].
    intros Hs. apply Hv. now apply I5.
  - set_solver.
Qed.

End ScheduleFacts.

Section DiscoverFacts.

Variable html_parser : string -> list Element.
Variable css_refs : string -> list string.

Lemma count_page_sched self :
  sched_inv self -> sched_inv (count_page self) /\ grows self (count_page self).
Proof.
  intros H. unfold count_page. destruct (cap_reached self).
  - split; [exact H | apply grows_refl].
  - split; [exact H |]. split; [unfold same_config; cbn; tauto | now split].
Qed.

Lemma enqueue_page_sched self p self' :
  sched_inv self -> Py.mem "#" p = false ->
  enqueue_page self p = Ok self' -> sched_inv self' /\ grows self self'.
Proof.
  intros HI Hp. unfold enqueue_page.
  destruct (_ && _); [intros [= <-]; split; [exact HI | apply grows_refl] |].
  destruct (_same_domain self p) as [[]|] eqn:Hd; try discriminate;
    cbn [rbind].
  - now apply enqueue_sched.
  - intros [= <-]. split; [exact HI | apply grows_refl].
Qed.

Lemma enqueue_asset_sched self a self' :
  sched_inv self -> Py.mem "#" a = false ->
  enqueue_asset self a = Ok self' -> sched_inv self' /\ grows self self'.
Proof.
  intros HI Ha. unfold enqueue_asset.
  destruct (_same_domain self a) as [[]|] eqn:Hd; try discriminate;
    cbn [rbind].
  - now apply enqueue_sched.
  - intros [= <-]. split; [exact HI | apply grows_refl].
Qed.

Lemma loop_sched (f : SiteMirror -> string -> result SiteMirror) l s0 s1 :
  (forall s x s', In x l -> sched_inv s -> grows s0 s -> f s x = Ok s' ->
                  sched_inv s' /\ grows s s') ->
  sched_inv s0 -> foldM f l s0 = Ok s1 -> sched_inv s1 /\ grows s0 s1.
Proof.
  intros Hf H0.
  apply (foldM_inv_in (fun s => sched_inv s /\ grows s0 s)).
  - intros s x s' Hx [Hs Hg] E.
    destruct (Hf s x s' Hx Hs Hg E) as [Hs' Hg'].
    split; [exact Hs' | now apply (grows_trans s0 s s')].
  - split; [exact H0 | apply grows_refl].
Qed.

Lemma extracted_no_hash self base_url x :
  extracted self base_url x -> Py.mem "#" x = false.
Proof. intros ((r & j & _ & Hn) & _). now apply (normalize_no_hash j). Qed.

Lemma extracted_config a b base_url x :
  same_config a b -> extracted a base_url x -> extracted b base_url x.
Proof.
  intros Hc (H1 & H2 & H3). split; [exact H1 |]. split; [exact H2 |].
  now rewrite (same_domain_config a b x Hc).
Qed.

(** Every URL [extract_css_urls] returns is the normal form of a joined
    reference, an HTTP(S) URL and in scope. *)
Lemma extract_css_urls_extracted self base_url css_text urls :
  extract_css_urls css_refs self base_url css_text = Ok urls ->
  forall x, x ∈ urls -> extracted self base_url x.
Proof.
  unfold extract_css_urls. intros E.
  eapply (foldM_inv (fun s => forall x, x ∈ s -> extracted self base_url x));
    [ | | exact E].
  - intros s m s' Hs Hm. exact (add_extracted self base_url s s' _ Hs Hm).
  - intros x Hx. now apply not_elem_of_empty in Hx.
Qed.

Lemma in_elements (s : gset string) x : In x (elements s) -> x ∈ s.
Proof. intros H. now apply elem_of_elements, list_elem_of_In. Qed.

(** The discovery after a saved response keeps the bookkeeping, the
    configuration and the saved URLs. *)
Lemma discover_sched self u resp self' :
  sched_inv self ->
  discover html_parser css_refs self u resp = Ok self' ->
  sched_inv self' /\ grows self self'.
Proof.
  intros HI. unfold discover. destruct (startswith_any HTML_CT _).
  - destruct (count_page_sched self HI) as [HI1 Hg1].
    destruct (Py.truthy _); [|intros [= <-]; now split].
    destruct (extract_links_and_assets _ _ _ _) as [[pages assets]|] eqn:Ex;
      [|discriminate].
    cbn [rbind fst snd].
    assert (Hex := extract_from_soup_sound _ _ _ pages assets Ex).
    destruct (foldM enqueue_page _ _) as [s1|] eqn:E1; [|discriminate].
    cbn [rbind]. intros E2.
    destruct (loop_sched enqueue_page _ _ _
                (fun s x s' Hx Hs _ =>
                   enqueue_page_sched s x s' Hs
                     (extracted_no_hash _ u x
                        (Hex x (elem_of_union_l _ _ _ (in_elements _ _ Hx)))))
                HI1 E1) as [HI2 Hg2].
    destruct (loop_sched enqueue_asset _ _ _
                (fun s x s' Hx Hs _ =>
                   enqueue_asset_sched s x s' Hs
                     (extracted_no_hash _ u x
                        (Hex x (elem_of_union_r _ _ _ (in_elements _ _ Hx)))))
                HI2 E2) as [HI3 Hg3].
    split; [exact HI3 |].
    exact (grows_trans _ _ _ Hg1 (grows_trans _ _ _ Hg2 Hg3)).
  - destruct (startswith_any CSS_CT _);
      [|intros [= <-]; split; [exact HI | apply grows_refl]].
    destruct (Py.truthy _);
      [|intros [= <-]; split; [exact HI | apply grows_refl]].
    destruct (extract_css_urls _ _ _ _) as [urls|] eqn:Ex; [|discriminate].
    cbn [rbind]. intros E.
    assert (Hex := extract_css_urls_extracted _ _ _ _ Ex).
    apply (loop_sched enqueue (elements urls) self self'); [|exact HI | exact E].
    intros s x s' Hx Hs Hg. apply enqueue_sched; [exact Hs | |].
    + destruct Hg as (Hc & _).
      rewrite (same_domain_config self s x Hc).
      now destruct (Hex x (in_elements _ _ Hx)) as (_ & _ & Hd).
    + exact (extracted_no_hash _ u x (Hex x (in_elements _ _ Hx))).
Qed.

End DiscoverFacts.

Section CrawlFacts.

Variable session_get : string -> result Response.
Variable html_parser : string -> list Element.
Variable css_refs : string -> list string.
Variable mkdir_fails : pathlib.Path -> bool.
Variable write_fails : pathlib.Path -> bool.

Lemma fetched_ok_config a b u :
  same_config a b -> fetched_ok session_get a u -> fetched_ok session_get b u.
Proof.
  intros Hc [H1 H2]. split; [|exact H2].
  now rewrite (allowed_config a b u Hc).
Qed.

Lemma written_ok_grows a b f :
  same_config a b -> saved_urls a ⊆ saved_urls b ->
  written_ok session_get a f -> written_ok session_get b f.
Proof.
  intros Hc Hs (u & resp & H1 & H2 & H3 & H4). exists u, resp.
  split; [now apply Hs |]. split; [exact H2 |].
  split; [now rewrite (local_path_config a b u _ Hc) | exact H4].
Qed.

Lemma count_page_count self :
  (page_count self <= page_count (count_page self) <= page_count self + 1)%Z.
Proof.
  unfold count_page. destruct (cap_reached self);
    cbn [set_page_count page_count]; lia.
Qed.

(** One turn of the loop of [worker], on a task that was seen, is not
    saved and is not queued again, keeps the invariant. *)
Lemma process_task_inv c u c' :
  crawl_inv session_get c ->
  u ∈ seen_urls (mirror c) -> u ∉ saved_urls (mirror c) ->
  (forall t, In t (q (mirror c)) -> url t <> u) ->
  process_task session_get html_parser css_refs mkdir_fails write_fails c u
  = Ok c' ->
  crawl_inv session_get c' /\ grows_seen (mirror c) (mirror c').
Proof.
  intros (HI & HF & HW & HL & HP) Hu Hns Hq.
  assert (Hsame : crawl_inv session_get c
                  /\ grows_seen (mirror c) (mirror c)).
  { split; [exact (conj HI (conj HF (conj HW (conj HL HP)))) |].
    split; [apply same_config_refl | split; reflexivity]. }
  unfold process_task.
  destruct (_allowed_by_robots (mirror c) u) eqn:Ha; cbn [negb];
    [|now intros [= <-]].
  unfold fetch. destruct (session_get u) as [resp|e] eqn:Eg.
  2:{ destruct e; try discriminate. cbn [rbind]. now intros [= <-]. }
  cbn [rbind].
  destruct (Z.eqb_spec (status_code resp) 200) as [Es|_]; cbn [negb];
    [|now intros [= <-]].
  unfold save_response.
  destruct (url_to_local_path (mirror c) u _) as [lp|] eqn:El;
    [|discriminate].
  cbn [rbind]. destruct (mkdir_fails _); [discriminate |].
  destruct (write_fails lp); cbn [rbind]; [now intros [= <-] |].
  cbn [mirror disk].
  set (self1 := saved_add (mirror c) u).
  destruct (discover _ _ self1 u resp) as [self2|] eqn:Ed; [|discriminate].
  cbn [rbind]. intros [= <-]. cbn [mirror disk].
  assert (Hc1 : same_config (mirror c) self1)
    by (unfold same_config; cbn; tauto).
  assert (HI1 : sched_inv self1).
  { destruct HI as (I1 & I2 & I3 & I4 & I5). unfold sched_inv.
    cbn [self1 saved_add set_saved seen_urls saved_urls q].
    split; [|split; [exact I2 | split; [exact I3 | split]]].
    - intros v Hv.
      apply (scheduled_ok_config (mirror c)); [exact Hc1 | now apply I1].
    - intros t Ht [Hs|Hs]%elem_of_union; [|now apply (I4 t)].
      apply elem_of_singleton in Hs. now apply (Hq t).
    - intros x [Hx|Hx]%elem_of_union; [|now apply I5].
      now apply elem_of_singleton in Hx as ->. }
  destruct (discover_sched _ _ _ _ _ _ HI1 Ed) as [HI2 (Hc2 & Hsv & Hsn)].
  assert (Hc : same_config (mirror c) self2)
    by exact (same_config_trans _ _ _ Hc1 Hc2).
  assert (Hsaved : saved_urls self2 = {[u]} ∪ saved_urls (mirror c))
    by exact Hsv.
  assert (Hsize : size (saved_urls self2)
                  = S (size (saved_urls (mirror c)))).
  { rewrite Hsaved, size_union by now apply disjoint_singleton_l.
    now rewrite size_singleton. }
  split.
  - unfold crawl_inv. cbn [mirror disk].
    split; [exact HI2 |]. split; [|split; [|split]].
    + intros x Hx. rewrite Hsaved in Hx.
      apply elem_of_union in Hx as [Hx|Hx].
      * apply elem_of_singleton in Hx as ->.
        split; [now rewrite (allowed_config _ _ u Hc) | eauto].
      * apply (fetched_ok_config (mirror c)); [exact Hc | now apply HF].
    + apply Forall_app. split.
      * eapply Forall_impl; [exact HW |]. intros f.
        apply written_ok_grows; [exact Hc |].
        rewrite Hsaved. apply union_subseteq_r.
      * constructor; [|constructor]. exists u, resp. cbn [fst snd].
        split; [rewrite Hsaved; now apply elem_of_union_l, elem_of_singleton |].
        split; [exact Eg |].
        split; [now rewrite (local_path_config _ _ u _ Hc) | reflexivity].
    + rewrite List.length_app. cbn [List.length]. rewrite Hsize. lia.
    + rewrite Hsize.
      assert (Hpc := discover_page_count _ _ _ _ _ _ Ed).
      assert (Hcp := count_page_count self1).
      change (page_count self1) with (page_count (mirror c)) in *.
      destruct (startswith_any HTML_CT _); lia.
  - split; [exact Hc |]. split; [exact Hsn |].
    rewrite Hsaved. apply union_subseteq_r.
Qed.

Lemma grows_seen_refl a : grows_seen a a.
Proof. split; [apply same_config_refl | split; reflexivity]. Qed.

Lemma grows_seen_trans a b c :
  grows_seen a b -> grows_seen b c -> grows_seen a c.
Proof.
  intros (H1 & H2 & H3) (H4 & H5 & H6).
  split; [exact (same_config_trans _ _ _ H1 H4) |].
  split; etransitivity; eassumption.
Qed.

(** Taking the oldest task off the queue keeps the invariant; the task
    was seen, is not saved and is not queued a second time. *)
Lemma q_get_inv c t rest :
  crawl_inv session_get c -> q (mirror c) = t :: rest ->
  crawl_inv session_get (mkCrawl (set_q (mirror c) rest) (disk c))
  /\ (url t ∈ seen_urls (mirror c)) /\ (url t ∉ saved_urls (mirror c))
  /\ (forall t', In t' rest -> url t' <> url t).
Proof.
  intros ((I1 & I2 & I3 & I4 & I5) & HF & HW & HL & HP) Eq.
  rewrite Eq in I2, I3, I4. cbn [List.map] in I3.
  apply List.NoDup_cons_iff in I3 as [Hn I3].
  assert (Hc : same_config (mirror c) (set_q (mirror c) rest))
    by (unfold same_config; cbn; tauto).
  split; [|split; [apply I2; now left | split; [apply I4; now left |]]].
  - unfold crawl_inv, sched_inv.
    cbn [mirror disk set_q seen_urls saved_urls q page_count].
    split; [split; [|split; [|split; [exact I3 | split; [|exact I5]]]] |].
    + intros v Hv. apply (scheduled_ok_config _ _ v Hc). now apply I1.
    + intros t' Ht'. apply I2. now right.
    + intros t' Ht'. apply I4. now right.
    + split; [|split; [|split; [exact HL | exact HP]]].
      * intros x Hx. apply (fetched_ok_config _ _ x Hc). now apply HF.
      * eapply Forall_impl; [exact HW |]. intros f.
        now apply written_ok_grows.
  - intros t' Ht' E. apply Hn. rewrite <- E. now apply List.in_map.
Qed.

(** The loop of [worker] keeps the invariant and ends on an empty queue. *)
Lemma worker_inv fuel : forall c c',
  crawl_inv session_get c ->
  worker session_get html_parser css_refs mkdir_fails write_fails fuel c
  = Some (Ok c') ->
  crawl_inv session_get c' /\ grows_seen (mirror c) (mirror c')
  /\ q (mirror c') = [].
Proof.
  induction fuel as [|fuel IH]; intros c c' Hinv; cbn [worker];
    [discriminate |].
  unfold q_get. destruct (q (mirror c)) as [|t rest] eqn:Eq.
  - intros [= <-]. split; [exact Hinv |]. split; [apply grows_seen_refl |].
    exact Eq.
  - destruct (q_get_inv c t rest Hinv Eq) as (H1 & H2 & H3 & H4).
    destruct (process_task _ _ _ _ _ _ _) as [c1|] eqn:E; [|discriminate].
    intros H.
    destruct (process_task_inv _ _ _ H1 H2 H3 H4 E) as [Hinv1 Hg1].
    destruct (IH c1 c' Hinv1 H) as (Hinv' & Hg' & Hq').
    split; [exact Hinv' |]. split; [|exact Hq'].
    refine (grows_seen_trans _ _ _ _ (grows_seen_trans _ _ _ Hg1 Hg')).
    split; [unfold same_config; cbn; tauto | split; reflexivity].
Qed.

(** A freshly built object. *)
Lemma init_fresh read start out inc maxp w ign ua self :
  SiteMirror_init read start out inc maxp w ign ua = Ok self ->
  seen_urls self = ∅ /\ saved_urls self = ∅ /\ q self = []
  /\ page_count self = 0%Z
  /\ _same_domain self (start_url self) = Ok true
  /\ Py.mem "#" (start_url self) = false.
Proof.
  unfold SiteMirror_init.
  destruct (_normalize_url start) as [su|e] eqn:En; [|discriminate].
  cbn [rbind].
  destruct (urllib.urlparse "" su) as [b|e] eqn:Eb; [|discriminate].
  cbn [rbind]. destruct (negb _); [discriminate |].
  set (self0 := mkMirror _ _ _ _ _ _ _ _ _ _ _ _ _). intros H.
  assert (Hr : exists r, self = set_rp self0 r).
  { destruct (negb ign).
    - exact (init_robots_fields _ _ _ H).
    - injection H as <-. exists None. reflexivity. }
  destruct Hr as [r ->].
  cbn [set_rp self0 seen_urls saved_urls q page_count start_url].
  repeat (split; [reflexivity |]). split.
  - unfold _same_domain. rewrite Eb. cbn [rbind base].
    now rewrite String.eqb_refl.
  - exact (normalize_no_hash _ _ En).
Qed.

(** A crawl started on a freshly built object keeps the invariant; it
    ends on an empty queue, with the start URL scheduled. *)
Lemma run_inv read start out inc maxp w ign ua self fuel c' :
  SiteMirror_init read start out inc maxp w ign ua = Ok self ->
  run session_get html_parser css_refs mkdir_fails write_fails fuel
    (mkCrawl self []) = Some (Ok c') ->
  crawl_inv session_get c' /\ same_config self (mirror c')
  /\ q (mirror c') = []
  /\ exists v, _normalize_url (start_url self) = Ok v
                /\ v ∈ seen_urls (mirror c').
Proof.
  intros Hi. destruct (init_fresh _ _ _ _ _ _ _ _ _ Hi)
    as (Hs & Hv & Hq & Hp & Hd & Hh).
  unfold run. cbn [mirror disk].
  destruct (enqueue self (start_url self)) as [s1|] eqn:E; [|discriminate].
  assert (HI0 : sched_inv self).
  { unfold sched_inv. rewrite Hs, Hv, Hq.
    split; [intros v Hx; now apply not_elem_of_empty in Hx |].
    split; [intros t [] |]. split; [constructor |].
    split; [intros t [] | reflexivity]. }
  destruct (enqueue_sched self _ s1 HI0 Hd Hh E) as [HI1 (Hc1 & Hsv1 & Hsn1)].
  assert (Hinv1 : crawl_inv session_get (mkCrawl s1 [])).
  { unfold crawl_inv. cbn [mirror disk]. rewrite Hsv1, Hv.
    split; [exact HI1 |].
    split; [intros x Hx; now apply not_elem_of_empty in Hx |].
    split; [constructor |]. rewrite size_empty.
    split; [reflexivity |].
    rewrite (enqueue_page_count _ _ _ E), Hp. cbn. lia. }
  intros H. destruct (worker_inv fuel _ c' Hinv1 H) as (Hinv' & Hg & Hq').
  cbn [mirror] in Hg. destruct Hg as (Hc2 & Hsn2 & _).
  split; [exact Hinv' |].
  split; [exact (same_config_trans _ _ _ Hc1 Hc2) |]. split; [exact Hq' |].
  revert E. unfold enqueue. rewrite (normalize_nofrag _ Hh). cbn [rbind].
  intros E. exists (Py.strip (start_url self)). split; [reflexivity |].
  apply Hsn2. revert E. unfold seen_check_insert.
  destruct (bool_decide _) eqn:Hb.
  - apply bool_decide_eq_true in Hb. rewrite Hs in Hb.
    now apply not_elem_of_empty in Hb.
  - intros [= <-]. cbn [q_put set_q set_seen seen_urls].
    now apply elem_of_union_l, elem_of_singleton.
Qed.

End CrawlFacts.

Lemma scenario_a_runs : scenario_a true = Some (Ok scenario_a_end).
Proof. vm_compute. reflexivity. Qed.

Section CrawlProperties.

Variable session_get : string -> result Response.
Variable html_parser : string -> list Element.
Variable css_refs : string -> list string.
Variable mkdir_fails : pathlib.Path -> bool.
Variable write_fails : pathlib.Path -> bool.
Variable robots_read : string -> result RobotFileParser.

(** X10 -- After a crawl that [run] completes on a freshly built object,
    every saved URL had been scheduled, was allowed by the robots check
    and was answered by the server with status 200. *)
Theorem run_saved_were_fetched
    (start : string) (out : pathlib.Path) (inc : bool) (maxp w : Z)
    (ign : bool) (ua : string) (self : SiteMirror) (fuel : nat)
    (c' : Crawl) (u : string) :
  SiteMirror_init robots_read start out inc maxp w ign ua = Ok self ->
  run session_get html_parser css_refs mkdir_fails write_fails fuel
    (mkCrawl self []) = Some (Ok c') ->
  u ∈ saved_urls (mirror c') ->
  u ∈ seen_urls (mirror c')
  /\ _allowed_by_robots self u = true
  /\ exists resp, session_get u = Ok resp /\ status_code resp = 200%Z.
Proof.
  intros Hi Hr Hu.
  destruct (run_inv session_get html_parser css_refs mkdir_fails write_fails
              _ _ _ _ _ _ _ _ _ _ _ Hi Hr)
    as (((_ & _ & _ & _ & I5) & HF & _) & Hc & _).
  split; [now apply I5 |]. destruct (HF u Hu) as [Ha Hresp].
  split; [|exact Hresp]. now rewrite <- (allowed_config self (mirror c') u Hc).
Qed.



(** X13 -- After a completed crawl the queue is empty, the configuration
    is the one the constructor stored, and the numbers [run] prints are
    consistent: the page counter is at most the number of saved URLs,
    which is at most the number of scheduled URLs. *)
Theorem run_summary_consistent
    (start : string) (out : pathlib.Path) (inc : bool) (maxp w : Z)
    (ign : bool) (ua : string) (self : SiteMirror) (fuel : nat)
    (c' : Crawl) :
  SiteMirror_init robots_read start out inc maxp w ign ua = Ok self ->
  run session_get html_parser css_refs mkdir_fails write_fails fuel
    (mkCrawl self []) = Some (Ok c') ->
  q (mirror c') = [] /\ same_config self (mirror c')
  /\ (0 <= page_count (mirror c')
      <= Z.of_nat (size (saved_urls (mirror c'))))%Z
  /\ (size (saved_urls (mirror c')) <= size (seen_urls (mirror c')))%nat.
Proof.
  intros Hi Hr.
  destruct (run_inv session_get html_parser css_refs mkdir_fails write_fails
              _ _ _ _ _ _ _ _ _ _ _ Hi Hr)
    as (((_ & _ & _ & _ & I5) & _ & _ & _ & HP) & Hc & Hq & _).
  split; [exact Hq |]. split; [exact Hc |]. split; [exact HP |].
  now apply subseteq_size.
Qed.

End CrawlProperties.

Lemma run_saved_were_fetched_witness :
  "https://ex.com/about" ∈ seen_urls (mirror scenario_a_end)
  /\ _allowed_by_robots (ex_com_mirror false 0) "https://ex.com/about" = true
  /\ exists resp, scenario_a_get true "https://ex.com/about" = Ok resp
                  /\ status_code resp = 200%Z.
Proof.
  apply (run_saved_were_fetched (scenario_a_get true) scenario_a_parser
           (fun _ => []) (fun _ => false) (fun _ => false)
           robots_unreachable "https://ex.com/" (pathlib.of_string "out")
           false 0 1 true "SiteMirrorBot/1.0" (ex_com_mirror false 0) 10
           scenario_a_end "https://ex.com/about").
  - reflexivity.
  - exact scenario_a_runs.
  - vm_compute. reflexivity.
Defined.



Lemma run_summary_consistent_witness :
  q (mirror scenario_a_end) = []
  /\ same_config (ex_com_mirror false 0) (mirror scenario_a_end)
  /\ (0 <= page_count (mirror scenario_a_end)
      <= Z.of_nat (size (saved_urls (mirror scenario_a_end))))%Z
  /\ (size (saved_urls (mirror scenario_a_end))
      <= size (seen_urls (mirror scenario_a_end)))%nat.
Proof.
  apply (run_summary_consistent (scenario_a_get true) scenario_a_parser
           (fun _ => []) (fun _ => false) (fun _ => false)
           robots_unreachable "https://ex.com/" (pathlib.of_string "out")
           false 0 1 true "SiteMirrorBot/1.0" (ex_com_mirror false 0) 10
           scenario_a_end).
  - reflexivity.
  - exact scenario_a_runs.
Defined.

(** ** The page cap in the worker *)

Section CapFacts.

Variable html_parser : string -> list Element.
Variable css_refs : string -> list string.

(** With the cap reached, the loop body over the discovered pages does
    nothing: a page not seen is skipped, and a page seen, being its own
    normal form, is found in [seen_urls] by [enqueue]. *)
Lemma enqueue_page_at_cap self p self' :
  cap_reached self = true ->
  (forall v, v ∈ seen_urls self -> _normalize_url v = Ok v) ->
  enqueue_page self p = Ok self' -> self' = self.
Proof.
  intros Hc Hn. unfold enqueue_page. rewrite Hc.
  destruct (bool_decide (p ∈ seen_urls self)) eqn:Hp; cbn [negb andb];
    [|now intros [= <-]].
  destruct (_same_domain self p) as [[]|]; try discriminate; cbn [rbind];
    [|now intros [= <-]].
  unfold enqueue. rewrite (Hn p (bool_decide_eq_true_1 _ Hp)). cbn [rbind].
  unfold seen_check_insert. rewrite Hp. now intros [= <-].
Qed.

Lemma page_loop_at_cap l : forall self self',
  cap_reached self = true ->
  (forall v, v ∈ seen_urls self -> _normalize_url v = Ok v) ->
  foldM enqueue_page l self = Ok self' -> self' = self.
Proof.
  induction l as [|p l IH]; intros self self' Hc Hn; cbn [foldM].
  - now intros [= <-].
  - destruct (enqueue_page self p) as [s1|] eqn:E; [|discriminate].
    cbn [rbind]. rewrite (enqueue_page_at_cap self p s1 Hc Hn E).
    now apply IH.
Qed.

Lemma enqueue_asset_seen self a self' :
  enqueue_asset self a = Ok self' ->
  forall v, v ∈ seen_urls self' ->
            v ∈ seen_urls self \/ _normalize_url a = Ok v.
Proof.
  unfold enqueue_asset.
  destruct (_same_domain self a) as [[]|]; try discriminate; cbn [rbind];
    [|intros [= <-]; now left].
  unfold enqueue. destruct (_normalize_url a) as [x|]; [|discriminate].
  cbn [rbind]. unfold seen_check_insert.
  destruct (bool_decide _); intros [= <-]; [now left |].
  cbn [q_put set_q set_seen seen_urls].
  intros v [Hv|Hv]%elem_of_union; [|now left].
  apply elem_of_singleton in Hv as ->. now right.
Qed.

End CapFacts.

Section CapProperties.

Variable html_parser : string -> list Element.
Variable css_refs : string -> list string.

(** X14 -- Once the page cap is reached, the worker's pass over an HTML
    response schedules no page: the counter stays, and every URL it adds
    to [seen_urls] is the normal form of one of the extracted assets.
    (The URLs seen so far are in normal form, as they are in a crawl.) *)
Theorem discover_at_cap (self : SiteMirror) (u : string) (resp : Response)
    (self' : SiteMirror) (pages assets : gset string) :
  cap_reached self = true ->
  (forall v, v ∈ seen_urls self -> _normalize_url v = Ok v) ->
  startswith_any HTML_CT (content_type_of resp) = true ->
  extract_links_and_assets html_parser self u (body_text resp)
  = Ok (pages, assets) ->
  discover html_parser css_refs self u resp = Ok self' ->
  page_count self' = page_count self
  /\ saved_urls self' = saved_urls self
  /\ forall v, v ∈ seen_urls self' ->
       v ∈ seen_urls self
       \/ exists a, a ∈ assets /\ _normalize_url a = Ok v.
Proof.
  intros Hc Hn Hh Hex. unfold discover. rewrite Hh.
  unfold count_page. rewrite Hc.
  destruct (Py.truthy (body_text resp)).
  2:{ intros [= <-]. split; [reflexivity |]. split; [reflexivity |].
      intros v Hv. now left. }
  rewrite Hex. cbn [rbind fst snd].
  destruct (foldM enqueue_page _ _) as [s1|] eqn:E1; [|discriminate].
  cbn [rbind]. rewrite (page_loop_at_cap _ _ _ Hc Hn E1). intros E2.
  split.
  { exact (foldM_page_count enqueue_asset _ enqueue_asset_page_count _ _ E2). }
  split.
  { eapply (foldM_inv (fun s => saved_urls s = saved_urls self));
      [ | reflexivity | exact E2].
    intros s x s' Hs. unfold enqueue_asset.
    destruct (_same_domain s x) as [[]|]; try discriminate; cbn [rbind];
      [|now intros [= <-]].
    unfold enqueue. destruct (_normalize_url x); [|discriminate].
    cbn [rbind]. unfold seen_check_insert.
    now destruct (bool_decide _); intros [= <-]. }
  eapply (foldM_inv_in
            (fun s => forall v, v ∈ seen_urls s ->
                        v ∈ seen_urls self
                        \/ exists a, a ∈ assets /\ _normalize_url a = Ok v));
    [ | | exact E2].
  - intros s x s' Hx Hs E v Hv.
    destruct (enqueue_asset_seen s x s' E v Hv) as [H|H]; [now apply Hs |].
    right. exists x. split; [|exact H].
    now apply elem_of_elements, list_elem_of_In.
  - intros v Hv. now left.
Qed.

End CapProperties.

Lemma discover_at_cap_witness :
  page_count capped_end = page_count capped_start
  /\ saved_urls capped_end = saved_urls capped_start
  /\ forall v, v ∈ seen_urls capped_end ->
       v ∈ seen_urls capped_start
       \/ exists a, a ∈ ({["https://ex.com/logo.png"]} : gset string)
                    /\ _normalize_url a = Ok v.
Proof.
  apply (discover_at_cap scenario_a_parser (fun _ => []) capped_start
           "https://ex.com/" home_response capped_end
           {["https://ex.com/about"]} {["https://ex.com/logo.png"]}).
  - vm_compute. reflexivity.
  - intros v Hv. unfold capped_start in Hv. cbn [set_seen seen_urls] in Hv.
    apply elem_of_singleton in Hv as ->. vm_compute. reflexivity.
  - vm_compute. reflexivity.
  - vm_compute. reflexivity.
  - vm_compute. reflexivity.
Defined.

(** ** The references [CSS_URL_RE] finds *)

Section RegexFacts.

Import CSS_URL_RE.

Lemma drop_app s t : Py.drop (String.length s) (s +:+ t) = t.
Proof. induction s as [|x s IH]; [now destruct t | exact IH]. Qed.

Lemma span_len_app p r c t :
  Py.all p r = true -> p c = false ->
  span_len p (r +:+ String c t) = String.length r.
Proof.
  intros Hr Hc. induction r as [|x r IH]; cbn [String.append span_len].
  - now rewrite Hc.
  - cbn [Py.all] in Hr. apply andb_prop in Hr as [Hx Hr].
    now rewrite Hx, (IH Hr).
Qed.

Lemma lstrip_by_all p w c t :
  Py.all p w = true -> p c = false ->
  Py.lstrip_by p (w +:+ String c t) = String c t.
Proof.
  intros Hw Hc. induction w as [|x w IH]; cbn [String.append Py.lstrip_by].
  - now rewrite Hc.
  - cbn [Py.all] in Hw. apply andb_prop in Hw as [Hx Hw].
    now rewrite Hx, (IH Hw).
Qed.

Lemma startswith_ci_app p : forall r c t,
  Py.mem (Py.lower_char c) p = false ->
  startswith_ci p (r +:+ String c t) = startswith_ci p r.
Proof.
  induction p as [|a p IH]; intros r c t Hc; [now destruct r |].
  cbn [Py.mem] in Hc. apply orb_false_elim in Hc as [Ha Hp].
  destruct r as [|b r]; cbn [String.append startswith_ci].
  - now rewrite (Ascii.eqb_sym a), Ha.
  - now rewrite (IH r c t Hp).
Qed.

Lemma startswith_ci_take p : forall n s,
  startswith_ci p (Py.take n s) = true -> startswith_ci p s = true.
Proof.
  induction p as [|a p IH]; intros n s; [now destruct s |].
  destruct n as [|n]; destruct s as [|b s]; cbn [Py.take startswith_ci];
    try discriminate.
  intros [H1 H2]%andb_prop. now rewrite H1, (IH n s H2).
Qed.

Lemma quote_not_ref qc : is_quote qc = true -> ref_char qc = false.
Proof. unfold ref_char. intros ->. now rewrite orb_true_r. Qed.

Lemma quote_plain qc :
  is_quote qc = true ->
  Py.isspace qc = false /\ Py.mem (Py.lower_char qc) "data:" = false.
Proof.
  unfold is_quote. intros [H|H]%orb_prop; apply Ascii.eqb_eq in H as ->;
    now split.
Qed.

Lemma ref_char_not_quote c : ref_char c = true -> is_quote c = false.
Proof.
  unfold ref_char. intros H. apply negb_true_iff in H.
  now apply orb_false_elim in H.
Qed.

(** Group 2 and what follows it, for a bare reference. *)
Lemma match_body_bare r post :
  Py.truthy r = true -> Py.all ref_char r = true ->
  startswith_ci "data:" r = false ->
  match_body None (r +:+ String ")" post) = Some (r, post).
Proof.
  intros Ht Hr Hd. unfold match_body.
  rewrite (startswith_ci_app "data:" r ")" post eq_refl), Hd.
  rewrite (span_len_app ref_char r ")" post Hr eq_refl).
  destruct r as [|c r]; [discriminate |]. cbn [String.length match_ref].
  change (S (String.length r)) with (String.length (String c r)).
  now rewrite drop_app, take_app.
Qed.

(** The same between two equal quotes, with white space before the
    parenthesis. *)
Lemma match_body_quoted qc r w' post :
  is_quote qc = true -> Py.all Py.isspace w' = true ->
  Py.truthy r = true -> Py.all ref_char r = true ->
  startswith_ci "data:" r = false ->
  match_body (Some qc) (r +:+ String qc (w' +:+ String ")" post))
  = Some (r, post).
Proof.
  intros Hq Hw Ht Hr Hd. unfold match_body.
  destruct (quote_plain qc Hq) as [_ Hqd].
  rewrite (startswith_ci_app "data:" r qc _ Hqd), Hd.
  rewrite (span_len_app ref_char r qc _ Hr (quote_not_ref qc Hq)).
  destruct r as [|c r]; [discriminate |]. cbn [String.length match_ref].
  change (S (String.length r)) with (String.length (String c r)).
  rewrite drop_app, take_app. unfold match_close.
  now rewrite Ascii.eqb_refl, (lstrip_by_all Py.isspace w' ")" post Hw eq_refl).
Qed.

Lemma match_space_at s k r :
  match_quote (Py.drop k s) = Some r -> match_space s k = Some r.
Proof. intros H. destruct k; cbn [match_space]; now rewrite H. Qed.

End RegexFacts.

Section RegexScanFacts.

Import CSS_URL_RE.

Lemma kw_url kw :
  Py.lower kw = "url" ->
  exists a b c,
    kw = String a (String b (String c ""))
    /\ Py.lower_char a = "u"%char /\ Py.lower_char b = "r"%char
    /\ Py.lower_char c = "l"%char.
Proof.
  destruct kw as [|a [|b [|c [|d k]]]]; cbn [Py.lower]; intros [=].
  exists a, b, c. now repeat split.
Qed.

Lemma lower_char_paren c :
  Ascii.eqb "(" (Py.lower_char c) = Ascii.eqb "(" c.
Proof. destruct c as [[] [] [] [] [] [] [] []]; vm_compute; reflexivity. Qed.

Lemma match_at_token kw w quote r w' post :
  Py.lower kw = "url" -> css_url_ok w quote r w' = true ->
  match_at (css_url kw w quote r w' +:+ post) = Some (r, post).
Proof.
  intros Hk Hok. unfold css_url_ok in Hok.
  apply andb_prop in Hok as [[[[Hw Ht]%andb_prop Hr]%andb_prop Hd]%andb_prop Hq].
  apply negb_true_iff in Hd.
  destruct (kw_url kw Hk) as (a & b & c & -> & Ha & Hb & Hc).
  unfold css_url. rewrite !app_assoc. cbn [String.append].
  unfold match_at. cbn [startswith_ci]. rewrite Ha, Hb, Hc.
  cbn [Ascii.eqb Bool.eqb andb Py.drop].
  set (body := match quote with Some _ => _ | None => _ end +:+ _).
  assert (Hb0 : exists c0 t, body = String c0 t /\ Py.isspace c0 = false
                             /\ match_quote body = Some (r, post)).
  { subst body. destruct quote as [qc|].
    - apply andb_prop in Hq as [Hq Hw'].
      cbn [String.append]. rewrite app_assoc. cbn [String.append].
      exists qc. eexists. split; [reflexivity |].
      split; [exact (proj1 (quote_plain qc Hq)) |].
      cbn [match_quote]. rewrite Hq.
      now rewrite (match_body_quoted qc r w' post Hq Hw' Ht Hr Hd).
    - destruct r as [|c0 r']; [discriminate |]. cbn [starts_black] in Hq.
      apply negb_true_iff in Hq. cbn [String.append].
      exists c0. eexists. split; [reflexivity |]. split; [exact Hq |].
      cbn [match_quote]. cbn [Py.all] in Hr.
      assert (Hc0 : ref_char c0 = true) by now apply andb_prop in Hr.
      rewrite (ref_char_not_quote c0 Hc0).
      exact (match_body_bare (String c0 r') post eq_refl Hr Hd). }
  destruct Hb0 as (c0 & t & -> & Hs & Hm).
  rewrite (span_len_app Py.isspace w c0 t Hw Hs).
  apply match_space_at. now rewrite drop_app.
Qed.

(** No match starts where the fourth character is not a parenthesis. *)
Lemma match_at_none a b c d s :
  Ascii.eqb "(" d = false ->
  match_at (String a (String b (String c (String d s)))) = None.
Proof.
  intros Hd. unfold match_at. cbn [startswith_ci].
  now rewrite lower_char_paren, Hd, !andb_false_r.
Qed.

(** The scan passes a text without parenthesis that stands before a
    keyword. *)
Lemma scan_pre pre a b c s :
  Py.mem "(" pre = false ->
  Ascii.eqb "(" a = false -> Ascii.eqb "(" b = false ->
  Ascii.eqb "(" c = false ->
  scan (pre +:+ String a (String b (String c s))) O
  = scan (String a (String b (String c s))) O.
Proof.
  intros Hp Ha Hb Hc.
  remember (scan (String a (String b (String c s))) O) as R eqn:ER.
  induction pre as [|x pre IH]; [now subst R |].
  cbn [Py.mem] in Hp. apply orb_false_elim in Hp as [Hx Hp].
  cbn [String.append scan]. rewrite <- (IH Hp).
  assert (Hn : match_at (String x (pre +:+ String a (String b (String c s))))
               = None).
  { destruct pre as [|y [|z [|t pre]]]; cbn [String.append];
      [now apply match_at_none | now apply match_at_none
       | now apply match_at_none |].
    apply match_at_none. cbn [Py.mem] in Hp.
    apply orb_false_elim in Hp as [_ Hp].
    apply orb_false_elim in Hp as [_ Hp].
    now apply orb_false_elim in Hp as [Hp _]. }
  now rewrite Hn.
Qed.

Lemma scan_skip m post : scan (m +:+ post) (String.length m) = scan post O.
Proof.
  induction m as [|x m IH]; [reflexivity |].
  cbn [String.append String.length scan]. exact IH.
Qed.

Lemma scan_match m post g :
  Py.truthy m = true -> match_at (m +:+ post) = Some (g, post) ->
  scan (m +:+ post) O = g :: scan post O.
Proof.
  intros Hm H. destruct m as [|x m]; [discriminate |].
  cbn [String.append] in *. cbn [scan]. rewrite H. f_equal.
  cbn [String.length]. rewrite length_app.
  replace (S (String.length m + String.length post) - String.length post - 1)%nat
    with (String.length m) by lia.
  apply scan_skip.
Qed.

End RegexScanFacts.

(** X15 -- [CSS_URL_RE] finds a [url(...)] token wherever it stands after
    a text without parenthesis: the keyword in any letter case, white
    space after the parenthesis, and a reference that is bare or stands
    between two equal quotes (then with white space before the closing
    parenthesis).  Group 2 is the reference as written, and the scan goes
    on right after the token. *)
Theorem css_url_found (pre kw w : string) (quote : option ascii)
    (r w' post : string) :
  Py.mem "(" pre = false -> Py.lower kw = "url" ->
  css_url_ok w quote r w' = true ->
  CSS_URL_RE.finditer (pre +:+ css_url kw w quote r w' +:+ post)
  = r :: CSS_URL_RE.finditer post.
Proof.
  intros Hp Hk Hok. unfold CSS_URL_RE.finditer.
  assert (Hm := match_at_token kw w quote r w' post Hk Hok).
  destruct (kw_url kw Hk) as (a & b & c & E & Ha & Hb & Hc).
  assert (Et : exists s, css_url kw w quote r w' +:+ post
                         = String a (String b (String c s))).
  { rewrite E. unfold css_url. cbn [String.append]. eauto. }
  destruct Et as [s Es]. rewrite Es.
  rewrite scan_pre;
    [ | exact Hp | rewrite <- lower_char_paren, Ha; reflexivity
      | rewrite <- lower_char_paren, Hb; reflexivity
      | rewrite <- lower_char_paren, Hc; reflexivity ].
  rewrite <- Es. apply scan_match; [|exact Hm].
  rewrite E. reflexivity.
Qed.

Lemma css_url_found_witness :
  CSS_URL_RE.finditer "a{background:URL( 'img/a.png' )}" = ["img/a.png"].
Proof.
  apply (css_url_found "a{background:" "URL" " " (Some "'"%char) "img/a.png"
           " " "}"); reflexivity.
Defined.

Section RegexSoundFacts.

Import CSS_URL_RE.

Lemma all_take p : forall n s,
  (n <= span_len p s)%nat -> Py.all p (Py.take n s) = true.
Proof.
  induction n as [|n IH]; intros s Hn; [reflexivity |].
  destruct s as [|c s]; [reflexivity |]. cbn [span_len] in Hn.
  cbn [Py.take Py.all]. destruct (p c); [|lia].
  cbn [andb]. apply IH. lia.
Qed.

Lemma match_ref_take g1 body : forall n g rest,
  match_ref g1 body n = Some (g, rest) ->
  exists m, (1 <= m <= n)%nat /\ g = Py.take m body.
Proof.
  induction n as [|n IH]; intros g rest; cbn [match_ref]; [discriminate |].
  destruct (match_close g1 _) as [r|].
  - intros [= <- <-]. exists (S n). split; [lia | reflexivity].
  - intros H. destruct (IH g rest H) as (m & Hm & ->). exists m.
    split; [lia | reflexivity].
Qed.

Lemma match_body_ref g1 body g rest :
  match_body g1 body = Some (g, rest) ->
  Py.truthy g = true /\ Py.all ref_char g = true
  /\ startswith_ci "data:" g = false.
Proof.
  unfold match_body. destruct (startswith_ci "data:" body) eqn:Hd;
    [discriminate |].
  intros H. destruct (match_ref_take _ _ _ _ _ H) as (m & [H1 H2] & ->).
  split; [|split].
  - destruct m as [|m]; [lia |]. destruct body as [|c body]; [|reflexivity].
    cbn [span_len] in H2. lia.
  - apply all_take. lia.
  - destruct (startswith_ci "data:" (Py.take m body)) eqn:E; [|reflexivity].
    apply startswith_ci_take in E. congruence.
Qed.

Lemma match_at_ref s g rest :
  match_at s = Some (g, rest) ->
  Py.truthy g = true /\ Py.all ref_char g = true
  /\ startswith_ci "data:" g = false.
Proof.
  unfold match_at. destruct (startswith_ci "url(" s); [|discriminate].
  generalize (span_len Py.isspace (Py.drop 4 s)). intros k.
  induction k as [|k IH]; cbn [match_space].
  - destruct (match_quote _) as [[g' r']|] eqn:E; [|discriminate].
    intros [= <- <-]. revert E. unfold match_quote.
    destruct (Py.drop 0 _) as [|c t]; [apply match_body_ref |].
    destruct (is_quote c); [|apply match_body_ref].
    destruct (match_body (Some c) t) as [[g0 r0]|] eqn:E0.
    + intros [= <- <-]. exact (match_body_ref _ _ _ _ E0).
    + apply match_body_ref.
  - destruct (match_quote _) as [[g' r']|] eqn:E; [|exact IH].
    intros [= <- <-]. revert E. unfold match_quote.
    destruct (Py.drop (S k) _) as [|c t]; [apply match_body_ref |].
    destruct (is_quote c); [|apply match_body_ref].
    destruct (match_body (Some c) t) as [[g0 r0]|] eqn:E0.
    + intros [= <- <-]. exact (match_body_ref _ _ _ _ E0).
    + apply match_body_ref.
Qed.

Lemma scan_ref s : forall k g,
  In g (scan s k) -> exists s' rest, match_at s' = Some (g, rest).
Proof.
  induction s as [|c s IH]; intros k g; cbn [scan]; [intros [] |].
  destruct k as [|k]; [|apply IH].
  destruct (match_at (String c s)) as [[g2 rest]|] eqn:E; [|apply IH].
  intros [<- | H]; [eauto | exact (IH _ _ H)].
Qed.

End RegexSoundFacts.

(** X16 -- Every reference [CSS_URL_RE] captures as group 2 is non-empty,
    holds no closing parenthesis and no quote, and does not open with
    [data:] in any letter case. *)
Theorem finditer_refs (css_text g : string) :
  In g (CSS_URL_RE.finditer css_text) ->
  Py.truthy g = true /\ Py.all CSS_URL_RE.ref_char g = true
  /\ CSS_URL_RE.startswith_ci "data:" g = false.
Proof.
  intros H. destruct (scan_ref _ _ _ H) as (s' & rest & Hm).
  exact (match_at_ref _ _ _ Hm).
Qed.

Lemma finditer_refs_witness :
  Py.truthy " data:x" = true /\ Py.all CSS_URL_RE.ref_char " data:x" = true
  /\ CSS_URL_RE.startswith_ci "data:" " data:x" = false.
Proof.
  apply (finditer_refs "a{b:url(data:y)} c{d:url( data:x)}" " data:x").
  vm_compute. now left.
Defined.

(** ** The URLs taken from a style sheet *)

Section CssFacts.

Variable css_refs : string -> list string.

Lemma extract_css_urls_from self base_url css_text urls :
  extract_css_urls css_refs self base_url css_text = Ok urls ->
  forall x, x ∈ urls ->
    exists m j, In m (css_refs css_text)
                /\ urllib.urljoin base_url (Py.strip m) = Ok j
                /\ _normalize_url j = Ok x.
Proof.
  unfold extract_css_urls. intros E.
  eapply (foldM_inv_in
            (fun s : gset string =>
               forall x, x ∈ s ->
                 exists m j, In m (css_refs css_text)
                             /\ urllib.urljoin base_url (Py.strip m) = Ok j
                             /\ _normalize_url j = Ok x));
    [ | | exact E].
  - intros s m s' Hm Hs. cbv beta.
    destruct (urllib.urljoin base_url (Py.strip m)) as [j|] eqn:Ej;
      [|discriminate].
    cbn [rbind]. destruct (_normalize_url j) as [v|] eqn:Ev; [|discriminate].
    cbn [rbind]. destruct (_is_http v) as [[]|]; try discriminate;
      cbn [rbind negb]; [|now intros [= <-]].
    destruct (_same_domain self v) as [[]|]; try discriminate; cbn [rbind];
      intros [= <-]; [|exact Hs].
    intros x [->%elem_of_singleton|Hx]%elem_of_union; [eauto | now apply Hs].
  - intros x Hx. now apply not_elem_of_empty in Hx.
Qed.

Lemma extract_css_urls_scope self self' base_url css_text :
  base self' = base self ->
  include_subdomains self' = include_subdomains self ->
  extract_css_urls css_refs self' base_url css_text
  = extract_css_urls css_refs self base_url css_text.
Proof.
  intros Hb Hi. unfold extract_css_urls. apply foldM_ext. intros s m.
  destruct (urllib.urljoin _ _); [|reflexivity]. cbn [rbind].
  destruct (_normalize_url _); [|reflexivity]. cbn [rbind].
  destruct (_is_http _) as [[]|]; try reflexivity. cbn [rbind negb].
  now rewrite (same_domain_scope self self' _ Hb Hi).
Qed.

End CssFacts.

(** X17 -- Every URL [extract_css_urls] returns comes from a reference the
    pattern captured: it is the normal form of that reference, stripped
    and joined to the URL of the style sheet; it is an HTTP(S) URL, in
    scope, and holds no fragment delimiter.  A style sheet without
    [url(] gives nothing, and the result depends on the object only
    through [base] and [include_subdomains]. *)
Theorem extract_css_urls_sound (self : SiteMirror)
    (base_url css_text : string) (urls : gset string) :
  extract_css_urls CSS_URL_RE.finditer self base_url css_text = Ok urls ->
  (forall x, x ∈ urls ->
     (exists m j, In m (CSS_URL_RE.finditer css_text)
                  /\ urllib.urljoin base_url (Py.strip m) = Ok j
                  /\ _normalize_url j = Ok x)
     /\ _is_http x = Ok true /\ _same_domain self x = Ok true
     /\ Py.mem "#" x = false)
  /\ (CSS_URL_RE.finditer css_text = [] -> urls = ∅)
  /\ (forall self',
        base self' = base self ->
        include_subdomains self' = include_subdomains self ->
        extract_css_urls CSS_URL_RE.finditer self' base_url css_text
        = Ok urls).
Proof.
  intros E. split; [|split].
  - intros x Hx.
    split; [exact (extract_css_urls_from _ _ _ _ _ E x Hx) |].
    destruct (extract_css_urls_extracted _ _ _ _ _ E x Hx) as (H1 & H2 & H3).
    split; [exact H2 |]. split; [exact H3 |].
    destruct H1 as (r & j & _ & Hn). exact (normalize_no_hash _ _ Hn).
  - intros Hm. revert E. unfold extract_css_urls. rewrite Hm.
    cbn [foldM]. now intros [= <-].
  - intros self' Hb Hi.
    now rewrite (extract_css_urls_scope _ self self' _ _ Hb Hi).
Qed.

Lemma extract_css_urls_sound_witness :
  (exists m j,
      In m (CSS_URL_RE.finditer
              "a{background:URL( 'img/a.png' )} b{src:url(//cdn.com/f)}")
      /\ urllib.urljoin "https://ex.com/css/site.css" (Py.strip m) = Ok j
      /\ _normalize_url j = Ok "https://ex.com/css/img/a.png")
  /\ _is_http "https://ex.com/css/img/a.png" = Ok true
  /\ _same_domain (ex_com_mirror false 0) "https://ex.com/css/img/a.png"
     = Ok true
  /\ Py.mem "#" "https://ex.com/css/img/a.png" = false.
Proof.
  assert (E : extract_css_urls CSS_URL_RE.finditer (ex_com_mirror false 0)
                "https://ex.com/css/site.css"
                "a{background:URL( 'img/a.png' )} b{src:url(//cdn.com/f)}"
              = Ok {["https://ex.com/css/img/a.png"]})
    by (vm_compute; reflexivity).
  apply (proj1 (extract_css_urls_sound _ _ _ _ E)).
  now apply elem_of_singleton.
Defined.

(** ** Failures in one turn of the worker *)

Section FailureProperties.

Variable session_get : string -> result Response.
Variable html_parser : string -> list Element.
Variable css_refs : string -> list string.
Variable mkdir_fails : pathlib.Path -> bool.
Variable write_fails : pathlib.Path -> bool.

(** X18 -- Which failures one turn of [worker] swallows and which end the
    worker.  A URL that robots disallow, a [RequestException], a status
    other than 200 and a file that cannot be written leave the crawl as
    it was: nothing is saved, counted or scheduled.  Any other exception
    of the request, and a directory that cannot be created, leave the
    loop as that exception. *)
Theorem process_task_failures (c : Crawl) (u : string) :
  let turn :=
    process_task session_get html_parser css_refs mkdir_fails write_fails
      c u in
  (_allowed_by_robots (mirror c) u = false -> turn = Ok c)
  /\ (session_get u = Raise RequestException -> turn = Ok c)
  /\ (forall resp,
        session_get u = Ok resp -> status_code resp <> 200%Z ->
        turn = Ok c)
  /\ (forall e,
        _allowed_by_robots (mirror c) u = true ->
        session_get u = Raise e -> e <> RequestException ->
        turn = Raise e)
  /\ (forall resp local_path,
        _allowed_by_robots (mirror c) u = true ->
        session_get u = Ok resp -> status_code resp = 200%Z ->
        url_to_local_path (mirror c) u (Some (content_type_of resp))
        = Ok local_path ->
        (mkdir_fails (pathlib.parent local_path) = true ->
         turn = Raise OSError)
        /\ (mkdir_fails (pathlib.parent local_path) = false ->
            write_fails local_path = true -> turn = Ok c)).
Proof.
  intros turn. subst turn. unfold process_task, fetch, save_response.
  split; [intros ->; reflexivity |].
  split; [intros ->; now destruct (negb _) |].
  split.
  { intros resp -> Hs. destruct (negb _); [reflexivity |]. cbn [rbind].
    destruct (Z.eqb_spec (status_code resp) 200); [contradiction |].
    reflexivity. }
  split.
  { intros e -> -> He. cbn [negb]. now destruct e. }
  intros resp lp -> -> Hs El. cbn [negb rbind].
  rewrite Hs, El. cbn [Z.eqb Pos.eqb negb rbind].
  split; [intros ->; reflexivity |]. intros -> ->. reflexivity.
Qed.

End FailureProperties.

Lemma process_task_failures_witness :
  process_task (scenario_a_get true) scenario_a_parser (fun _ => [])
    (fun _ => false) (fun _ => false) (mkCrawl (ex_com_mirror false 0) [])
    "https://ex.com/missing"
  = Ok (mkCrawl (ex_com_mirror false 0) []).
Proof.
  apply (proj1 (proj2
           (process_task_failures (scenario_a_get true) scenario_a_parser
              (fun _ => []) (fun _ => false) (fun _ => false)
              (mkCrawl (ex_com_mirror false 0) []) "https://ex.com/missing"))).
  reflexivity.
Defined.
